(** * TerminalPage: tab collection, MRU order, tab switcher and zoom

    A shallow embedding of the tab and pane orchestration of
    [TerminalPage.cpp] (the page that owns the tab row of the terminal
    window), and the properties of its natural-language specification.

    The page keeps two [IObservableVector<TabBase>]: [_tabs] (display order)
    and [_mruTabs] (most recently used first).  It talks to a XAML [TabView]
    (tab items, selected item) whose events call back into the page, and to
    the command palette, which doubles as the tab switcher. *)

From stdpp Require Import base option list gmap.
From Stdlib Require Import ZArith Lia.

Local Open Scope Z_scope.

(** ** Machine integers

    Tab indices are [uint32_t]; [std::clamp<int32_t>] and [SelectedIndex()]
    work on [int32_t].  Both are integers in [Z], with the conversions
    written out. *)

Definition to_uint32 (z : Z) : Z := z mod 2 ^ 32.

Definition to_int32 (z : Z) : Z := (z + 2 ^ 31) mod 2 ^ 32 - 2 ^ 31.

(** [std::clamp(v, lo, hi)], as the library computes it. *)
Definition clamp (v lo hi : Z) : Z :=
  if v <? lo then lo else if hi <? v then hi else v.

(** ** WinRT vectors

    [IVector<T>] over a list.  [GetAt], [RemoveAt] and [InsertAt] raise
    [hresult_out_of_bounds] outside their range: here they return [None].
    [IndexOf] reports the first position that holds the element. *)

Module IVector.
Section Ops.
Context {A : Type} `{EqDecision A}.

Definition Size (v : list A) : Z := Z.of_nat (length v).

Definition GetAt (v : list A) (i : Z) : option A :=
  if decide (0 <= i) then v !! Z.to_nat i else None.

Definition Append (v : list A) (x : A) : list A := v ++ [x].

Definition RemoveAt (v : list A) (i : Z) : option (list A) :=
  if decide (0 <= i < Size v) then Some (delete (Z.to_nat i) v) else None.

Definition InsertAt (v : list A) (i : Z) (x : A) : option (list A) :=
  if decide (0 <= i <= Size v)
  then Some (take (Z.to_nat i) v ++ x :: drop (Z.to_nat i) v)
  else None.

Fixpoint index_of (v : list A) (x : A) : option nat :=
  match v with
  | [] => None
  | y :: v' => if decide (y = x) then Some O else S <$> index_of v' x
  end.

Definition IndexOf (v : list A) (x : A) : option Z :=
  Z.of_nat <$> index_of v x.
End Ops.
End IVector.
Import IVector.

(** ** Data model *)

(** A tab is named by its object identity. *)
Definition TabBase := nat.
Definition GUID := nat.

Inductive Visibility := Visible | Collapsed.
Inductive TabSwitcherMode := MostRecentlyUsed | InOrder | Disabled.
Inductive StartupState := NotInitialized | InStartup | Initialized.
Inductive FocusState := Unfocused | Programmatic.
Inductive ContentDialogResult := DialogNone | Primary | Secondary.
Inductive SplitState := SplitNone | SplitAutomatic | SplitVertical | SplitHorizontal.
Inductive SplitType := Manual | Duplicate.
Inductive Direction := DirLeft | DirRight | DirUp | DirDown.

Global Instance Visibility_eq_dec : EqDecision Visibility.
Proof. solve_decision. Defined.
Global Instance TabSwitcherMode_eq_dec : EqDecision TabSwitcherMode.
Proof. solve_decision. Defined.
Global Instance StartupState_eq_dec : EqDecision StartupState.
Proof. solve_decision. Defined.
Global Instance ContentDialogResult_eq_dec : EqDecision ContentDialogResult.
Proof. solve_decision. Defined.
Global Instance SplitState_eq_dec : EqDecision SplitState.
Proof. solve_decision. Defined.
Global Instance SplitType_eq_dec : EqDecision SplitType.
Proof. solve_decision. Defined.

(** ** The XAML [TabView]

    [TabItems] holds one [TabViewItem] per tab, named here by its tab, and
    [SelectedItem] the selected one.  [RaisesTabItemsChanged] is the
    environment's part: in fullscreen and focus modes (GH#5799, GH#7916)
    the control does not raise [TabItemsChanged]. *)
Record TabView := {
  TabItems : list TabBase;
  SelectedItem : option TabBase;
  RaisesTabItemsChanged : bool
}.

(** ** The command palette as tab switcher

    Modelled from the spec: [CommandPalette] is not under src/.  The fields
    of the switcher session are those of the spec's data model: [open],
    [mode], [anchorIndex], the [workingOrder] snapshot and the [cursor]. *)
Record CommandPalette := {
  cp_Visibility : Visibility;
  cp_open : bool;
  cp_mode : TabSwitcherMode;
  cp_anchorIndex : Z;
  cp_workingOrder : list TabBase;
  cp_cursor : Z;
  cp_tabs : list TabBase;
  cp_mruTabs : list TabBase
}.

(** ** Settings: what the page reads of [CascadiaSettings]. *)
Record CascadiaSettings := {
  GlobalTabSwitcherMode : TabSwitcherMode;
  Profiles : list GUID
}.

(** ** Tab objects

    What the page asks of a tab's pane tree, in the order it asks, each
    request with the zoom state of the tab when it arrives. *)
Inductive PaneCall :=
  | CallSplitPane (splitType : SplitState) (profile : GUID)
  | CallResizePane (direction : Direction)
  | CallNavigateFocus (direction : Direction)
  | CallClosePane.

(** Modelled from the spec: [TerminalTab], [SettingsTab] and [Pane] are not
    under src/.  The attributes of the tab objects are kept by identity:
    which tabs are terminal tabs, which are zoomed (a flag on the tab, the
    tree is not touched), which are read-only, the profile of the focused
    pane, the [FocusState] last given to the tab. *)
Record TabObjects := {
  nextTab : TabBase;
  terminalTabs : gset TabBase;
  zoomedTabs : gset TabBase;
  readOnlyTabs : gset TabBase;
  readOnlyControls : gset TabBase;
  focusedProfiles : gmap TabBase GUID;
  focusedTabs : gset TabBase;
  shutdownTabs : gset TabBase;
  paneCalls : list (TabBase * PaneCall * bool)
}.

(** Continuations parked on the UI dispatcher by [co_await
    winrt::resume_foreground]. *)
Inductive Continuation :=
  | Resume_SetFocusedTabIndex (tabIndex : Z).

(** ** The page *)
Record TerminalPage := {
  _tabs : list TabBase;
  _mruTabs : list TabBase;
  _tabView : TabView;
  _tabContent : option TabBase;
  _commandPalette : CommandPalette;
  _newTabFlyoutIsOpen : bool;
  _rearranging : bool;
  _rearrangeFrom : option Z;
  _rearrangeTo : option Z;
  _removing : bool;
  _startupState : StartupState;
  _settings : CascadiaSettings;
  _settingsTab : option TabBase;
  _dispatcher : list Continuation;
  _objects : TabObjects;
  _lastTabClosed : bool
}.

Definition with_tabs (v : list TabBase) (p : TerminalPage) : TerminalPage :=
  {| _tabs := v; _mruTabs := _mruTabs p; _tabView := _tabView p;
     _tabContent := _tabContent p; _commandPalette := _commandPalette p;
     _newTabFlyoutIsOpen := _newTabFlyoutIsOpen p;
     _rearranging := _rearranging p; _rearrangeFrom := _rearrangeFrom p;
     _rearrangeTo := _rearrangeTo p; _removing := _removing p;
     _startupState := _startupState p; _settings := _settings p;
     _settingsTab := _settingsTab p; _dispatcher := _dispatcher p;
     _objects := _objects p; _lastTabClosed := _lastTabClosed p |}.

Definition with_mruTabs (v : list TabBase) (p : TerminalPage) : TerminalPage :=
  {| _tabs := _tabs p; _mruTabs := v; _tabView := _tabView p;
     _tabContent := _tabContent p; _commandPalette := _commandPalette p;
     _newTabFlyoutIsOpen := _newTabFlyoutIsOpen p;
     _rearranging := _rearranging p; _rearrangeFrom := _rearrangeFrom p;
     _rearrangeTo := _rearrangeTo p; _removing := _removing p;
     _startupState := _startupState p; _settings := _settings p;
     _settingsTab := _settingsTab p; _dispatcher := _dispatcher p;
     _objects := _objects p; _lastTabClosed := _lastTabClosed p |}.

Definition with_tabView (v : TabView) (p : TerminalPage) : TerminalPage :=
  {| _tabs := _tabs p; _mruTabs := _mruTabs p; _tabView := v;
     _tabContent := _tabContent p; _commandPalette := _commandPalette p;
     _newTabFlyoutIsOpen := _newTabFlyoutIsOpen p;
     _rearranging := _rearranging p; _rearrangeFrom := _rearrangeFrom p;
     _rearrangeTo := _rearrangeTo p; _removing := _removing p;
     _startupState := _startupState p; _settings := _settings p;
     _settingsTab := _settingsTab p; _dispatcher := _dispatcher p;
     _objects := _objects p; _lastTabClosed := _lastTabClosed p |}.

Definition with_tabContent (v : option TabBase) (p : TerminalPage) : TerminalPage :=
  {| _tabs := _tabs p; _mruTabs := _mruTabs p; _tabView := _tabView p;
     _tabContent := v; _commandPalette := _commandPalette p;
     _newTabFlyoutIsOpen := _newTabFlyoutIsOpen p;
     _rearranging := _rearranging p; _rearrangeFrom := _rearrangeFrom p;
     _rearrangeTo := _rearrangeTo p; _removing := _removing p;
     _startupState := _startupState p; _settings := _settings p;
     _settingsTab := _settingsTab p; _dispatcher := _dispatcher p;
     _objects := _objects p; _lastTabClosed := _lastTabClosed p |}.

Definition with_commandPalette (v : CommandPalette) (p : TerminalPage) : TerminalPage :=
  {| _tabs := _tabs p; _mruTabs := _mruTabs p; _tabView := _tabView p;
     _tabContent := _tabContent p; _commandPalette := v;
     _newTabFlyoutIsOpen := _newTabFlyoutIsOpen p;
     _rearranging := _rearranging p; _rearrangeFrom := _rearrangeFrom p;
     _rearrangeTo := _rearrangeTo p; _removing := _removing p;
     _startupState := _startupState p; _settings := _settings p;
     _settingsTab := _settingsTab p; _dispatcher := _dispatcher p;
     _objects := _objects p; _lastTabClosed := _lastTabClosed p |}.

Definition with_rearranging (v : bool) (p : TerminalPage) : TerminalPage :=
  {| _tabs := _tabs p; _mruTabs := _mruTabs p; _tabView := _tabView p;
     _tabContent := _tabContent p; _commandPalette := _commandPalette p;
     _newTabFlyoutIsOpen := _newTabFlyoutIsOpen p;
     _rearranging := v; _rearrangeFrom := _rearrangeFrom p;
     _rearrangeTo := _rearrangeTo p; _removing := _removing p;
     _startupState := _startupState p; _settings := _settings p;
     _settingsTab := _settingsTab p; _dispatcher := _dispatcher p;
     _objects := _objects p; _lastTabClosed := _lastTabClosed p |}.

Definition with_rearrangeFrom (v : option Z) (p : TerminalPage) : TerminalPage :=
  {| _tabs := _tabs p; _mruTabs := _mruTabs p; _tabView := _tabView p;
     _tabContent := _tabContent p; _commandPalette := _commandPalette p;
     _newTabFlyoutIsOpen := _newTabFlyoutIsOpen p;
     _rearranging := _rearranging p; _rearrangeFrom := v;
     _rearrangeTo := _rearrangeTo p; _removing := _removing p;
     _startupState := _startupState p; _settings := _settings p;
     _settingsTab := _settingsTab p; _dispatcher := _dispatcher p;
     _objects := _objects p; _lastTabClosed := _lastTabClosed p |}.

Definition with_rearrangeTo (v : option Z) (p : TerminalPage) : TerminalPage :=
  {| _tabs := _tabs p; _mruTabs := _mruTabs p; _tabView := _tabView p;
     _tabContent := _tabContent p; _commandPalette := _commandPalette p;
     _newTabFlyoutIsOpen := _newTabFlyoutIsOpen p;
     _rearranging := _rearranging p; _rearrangeFrom := _rearrangeFrom p;
     _rearrangeTo := v; _removing := _removing p;
     _startupState := _startupState p; _settings := _settings p;
     _settingsTab := _settingsTab p; _dispatcher := _dispatcher p;
     _objects := _objects p; _lastTabClosed := _lastTabClosed p |}.

Definition with_removing (v : bool) (p : TerminalPage) : TerminalPage :=
  {| _tabs := _tabs p; _mruTabs := _mruTabs p; _tabView := _tabView p;
     _tabContent := _tabContent p; _commandPalette := _commandPalette p;
     _newTabFlyoutIsOpen := _newTabFlyoutIsOpen p;
     _rearranging := _rearranging p; _rearrangeFrom := _rearrangeFrom p;
     _rearrangeTo := _rearrangeTo p; _removing := v;
     _startupState := _startupState p; _settings := _settings p;
     _settingsTab := _settingsTab p; _dispatcher := _dispatcher p;
     _objects := _objects p; _lastTabClosed := _lastTabClosed p |}.

Definition with_settingsTab (v : option TabBase) (p : TerminalPage) : TerminalPage :=
  {| _tabs := _tabs p; _mruTabs := _mruTabs p; _tabView := _tabView p;
     _tabContent := _tabContent p; _commandPalette := _commandPalette p;
     _newTabFlyoutIsOpen := _newTabFlyoutIsOpen p;
     _rearranging := _rearranging p; _rearrangeFrom := _rearrangeFrom p;
     _rearrangeTo := _rearrangeTo p; _removing := _removing p;
     _startupState := _startupState p; _settings := _settings p;
     _settingsTab := v; _dispatcher := _dispatcher p;
     _objects := _objects p; _lastTabClosed := _lastTabClosed p |}.

Definition with_dispatcher (v : list Continuation) (p : TerminalPage) : TerminalPage :=
  {| _tabs := _tabs p; _mruTabs := _mruTabs p; _tabView := _tabView p;
     _tabContent := _tabContent p; _commandPalette := _commandPalette p;
     _newTabFlyoutIsOpen := _newTabFlyoutIsOpen p;
     _rearranging := _rearranging p; _rearrangeFrom := _rearrangeFrom p;
     _rearrangeTo := _rearrangeTo p; _removing := _removing p;
     _startupState := _startupState p; _settings := _settings p;
     _settingsTab := _settingsTab p; _dispatcher := v;
     _objects := _objects p; _lastTabClosed := _lastTabClosed p |}.

Definition with_objects (v : TabObjects) (p : TerminalPage) : TerminalPage :=
  {| _tabs := _tabs p; _mruTabs := _mruTabs p; _tabView := _tabView p;
     _tabContent := _tabContent p; _commandPalette := _commandPalette p;
     _newTabFlyoutIsOpen := _newTabFlyoutIsOpen p;
     _rearranging := _rearranging p; _rearrangeFrom := _rearrangeFrom p;
     _rearrangeTo := _rearrangeTo p; _removing := _removing p;
     _startupState := _startupState p; _settings := _settings p;
     _settingsTab := _settingsTab p; _dispatcher := _dispatcher p;
     _objects := v; _lastTabClosed := _lastTabClosed p |}.

Definition with_lastTabClosed (v : bool) (p : TerminalPage) : TerminalPage :=
  {| _tabs := _tabs p; _mruTabs := _mruTabs p; _tabView := _tabView p;
     _tabContent := _tabContent p; _commandPalette := _commandPalette p;
     _newTabFlyoutIsOpen := _newTabFlyoutIsOpen p;
     _rearranging := _rearranging p; _rearrangeFrom := _rearrangeFrom p;
     _rearrangeTo := _rearrangeTo p; _removing := _removing p;
     _startupState := _startupState p; _settings := _settings p;
     _settingsTab := _settingsTab p; _dispatcher := _dispatcher p;
     _objects := _objects p; _lastTabClosed := v |}.

(** ** Control flow

    A method either returns, or raises a C++ exception (here always an
    [hresult_error], which [CATCH_LOG] swallows), or runs into undefined
    behaviour (an integer division by zero).  The page reached so far
    travels with the first two. *)
Inductive Outcome (A : Type) :=
  | Ret (a : A) (p : TerminalPage)
  | Throw (p : TerminalPage)
  | Fault.
Arguments Ret {A} a p.
Arguments Throw {A} p.
Arguments Fault {A}.

Definition M (A : Type) : Type := TerminalPage → Outcome A.

Definition ret {A} (a : A) : M A := λ p, Ret a p.

Definition bind {A B} (m : M A) (k : A → M B) : M B :=
  λ p, match m p with
       | Ret a p' => k a p'
       | Throw p' => Throw p'
       | Fault => Fault
       end.

Declare Scope page_scope.
Delimit Scope page_scope with page.
Notation "x <- m ;; k" := (bind m (λ x, k))
  (at level 100, m at next level, right associativity) : page_scope.
Notation "m ;;; k" := (bind m (λ _, k))
  (at level 100, right associativity) : page_scope.
Local Open Scope page_scope.

Definition get {A} (f : TerminalPage → A) : M A := λ p, Ret (f p) p.
Definition modify (f : TerminalPage → TerminalPage) : M unit := λ p, Ret tt (f p).
Definition throw {A} : M A := λ p, Throw p.
Definition fault {A} : M A := λ _, Fault.

(** An [IVector] call that may raise. *)
Definition check {A} (o : option A) : M A :=
  match o with Some a => ret a | None => throw end.

(** [try { ... } CATCH_LOG()]. *)
Definition CATCH_LOG (m : M unit) : M unit :=
  λ p, match m p with
       | Ret a p' => Ret a p'
       | Throw p' => Ret tt p'
       | Fault => Fault
       end.

(** [wil::scope_exit]: [after] runs however [m] leaves. *)
Definition scope_exit {A} (after : TerminalPage → TerminalPage) (m : M A) : M A :=
  λ p, match m p with
       | Ret a p' => Ret a (after p')
       | Throw p' => Throw (after p')
       | Fault => Fault
       end.

Definition when (b : bool) (m : M unit) : M unit := if b then m else ret tt.

(** ** Tab objects: the calls the page makes on them *)

Definition with_focusedTabs (v : gset TabBase) (o : TabObjects) : TabObjects :=
  {| nextTab := nextTab o; terminalTabs := terminalTabs o;
     zoomedTabs := zoomedTabs o; readOnlyTabs := readOnlyTabs o;
     readOnlyControls := readOnlyControls o;
     focusedProfiles := focusedProfiles o; focusedTabs := v;
     shutdownTabs := shutdownTabs o; paneCalls := paneCalls o |}.

Definition with_zoomedTabs (v : gset TabBase) (o : TabObjects) : TabObjects :=
  {| nextTab := nextTab o; terminalTabs := terminalTabs o;
     zoomedTabs := v; readOnlyTabs := readOnlyTabs o;
     readOnlyControls := readOnlyControls o;
     focusedProfiles := focusedProfiles o; focusedTabs := focusedTabs o;
     shutdownTabs := shutdownTabs o; paneCalls := paneCalls o |}.

Definition with_readOnlyControls (v : gset TabBase) (o : TabObjects) : TabObjects :=
  {| nextTab := nextTab o; terminalTabs := terminalTabs o;
     zoomedTabs := zoomedTabs o; readOnlyTabs := readOnlyTabs o;
     readOnlyControls := v;
     focusedProfiles := focusedProfiles o; focusedTabs := focusedTabs o;
     shutdownTabs := shutdownTabs o; paneCalls := paneCalls o |}.

Definition with_shutdownTabs (v : gset TabBase) (o : TabObjects) : TabObjects :=
  {| nextTab := nextTab o; terminalTabs := terminalTabs o;
     zoomedTabs := zoomedTabs o; readOnlyTabs := readOnlyTabs o;
     readOnlyControls := readOnlyControls o;
     focusedProfiles := focusedProfiles o; focusedTabs := focusedTabs o;
     shutdownTabs := v; paneCalls := paneCalls o |}.

Definition with_paneCalls (v : list (TabBase * PaneCall * bool)) (o : TabObjects) : TabObjects :=
  {| nextTab := nextTab o; terminalTabs := terminalTabs o;
     zoomedTabs := zoomedTabs o; readOnlyTabs := readOnlyTabs o;
     readOnlyControls := readOnlyControls o;
     focusedProfiles := focusedProfiles o; focusedTabs := focusedTabs o;
     shutdownTabs := shutdownTabs o; paneCalls := v |}.

(** [winrt::make_self<TerminalTab>(profileGuid, term)]: a new object, whose
    single pane runs [profileGuid]. *)
Definition new_TerminalTab (profileGuid : GUID) (o : TabObjects) : TabObjects :=
  {| nextTab := S (nextTab o);
     terminalTabs := {[nextTab o]} ∪ terminalTabs o;
     zoomedTabs := zoomedTabs o; readOnlyTabs := readOnlyTabs o;
     readOnlyControls := readOnlyControls o;
     focusedProfiles := <[nextTab o := profileGuid]> (focusedProfiles o);
     focusedTabs := focusedTabs o;
     shutdownTabs := shutdownTabs o; paneCalls := paneCalls o |}.

(** [winrt::make_self<SettingsTab>(sui)]. *)
Definition new_SettingsTab (o : TabObjects) : TabObjects :=
  {| nextTab := S (nextTab o); terminalTabs := terminalTabs o;
     zoomedTabs := zoomedTabs o; readOnlyTabs := readOnlyTabs o;
     readOnlyControls := readOnlyControls o;
     focusedProfiles := focusedProfiles o; focusedTabs := focusedTabs o;
     shutdownTabs := shutdownTabs o; paneCalls := paneCalls o |}.

Definition make_self_TerminalTab (profileGuid : GUID) : M TabBase :=
  λ p, Ret (nextTab (_objects p)) (with_objects (new_TerminalTab profileGuid (_objects p)) p).

Definition make_self_SettingsTab : M TabBase :=
  λ p, Ret (nextTab (_objects p)) (with_objects (new_SettingsTab (_objects p)) p).

(** [tab.Focus(state)]. *)
Definition Focus (tab : TabBase) (state : FocusState) : M unit :=
  modify (λ p, with_objects
    (with_focusedTabs
       (match state with
        | Programmatic => {[tab]} ∪ focusedTabs (_objects p)
        | Unfocused => focusedTabs (_objects p) ∖ {[tab]}
        end) (_objects p)) p).

Definition ReadOnly (tab : TabBase) : M bool :=
  get (λ p, bool_decide (tab ∈ readOnlyTabs (_objects p))).

Definition Shutdown (tab : TabBase) : M unit :=
  modify (λ p, with_objects
    (with_shutdownTabs ({[tab]} ∪ shutdownTabs (_objects p)) (_objects p)) p).

Definition IsZoomed (tab : TabBase) : M bool :=
  get (λ p, bool_decide (tab ∈ zoomedTabs (_objects p))).

(** Modelled from the spec: [TerminalTab::ExitZoom] is not under src/.
    Unzoom is a state toggle on the tab: it clears the zoom flag. *)
Definition ExitZoom (tab : TabBase) : M unit :=
  modify (λ p, with_objects
    (with_zoomedTabs (zoomedTabs (_objects p) ∖ {[tab]}) (_objects p)) p).

Definition GetFocusedProfile (tab : TabBase) : M (option GUID) :=
  get (λ p, focusedProfiles (_objects p) !! tab).

(** A request to the pane tree of [tab]: [SplitPane], [ResizePane],
    [NavigateFocus] on the tab, [Close] on its active pane.  The tree is
    behind the tab; the request is recorded with the zoom flag it meets. *)
Definition PaneRequest (tab : TabBase) (c : PaneCall) : M unit :=
  modify (λ p, with_objects
    (with_paneCalls
       (paneCalls (_objects p) ++
        [(tab, c, bool_decide (tab ∈ zoomedTabs (_objects p)))])
       (_objects p)) p).

(** Modelled from the spec: [GetLeafPaneCount] is not under src/.  A tree
    starts as one leaf, a split adds a leaf, a close removes one. *)
Definition isSplitOf (tab : TabBase) (c : TabBase * PaneCall * bool) : bool :=
  match c with
  | (t, CallSplitPane _ _, _) => bool_decide (t = tab)
  | _ => false
  end.

Definition isCloseOf (tab : TabBase) (c : TabBase * PaneCall * bool) : bool :=
  match c with
  | (t, CallClosePane, _) => bool_decide (t = tab)
  | _ => false
  end.

Definition GetLeafPaneCount (o : TabObjects) (tab : TabBase) : Z :=
  1 + Size (filter (λ c, Is_true (isSplitOf tab c)) (paneCalls o))
    - Size (filter (λ c, Is_true (isCloseOf tab c)) (paneCalls o)).

(** Modelled from the spec: [TerminalSettings::CreateWithProfileByID] is not
    under src/.  Profile resolution answers [ProfileSettings] or [NotFound];
    the callers' comments say that a profile that does not exist any more
    makes them do nothing, which they do by catching what this raises. *)
Definition CreateWithProfileByID (profileGuid : GUID) : M unit :=
  profiles <- get (λ p, Profiles (_settings p));;
  if decide (profileGuid ∈ profiles) then ret tt else throw.

(** ** Statements on the page's vectors *)

Definition tabs_Size : M Z := get (λ p, Size (_tabs p)).
Definition tabs_GetAt (i : Z) : M TabBase :=
  v <- get _tabs;; check (GetAt v i).
Definition tabs_IndexOf (tab : TabBase) : M (option Z) :=
  get (λ p, IndexOf (_tabs p) tab).
Definition tabs_Append (tab : TabBase) : M unit :=
  modify (λ p, with_tabs (Append (_tabs p) tab) p).
Definition tabs_RemoveAt (i : Z) : M unit :=
  v <- get _tabs;; v' <- check (RemoveAt v i);; modify (with_tabs v').
Definition tabs_InsertAt (i : Z) (tab : TabBase) : M unit :=
  v <- get _tabs;; v' <- check (InsertAt v i tab);; modify (with_tabs v').

Definition mruTabs_GetAt (i : Z) : M TabBase :=
  v <- get _mruTabs;; check (GetAt v i).
Definition mruTabs_IndexOf (tab : TabBase) : M (option Z) :=
  get (λ p, IndexOf (_mruTabs p) tab).
Definition mruTabs_Append (tab : TabBase) : M unit :=
  modify (λ p, with_mruTabs (Append (_mruTabs p) tab) p).
Definition mruTabs_RemoveAt (i : Z) : M unit :=
  v <- get _mruTabs;; v' <- check (RemoveAt v i);; modify (with_mruTabs v').
Definition mruTabs_InsertAt (i : Z) (tab : TabBase) : M unit :=
  v <- get _mruTabs;; v' <- check (InsertAt v i tab);; modify (with_mruTabs v').

(** ** The page's methods *)

(** [_UpdateMRUTab]: bumps the tab at in-order [index] to the top of the
    MRU list. *)
Definition _UpdateMRUTab (index : Z) : M unit :=
  tab <- tabs_GetAt index;;
  found <- mruTabs_IndexOf tab;;
  match found with
  | Some mruIndex =>
      if decide (mruIndex > 0) then
        mruTabs_RemoveAt mruIndex;;;
        mruTabs_InsertAt 0 tab
      else ret tt
  | None => ret tt
  end.

(** [_GetFocusedTabIndex]: the position of the [TabView]'s selected item
    among its items, if there is one. *)
Definition _GetFocusedTabIndex : M (option Z) :=
  get (λ p, match SelectedItem (_tabView p) with
            | Some item => IndexOf (TabItems (_tabView p)) item
            | None => None
            end).

(** [tabView.SelectedIndex()]: -1 without a selection. *)
Definition SelectedIndex : M Z :=
  focused <- _GetFocusedTabIndex;;
  ret (default (-1) focused).

(** A [noexcept] function that lets an exception out ends the process. *)
Definition noexcept {A} (m : M A) : M A :=
  λ p, match m p with
       | Ret a p' => Ret a p'
       | Throw _ => Fault
       | Fault => Fault
       end.

Definition _GetFocusedTab : M (option TabBase) :=
  noexcept (
    focused <- _GetFocusedTabIndex;;
    match focused with
    | Some index => tab <- tabs_GetAt index;; ret (Some tab)
    | None => ret None
    end).

(** [_GetTerminalTabImpl]: the tab when it is a [TerminalTab], else null. *)
Definition _GetTerminalTabImpl (tab : TabBase) : M (option TabBase) :=
  get (λ p, if decide (tab ∈ terminalTabs (_objects p)) then Some tab else None).

Definition _GetFocusedTabImpl : M (option TabBase) :=
  noexcept (
    focused <- _GetFocusedTab;;
    match focused with
    | Some tab => _GetTerminalTabImpl tab
    | None => ret None
    end).

(** [_UpdatedSelectedTab]: unfocuses every tab, attaches the content of the
    tab at [index] and, unless the command palette is showing, gives it the
    focus and bumps it in the MRU list.  [index] is an [int32_t]. *)
Definition _UpdatedSelectedTab (index : Z) : M unit :=
  modify (λ p, with_objects
    (with_focusedTabs (focusedTabs (_objects p) ∖ list_to_set (_tabs p))
       (_objects p)) p);;;
  if decide (index >= 0) then
    CATCH_LOG (
      tab <- tabs_GetAt (to_uint32 index);;
      modify (with_tabContent (Some tab));;;
      visibility <- get (λ p, cp_Visibility (_commandPalette p));;
      (if decide (visibility ≠ Visible) then
         Focus tab Programmatic;;;
         _UpdateMRUTab (to_uint32 index)
       else ret tt))
  else ret tt.

(** [_OnTabSelectionChanged]: the handler of [TabView::SelectionChanged]. *)
Definition _OnTabSelectionChanged : M unit :=
  rearranging <- get _rearranging;;
  removing <- get _removing;;
  if negb rearranging && negb removing then
    selectedIndex <- SelectedIndex;;
    _UpdatedSelectedTab selectedIndex
  else ret tt.

(** [_CommandPaletteClosed]: returns the focus to the active tab. *)
Definition _CommandPaletteClosed : M unit :=
  flyoutOpen <- get _newTabFlyoutIsOpen;;
  if negb flyoutOpen then
    focused <- _GetFocusedTabIndex;;
    match focused with
    | Some index =>
        tab <- tabs_GetAt index;;
        Focus tab Programmatic;;;
        _UpdateMRUTab index
    | None => ret tt
    end
  else ret tt.

(** The [Opening] handler that [_CreateNewTabFlyout] gives the new-tab
    flyout. *)
Definition newTabFlyout_Opening : M unit :=
  focused <- _GetFocusedTabIndex;;
  match focused with
  | Some index =>
      tab <- tabs_GetAt index;;
      Focus tab Programmatic;;;
      _UpdateMRUTab index
  | None => ret tt
  end.

(** ** The command palette, seen from the page *)

Definition with_cp_Visibility (v : Visibility) (c : CommandPalette) : CommandPalette :=
  {| cp_Visibility := v;
     cp_open := match v with Visible => cp_open c | Collapsed => false end;
     cp_mode := cp_mode c; cp_anchorIndex := cp_anchorIndex c;
     cp_workingOrder := cp_workingOrder c; cp_cursor := cp_cursor c;
     cp_tabs := cp_tabs c; cp_mruTabs := cp_mruTabs c |}.

(** [CommandPalette().Visibility(v)].  A change of the property runs the
    callback that [Create] registers, which calls [_CommandPaletteClosed]
    when the palette is now collapsed.  Modelled from the spec: dismissal
    ends the switcher session. *)
Definition CommandPalette_Visibility (v : Visibility) : M unit :=
  old <- get (λ p, cp_Visibility (_commandPalette p));;
  if decide (old = v) then ret tt
  else
    modify (λ p, with_commandPalette (with_cp_Visibility v (_commandPalette p)) p);;;
    if decide (v = Collapsed) then _CommandPaletteClosed else ret tt.

(** [CommandPalette().SetTabs(_tabs, _mruTabs)]. *)
Definition CommandPalette_SetTabs : M unit :=
  modify (λ p, with_commandPalette
    {| cp_Visibility := cp_Visibility (_commandPalette p);
       cp_open := cp_open (_commandPalette p);
       cp_mode := cp_mode (_commandPalette p);
       cp_anchorIndex := cp_anchorIndex (_commandPalette p);
       cp_workingOrder := cp_workingOrder (_commandPalette p);
       cp_cursor := cp_cursor (_commandPalette p);
       cp_tabs := _tabs p; cp_mruTabs := _mruTabs p |} p).

(** Modelled from the spec: [CommandPalette::EnableTabSwitcherMode] is not
    under src/.  The first request of an interaction opens the session: the
    working order is a snapshot of the display order (InOrder) or of the MRU
    order (MostRecentlyUsed), and the cursor is where the focused tab stands
    in it.  While the session is open the snapshot is not taken again. *)
Definition CommandPalette_EnableTabSwitcherMode (startIdx : Z) (mode : TabSwitcherMode) : M unit :=
  modify (λ p,
    let c := _commandPalette p in
    if cp_open c then p
    else
      let order := match mode with
                   | MostRecentlyUsed => cp_mruTabs c
                   | _ => cp_tabs c
                   end in
      let cursor := match GetAt (cp_tabs c) startIdx with
                    | Some tab => default 0 (IndexOf order tab)
                    | None => 0
                    end in
      with_commandPalette
        {| cp_Visibility := cp_Visibility c; cp_open := true;
           cp_mode := mode; cp_anchorIndex := startIdx;
           cp_workingOrder := order; cp_cursor := cursor;
           cp_tabs := cp_tabs c; cp_mruTabs := cp_mruTabs c |} p).

(** ** The [TabView], seen from the page

    The control is XAML's; its behaviour is taken from what the page's own
    comments say of it: setting the selected item "kicks off
    TabView::SelectionChanged"; after the selected item is removed the
    selected index "will always return -1"; a change of the items raises
    [TabItemsChanged], except in fullscreen and focus modes. *)

Definition with_TabItems (v : list TabBase) (t : TabView) : TabView :=
  {| TabItems := v; SelectedItem := SelectedItem t;
     RaisesTabItemsChanged := RaisesTabItemsChanged t |}.

Definition with_SelectedItem (v : option TabBase) (t : TabView) : TabView :=
  {| TabItems := TabItems t; SelectedItem := v;
     RaisesTabItemsChanged := RaisesTabItemsChanged t |}.

(** [_tabView.SelectedItem(item)]. *)
Definition TabView_SelectedItem (item : TabBase) : M unit :=
  old <- get (λ p, SelectedItem (_tabView p));;
  if decide (old = Some item) then ret tt
  else
    modify (λ p, with_tabView (with_SelectedItem (Some item) (_tabView p)) p);;;
    _OnTabSelectionChanged.

Inductive CollectionChange := ItemInserted | ItemRemoved.

(** [_OnTabItemsChanged]: the handler of [TabView::TabItemsChanged]. *)
Definition _OnTabItemsChanged (change : CollectionChange) (index : Z) : M unit :=
  rearranging <- get _rearranging;;
  (if rearranging then
     match change with
     | ItemRemoved => modify (with_rearrangeFrom (Some index))
     | ItemInserted => modify (with_rearrangeTo (Some index))
     end
   else ret tt);;;
  CommandPalette_Visibility Collapsed.

Definition raise_TabItemsChanged (change : CollectionChange) (index : Z) : M unit :=
  raises <- get (λ p, RaisesTabItemsChanged (_tabView p));;
  if raises then _OnTabItemsChanged change index else ret tt.

(** [_tabView.TabItems().Append(item)]. *)
Definition TabItems_Append (item : TabBase) : M unit :=
  n <- get (λ p, Size (TabItems (_tabView p)));;
  modify (λ p, with_tabView (with_TabItems (Append (TabItems (_tabView p)) item) (_tabView p)) p);;;
  raise_TabItemsChanged ItemInserted n.

(** [_tabView.TabItems().InsertAt(index, item)]. *)
Definition TabItems_InsertAt (index : Z) (item : TabBase) : M unit :=
  v <- get (λ p, TabItems (_tabView p));;
  v' <- check (InsertAt v index item);;
  modify (λ p, with_tabView (with_TabItems v' (_tabView p)) p);;;
  raise_TabItemsChanged ItemInserted index.

(** [_tabView.TabItems().RemoveAt(index)]: when the selected item goes, the
    control is left without a selection. *)
Definition TabItems_RemoveAt (index : Z) : M unit :=
  v <- get (λ p, TabItems (_tabView p));;
  item <- check (GetAt v index);;
  v' <- check (RemoveAt v index);;
  modify (λ p, with_tabView (with_TabItems v' (_tabView p)) p);;;
  selected <- get (λ p, SelectedItem (_tabView p));;
  (if decide (selected = Some item) then
     modify (λ p, with_tabView (with_SelectedItem None (_tabView p)) p);;;
     _OnTabSelectionChanged
   else ret tt);;;
  raise_TabItemsChanged ItemRemoved index.

(** ** Selecting a tab *)

(** [_SetFocusedTabIndex]: a [fire_and_forget] coroutine.  It parks on the
    dispatcher at once; the rest runs on a later pass of the UI thread. *)
Definition _SetFocusedTabIndex (tabIndex : Z) : M unit :=
  modify (λ p, with_dispatcher (_dispatcher p ++ [Resume_SetFocusedTabIndex tabIndex]) p).

(** An exception that leaves a [fire_and_forget] coroutine ends the
    process. *)
Definition fire_and_forget (m : M unit) : M unit := noexcept m.

(** What a parked continuation does when the dispatcher resumes it. *)
Definition resume (k : Continuation) : M unit :=
  match k with
  | Resume_SetFocusedTabIndex tabIndex =>
      fire_and_forget (
        tabToFocus <- tabs_GetAt tabIndex;;
        TabView_SelectedItem tabToFocus)
  end.

Fixpoint resume_all (ks : list Continuation) : M unit :=
  match ks with
  | [] => ret tt
  | k :: ks' => resume k;;; resume_all ks'
  end.

(** One pass of the UI thread's dispatcher: everything parked so far is
    resumed, in order. *)
Definition run_dispatcher : M unit :=
  ks <- get _dispatcher;;
  modify (with_dispatcher []);;;
  resume_all ks.

(** [_SelectTab]: true iff [tabIndex] is a tab. *)
Definition _SelectTab (tabIndex : Z) : M bool :=
  size <- tabs_Size;;
  if decide (tabIndex >= 0 ∧ tabIndex < size) then
    startupState <- get _startupState;;
    (if decide (startupState = InStartup) then
       tab <- tabs_GetAt tabIndex;;
       TabView_SelectedItem tab;;;
       _UpdatedSelectedTab (to_int32 tabIndex)
     else _SetFocusedTabIndex tabIndex);;;
    ret true
  else ret false.

(** [_OnSwitchToTabRequested]: the tab switcher asks for [tab]. *)
Definition _OnSwitchToTabRequested (tab : TabBase) : M unit :=
  found <- tabs_IndexOf tab;;
  match found with
  | Some index => _ <- _SelectTab index;; ret tt
  | None => ret tt
  end.

(** Modelled from the spec: [CommandPalette::SelectNextItem] is not under
    src/.  The cursor moves by one over the working order, wrapping, and the
    tab under it is previewed: the palette raises [SwitchToTabRequested]. *)
Definition CommandPalette_SelectNextItem (moveDown : bool) : M unit :=
  c <- get _commandPalette;;
  let n := Size (cp_workingOrder c) in
  let cursor := (cp_cursor c + (if moveDown then 1 else -1) + n) `mod` n in
  modify (with_commandPalette
    {| cp_Visibility := cp_Visibility c; cp_open := cp_open c;
       cp_mode := cp_mode c; cp_anchorIndex := cp_anchorIndex c;
       cp_workingOrder := cp_workingOrder c; cp_cursor := cursor;
       cp_tabs := cp_tabs c; cp_mruTabs := cp_mruTabs c |});;;
  match GetAt (cp_workingOrder c) cursor with
  | Some tab => _OnSwitchToTabRequested tab
  | None => ret tt
  end.

(** [_SelectNextTab]: sets focus to the tab to the right or left of the
    selected one.  [customTabSwitcherMode] is the [IReference]: [None] when
    null. *)
Definition _SelectNextTab (bMoveRight : bool)
    (customTabSwitcherMode : option TabSwitcherMode) : M unit :=
  focused <- _GetFocusedTabIndex;;
  let index := default 0 focused in
  global <- get (λ p, GlobalTabSwitcherMode (_settings p));;
  let tabSwitchMode := default global customTabSwitcherMode in
  if decide (tabSwitchMode = Disabled) then
    tabCount <- tabs_Size;;
    if decide (tabCount = 0) then fault
    else
      let newTabIndex :=
        to_uint32 (to_uint32 (tabCount + index)
                   + to_uint32 (if bMoveRight then 1 else -1)) `mod` tabCount in
      _ <- _SelectTab newTabIndex;; ret tt
  else
    CommandPalette_SetTabs;;;
    CommandPalette_EnableTabSwitcherMode index tabSwitchMode;;;
    CommandPalette_Visibility Visible;;;
    CommandPalette_SelectNextItem bMoveRight.

(** ** Opening tabs *)

(** [_CreateNewTabFromSettings].  [debugConnection] says whether the debug
    tap is active (debug features on and both Alt keys down). *)
Definition _CreateNewTabFromSettings (profileGuid : GUID) (debugConnection : bool) : M unit :=
  newTabImpl <- make_self_TerminalTab profileGuid;;
  (* Add the new tab to the list of our tabs. *)
  tabs_Append newTabImpl;;;
  mruTabs_Append newTabImpl;;;
  TabItems_Append newTabImpl;;;
  (if debugConnection then
     PaneRequest newTabImpl (CallSplitPane SplitAutomatic profileGuid)
   else ret tt);;;
  (* This kicks off TabView::SelectionChanged. *)
  TabView_SelectedItem newTabImpl.

(** [_OpenNewTab], with the profile that [GetProfileForArgs] resolves. *)
Definition _OpenNewTab (profileGuid : GUID) : M unit :=
  CATCH_LOG (_CreateNewTabFromSettings profileGuid false).

(** [_OpenSettingsUI]. *)
Definition _OpenSettingsUI : M unit :=
  settingsTab <- get _settingsTab;;
  match settingsTab with
  | None =>
      newTabImpl <- make_self_SettingsTab;;
      tabs_Append newTabImpl;;;
      mruTabs_Append newTabImpl;;;
      TabItems_Append newTabImpl;;;
      modify (with_settingsTab (Some newTabImpl));;;
      TabView_SelectedItem newTabImpl
  | Some tab => TabView_SelectedItem tab
  end.

(** [_DuplicateTab]. *)
Definition _DuplicateTab (tab : TabBase) : M unit :=
  CATCH_LOG (
    profileGuid <- GetFocusedProfile tab;;
    match profileGuid with
    | Some guid =>
        CreateWithProfileByID guid;;;
        _CreateNewTabFromSettings guid false
    | None => ret tt
    end).

(** [_DuplicateFocusedTab]. *)
Definition _DuplicateFocusedTab : M unit :=
  terminalTab <- _GetFocusedTabImpl;;
  match terminalTab with
  | Some tab => _DuplicateTab tab
  | None => ret tt
  end.

(** ** Closing tabs *)

(** [std::clamp]: the behaviour is undefined when [hi < lo]. *)
Definition std_clamp (v lo hi : Z) : M Z :=
  if decide (hi < lo) then fault else ret (clamp v lo hi).

(** [_RemoveTab].  [warningResult] is the answer to the dialog that a
    read-only tab shows first. *)
Definition _RemoveTab (tab : TabBase) (warningResult : ContentDialogResult) : M unit :=
  readOnly <- ReadOnly tab;;
  if readOnly && negb (bool_decide (warningResult = Primary)) then ret tt
  else
    found <- tabs_IndexOf tab;;
    match found with
    | None => ret tt (* The tab is already removed *)
    | Some tabIndex =>
        modify (with_removing true);;;
        scope_exit (with_removing false) (
          focusedTabIndex <- _GetFocusedTabIndex;;
          Shutdown tab;;;
          mruFound <- mruTabs_IndexOf tab;;
          match mruFound with
          | Some mruIndex => mruTabs_RemoveAt mruIndex
          | None => ret tt
          end;;;
          tabs_RemoveAt tabIndex;;;
          TabItems_RemoveAt tabIndex;;;
          size <- tabs_Size;;
          (if decide (size = 0) then
             modify (with_lastTabClosed true)
           else if decide (focusedTabIndex = Some tabIndex) then
             tabSwitchMode <- get (λ p, GlobalTabSwitcherMode (_settings p));;
             if decide (tabSwitchMode = MostRecentlyUsed) then
               newSelectedTab <- mruTabs_GetAt 0;;
               newSelected <- tabs_IndexOf newSelectedTab;;
               match newSelected with
               | Some newSelectedIndex =>
                   _UpdatedSelectedTab (to_int32 newSelectedIndex);;;
                   TabView_SelectedItem newSelectedTab
               | None => ret tt
               end
             else
               newSelectedIndex <-
                 std_clamp (to_int32 (to_uint32 (tabIndex - 1))) 0 (to_int32 size);;
               _UpdatedSelectedTab newSelectedIndex;;;
               newSelectedTab <- tabs_GetAt (to_uint32 newSelectedIndex);;
               TabView_SelectedItem newSelectedTab
           else ret tt);;;
          rearranging <- get _rearranging;;
          if rearranging then
            modify (with_rearranging false);;;
            modify (with_rearrangeFrom None);;;
            modify (with_rearrangeTo None)
          else ret tt)
    end.

(** [_RemoveTabViewItem]. *)
Definition _RemoveTabViewItem (tabViewItem : TabBase) (warningResult : ContentDialogResult) : M unit :=
  found <- get (λ p, IndexOf (TabItems (_tabView p)) tabViewItem);;
  match found with
  | Some tabIndexFromControl =>
      tab <- tabs_GetAt tabIndexFromControl;;
      _RemoveTab tab warningResult
  | None => ret tt
  end.

(** [_CloseFocusedTab]. *)
Definition _CloseFocusedTab (warningResult : ContentDialogResult) : M unit :=
  focused <- _GetFocusedTabIndex;;
  match focused with
  | Some index =>
      tab <- tabs_GetAt index;;
      _RemoveTab tab warningResult
  | None => ret tt
  end.

(** ** Reordering tabs *)

(** [_TryMoveTab]. *)
Definition _TryMoveTab (currentTabIndex suggestedNewTabIndex : Z) : M unit :=
  size <- tabs_Size;;
  clamped <- std_clamp suggestedNewTabIndex 0 (to_int32 (to_uint32 (size - 1)));;
  let newTabIndex := to_uint32 clamped in
  if decide (currentTabIndex ≠ newTabIndex) then
    tab <- tabs_GetAt currentTabIndex;;
    tabs_RemoveAt currentTabIndex;;;
    tabs_InsertAt newTabIndex tab;;;
    TabItems_RemoveAt currentTabIndex;;;
    TabItems_InsertAt newTabIndex tab;;;
    TabView_SelectedItem tab
  else ret tt.

(** The [TabDragStarting] handler of [Create]. *)
Definition TabDragStarting : M unit :=
  modify (with_rearranging true);;;
  modify (with_rearrangeFrom None);;;
  modify (with_rearrangeTo None).

(** The [TabDragCompleted] handler of [Create]. *)
Definition TabDragCompleted : M unit :=
  from <- get _rearrangeFrom;;
  to <- get _rearrangeTo;;
  match from, to with
  | Some f, Some t =>
      if decide (t ≠ f) then
        tab <- tabs_GetAt (to_uint32 f);;
        tabs_RemoveAt (to_uint32 f);;;
        tabs_InsertAt (to_uint32 t) tab
      else ret tt
  | _, _ => ret tt
  end;;;
  modify (with_rearranging false);;;
  modify (with_rearrangeFrom None);;;
  modify (with_rearrangeTo None).

(** ** Panes *)

(** [_UnZoomIfNeeded]. *)
Definition _UnZoomIfNeeded : M unit :=
  activeTab <- _GetFocusedTabImpl;;
  match activeTab with
  | Some tab =>
      zoomed <- IsZoomed tab;;
      if zoomed then
        modify (with_tabContent None);;;
        ExitZoom tab
      else ret tt
  | None => ret tt
  end.

(** [_MoveFocus]. *)
Definition _MoveFocus (direction : Direction) : M unit :=
  terminalTab <- _GetFocusedTabImpl;;
  match terminalTab with
  | Some tab =>
      _UnZoomIfNeeded;;;
      PaneRequest tab (CallNavigateFocus direction)
  | None => ret tt
  end.

(** [_ResizePane]. *)
Definition _ResizePane (direction : Direction) : M unit :=
  terminalTab <- _GetFocusedTabImpl;;
  match terminalTab with
  | Some tab =>
      _UnZoomIfNeeded;;;
      PaneRequest tab (CallResizePane direction)
  | None => ret tt
  end.

(** [_CloseFocusedPane], a [fire_and_forget] coroutine.  [warningResult]
    is the answer to the dialog that a read-only pane shows first. *)
Definition _CloseFocusedPane (warningResult : ContentDialogResult) : M unit :=
  fire_and_forget (
    terminalTab <- _GetFocusedTabImpl;;
    match terminalTab with
    | Some tab =>
        _UnZoomIfNeeded;;;
        readOnly <- get (λ p, bool_decide (tab ∈ readOnlyControls (_objects p)));;
        if readOnly then
          if decide (warningResult ≠ Primary) then ret tt
          else
            (* control.ToggleReadOnly() *)
            modify (λ p, with_objects
              (with_readOnlyControls (readOnlyControls (_objects p) ∖ {[tab]})
                 (_objects p)) p);;;
            PaneRequest tab CallClosePane
        else PaneRequest tab CallClosePane
    | None =>
        focused <- _GetFocusedTabIndex;;
        match focused with
        | Some index =>
            tab <- tabs_GetAt index;;
            isTerminal <- _GetTerminalTabImpl tab;;
            (* tab.try_as<SettingsTab>() *)
            match isTerminal with
            | Some _ => ret tt
            | None => _RemoveTab tab warningResult
            end
        | None => ret tt
        end
    end).

(** [_SplitPane].  [profileForArgs] is what [GetProfileForArgs] resolves
    for the new-terminal arguments; [autoSplit] and [canSplit] are what the
    tab's [PreCalculateAutoSplit] and [PreCalculateCanSplit] answer for the
    space at hand. *)
Definition _SplitPane (splitType : SplitState) (splitMode : SplitType)
    (profileForArgs : GUID) (autoSplit : SplitState) (canSplit : bool) : M unit :=
  (* Do nothing if we're requesting no split. *)
  if decide (splitType = SplitNone) then ret tt
  else
    focusedTab <- _GetFocusedTabImpl;;
    match focusedTab with
    | None => ret tt (* Do nothing if no TerminalTab is focused *)
    | Some tab =>
        CATCH_LOG (
          profileFound <-
            (if decide (splitMode = Duplicate) then
               current_guid <- GetFocusedProfile tab;;
               match current_guid with
               | Some guid => CreateWithProfileByID guid;;; ret (Some guid)
               | None => ret None
               end
             else ret None);;
          let realGuid := default profileForArgs profileFound in
          let realSplitType :=
            if decide (splitType = SplitAutomatic) then autoSplit else splitType in
          if negb canSplit then ret tt
          else
            _UnZoomIfNeeded;;;
            PaneRequest tab (CallSplitPane realSplitType realGuid))
    end.

(** ** Concrete pages *)

Definition initialObjects : TabObjects :=
  {| nextTab := O; terminalTabs := ∅; zoomedTabs := ∅; readOnlyTabs := ∅;
     readOnlyControls := ∅; focusedProfiles := ∅; focusedTabs := ∅;
     shutdownTabs := ∅; paneCalls := [] |}.

Definition initialPalette : CommandPalette :=
  {| cp_Visibility := Collapsed; cp_open := false; cp_mode := InOrder;
     cp_anchorIndex := 0; cp_workingOrder := []; cp_cursor := 0;
     cp_tabs := []; cp_mruTabs := [] |}.

(** The page once [Create] has run and startup is over, with no tab yet. *)
Definition initialPage (mode : TabSwitcherMode) (profiles : list GUID) : TerminalPage :=
  {| _tabs := []; _mruTabs := [];
     _tabView := {| TabItems := []; SelectedItem := None;
                    RaisesTabItemsChanged := true |};
     _tabContent := None; _commandPalette := initialPalette;
     _newTabFlyoutIsOpen := false; _rearranging := false;
     _rearrangeFrom := None; _rearrangeTo := None; _removing := false;
     _startupState := Initialized;
     _settings := {| GlobalTabSwitcherMode := mode; Profiles := profiles |};
     _settingsTab := None; _dispatcher := []; _objects := initialObjects;
     _lastTabClosed := false |}.

(** The page an outcome carries, or [p] when there is none. *)
Definition page_of {A} (p : TerminalPage) (o : Outcome A) : TerminalPage :=
  match o with
  | Ret _ p' => p'
  | Throw p' => p'
  | Fault => p
  end.

(** Runs [m] for its effect on the page. *)
Definition exec {A} (m : M A) (p : TerminalPage) : TerminalPage := page_of p (m p).

(** One input handled on the UI thread, then one pass of the dispatcher. *)
Definition tick (m : M unit) : M unit := m;;; run_dispatcher.

(** Four tabs opened one after the other, as in the tests. *)
Definition fourTabs (mode : TerminalPage → TerminalPage) : TerminalPage :=
  mode (exec (_OpenNewTab 1%nat;;; _OpenNewTab 1%nat;;; _OpenNewTab 1%nat;;; _OpenNewTab 1%nat)
          (initialPage InOrder [1%nat; 2%nat])).

(** ** Notions the properties are stated with *)

(** What [_UpdateMRUTab] makes of the MRU list: [tab] moves to the head and
    the others keep their order; a list that has [tab] at its head, or not
    at all, stays as it is. *)
Definition bumpMRU (tab : TabBase) (mru : list TabBase) : list TabBase :=
  match index_of mru tab with
  | Some (S i) => tab :: delete (S i) mru
  | _ => mru
  end.

(** [set(order) == set(mru)]. *)
Definition same_tab_set (p : TerminalPage) : Prop :=
  _tabs p ⊆ _mruTabs p ∧ _mruTabs p ⊆ _tabs p.

(** The tab collection as the page builds it: the tabs are distinct objects
    made by [make_self], and the MRU list holds the same tabs, once each. *)
Definition collection_ok (p : TerminalPage) : Prop :=
  NoDup (_tabs p) ∧ NoDup (_mruTabs p) ∧ same_tab_set p ∧
  Forall (λ t, (t < nextTab (_objects p))%nat) (_tabs p).

(** The state of the page between two inputs: the collection is in order,
    the [TabView] has one item per tab in display order, the selected item is
    one of them, and the vectors are far from the limits of their [int32_t]
    indices. *)
Definition selected_ok (p : TerminalPage) : Prop :=
  match SelectedItem (_tabView p) with
  | Some item => item ∈ _tabs p
  | None => True
  end.

Definition page_wf (p : TerminalPage) : Prop :=
  collection_ok p ∧
  TabItems (_tabView p) = _tabs p ∧
  selected_ok p ∧
  Size (_tabs p) < 2 ^ 31.

Global Instance same_tab_set_dec p : Decision (same_tab_set p).
Proof. unfold same_tab_set. apply _. Defined.
Global Instance collection_ok_dec p : Decision (collection_ok p).
Proof. unfold collection_ok. apply _. Defined.
Global Instance selected_ok_dec p : Decision (selected_ok p).
Proof. unfold selected_ok. destruct (SelectedItem _); apply _. Defined.
Global Instance page_wf_dec p : Decision (page_wf p).
Proof. unfold page_wf. apply _. Defined.

(** The operations on the tab collection. *)
Inductive CollectionOp :=
  | OpInsertTab (profileGuid : GUID) (debugConnection : bool)
  | OpInsertSettingsTab
  | OpRemove (tab : TabBase) (warningResult : ContentDialogResult)
  | OpMove (currentTabIndex suggestedNewTabIndex : Z)
  | OpBumpMRU (index : Z).

Definition run_op (op : CollectionOp) : M unit :=
  match op with
  | OpInsertTab profileGuid debugConnection =>
      _CreateNewTabFromSettings profileGuid debugConnection
  | OpInsertSettingsTab => _OpenSettingsUI
  | OpRemove tab warningResult => _RemoveTab tab warningResult
  | OpMove currentTabIndex suggestedNewTabIndex =>
      _TryMoveTab currentTabIndex suggestedNewTabIndex
  | OpBumpMRU index => _UpdateMRUTab index
  end.

(** The operations on the panes of the focused tab. *)
Inductive PaneOp :=
  | OpSplitPane (splitType : SplitState) (splitMode : SplitType)
      (profileForArgs : GUID) (autoSplit : SplitState) (canSplit : bool)
  | OpClosePane (warningResult : ContentDialogResult)
  | OpResizePane (direction : Direction)
  | OpMoveFocus (direction : Direction).

Definition run_pane_op (op : PaneOp) : M unit :=
  match op with
  | OpSplitPane splitType splitMode profileForArgs autoSplit canSplit =>
      _SplitPane splitType splitMode profileForArgs autoSplit canSplit
  | OpClosePane warningResult => _CloseFocusedPane warningResult
  | OpResizePane direction => _ResizePane direction
  | OpMoveFocus direction => _MoveFocus direction
  end.

(** [m] keeps the observation [f] of the page, up to [R], however it
    leaves. *)
Definition steady {X A} (R : relation X) (f : TerminalPage → X) (m : M A) : Prop :=
  ∀ p, R (f p) (f (exec m p)).

(** [m] keeps [I] and stays within defined behaviour. *)
Definition keeps {A} (I : TerminalPage → Prop) (m : M A) : Prop :=
  ∀ p, I p → match m p with
             | Ret _ p' => I p'
             | Throw p' => I p'
             | Fault => False
             end.

(** [m] always returns. *)
Definition total {A} (m : M A) : Prop := ∀ p, ∃ a p', m p = Ret a p'.

(** [m] never runs into undefined behaviour. *)
Definition nofault {A} (m : M A) : Prop := ∀ p, m p ≠ Fault.

(** [m] only reads the page. *)
Definition reader {A} (m : M A) : Prop :=
  ∀ p, match m p with
       | Ret _ p' => p' = p
       | Throw p' => p' = p
       | Fault => True
       end.

(** What no event handler and no call on the [TabView] or on the command
    palette touches: the display order, the flags of the page, the settings
    and what the tab objects are. *)
Definition core (p : TerminalPage) :=
  (_tabs p, _rearranging p, _removing p, _startupState p, _settings p,
   _settingsTab p, _dispatcher p, _lastTabClosed p, _newTabFlyoutIsOpen p,
   RaisesTabItemsChanged (_tabView p),
   (nextTab (_objects p), terminalTabs (_objects p), zoomedTabs (_objects p),
    readOnlyTabs (_objects p), readOnlyControls (_objects p),
    focusedProfiles (_objects p), shutdownTabs (_objects p),
    paneCalls (_objects p))).

(** The display order and the next object identity. *)
Definition roster (p : TerminalPage) := (_tabs p, nextTab (_objects p)).

(** The request that a pane operation makes of the focused terminal tab
    [tab], if it gets that far. *)
Definition requested (op : PaneOp) (p : TerminalPage) (tab : TabBase) : option PaneCall :=
  match op with
  | OpMoveFocus direction => Some (CallNavigateFocus direction)
  | OpResizePane direction => Some (CallResizePane direction)
  | OpClosePane warningResult =>
      if bool_decide (tab ∈ readOnlyControls (_objects p))
         && negb (bool_decide (warningResult = Primary))
      then None else Some CallClosePane
  | OpSplitPane splitType splitMode profileForArgs autoSplit canSplit =>
      let realSplitType :=
        if decide (splitType = SplitAutomatic) then autoSplit else splitType in
      if bool_decide (splitType = SplitNone) || negb canSplit then None
      else
        match splitMode, focusedProfiles (_objects p) !! tab with
        | Duplicate, Some guid =>
            if bool_decide (guid ∈ Profiles (_settings p))
            then Some (CallSplitPane realSplitType guid) else None
        | _, _ => Some (CallSplitPane realSplitType profileForArgs)
        end
  end.

(** A page with other settings, as after a reload. *)
Definition with_settings (v : CascadiaSettings) (p : TerminalPage) : TerminalPage :=
  {| _tabs := _tabs p; _mruTabs := _mruTabs p; _tabView := _tabView p;
     _tabContent := _tabContent p; _commandPalette := _commandPalette p;
     _newTabFlyoutIsOpen := _newTabFlyoutIsOpen p;
     _rearranging := _rearranging p; _rearrangeFrom := _rearrangeFrom p;
     _rearrangeTo := _rearrangeTo p; _removing := _removing p;
     _startupState := _startupState p; _settings := v;
     _settingsTab := _settingsTab p; _dispatcher := _dispatcher p;
     _objects := _objects p; _lastTabClosed := _lastTabClosed p |}.

(** One tab of profile 1, then settings without profile 1: the page of the
    tests [TryDuplicateBadTab] and [TryDuplicateBadPane]. *)
Definition reloadedPage : TerminalPage :=
  with_settings {| GlobalTabSwitcherMode := InOrder; Profiles := [2%nat] |}
    (exec (_OpenNewTab 1%nat) (initialPage InOrder [1%nat; 2%nat])).

(** One tab, two panes, zoomed: the page of the tests
    [MoveFocusFromZoomedPane] and [CloseZoomedPane]. *)
Definition zoomedPage : TerminalPage :=
  let p := exec (_OpenNewTab 1%nat;;;
                 _SplitPane SplitAutomatic Duplicate 1%nat SplitVertical true)
             (initialPage InOrder [1%nat; 2%nat]) in
  with_objects (with_zoomedTabs {[O]} (_objects p)) p.

(** The collection, with the bound on its size. *)
Definition bounded_ok (p : TerminalPage) : Prop :=
  collection_ok p ∧ Size (_tabs p) < 2 ^ 31.

(** The MRU list after [_UpdatedSelectedTab index]. *)
Definition mruAfterSelected (index : Z) (p : TerminalPage) : list TabBase :=
  if decide (index >= 0) then
    match GetAt (_tabs p) (to_uint32 index) with
    | Some tab =>
        if decide (cp_Visibility (_commandPalette p) ≠ Visible)
        then bumpMRU tab (_mruTabs p) else _mruTabs p
    | None => _mruTabs p
    end
  else _mruTabs p.


(** An interaction with the tab switcher: next-tab and previous-tab
    requests ([true] is next), each followed by a pass of the dispatcher;
    [dismissSwitcher] is the palette collapsing when the anchor key is
    released. *)
Fixpoint switcherSteps (steps : list bool) : M unit :=
  match steps with
  | [] => ret tt
  | bMoveRight :: rest => tick (_SelectNextTab bMoveRight None);;; switcherSteps rest
  end.

Definition dismissSwitcher : M unit := tick (CommandPalette_Visibility Collapsed).

(** Four tabs with the MRU switcher, as in the test [NextMRUTab]. *)
Definition mruPage : TerminalPage :=
  fourTabs (with_settings {| GlobalTabSwitcherMode := MostRecentlyUsed;
                             Profiles := [1%nat; 2%nat] |}).

(** The page at rest between two inputs: well formed, with no tab drag and
    no removal under way, the command palette collapsed and nothing parked on
    the dispatcher. *)
Definition page_idle (p : TerminalPage) : Prop :=
  page_wf p ∧ _rearranging p = false ∧ _removing p = false ∧
  cp_Visibility (_commandPalette p) = Collapsed ∧ _dispatcher p = [].

Global Instance page_idle_dec p : Decision (page_idle p).
Proof. unfold page_idle. apply _. Defined.

(** The tab that takes the focus when the focused tab, at index [i] of the
    display order, has been removed: [tabs] and [mru] are the lists after the
    removal. *)
Definition replacementTab (mode : TabSwitcherMode) (i : Z)
    (tabs mru : list TabBase) : option TabBase :=
  if decide (mode = MostRecentlyUsed) then GetAt mru 0
  else GetAt tabs (clamp (i - 1) 0 (Size tabs - 1)).

(** One tab, opened on the initial page. *)
Definition oneTabPage : TerminalPage :=
  exec (_OpenNewTab 1%nat) (initialPage InOrder [1%nat; 2%nat]).

(** ** Closing the window *)

(** [_RemoveTabs], a [fire_and_forget] coroutine: the tabs of the snapshot
    are removed one by one.  [answers tab] is the answer to the dialog that
    the read-only tab [tab] shows. *)
Fixpoint RemoveTabs_each (tabs : list TabBase)
    (answers : TabBase → ContentDialogResult) : M unit :=
  match tabs with
  | [] => ret tt
  | tab :: rest => _RemoveTab tab (answers tab);;; RemoveTabs_each rest answers
  end.

Definition _RemoveTabs (tabs : list TabBase)
    (answers : TabBase → ContentDialogResult) : M unit :=
  fire_and_forget (RemoveTabs_each tabs answers).

(** [CloseWindow], a [fire_and_forget] coroutine.  [confirmCloseAllTabs] is
    the global setting, [displayingCloseDialog] the page's flag of that name,
    which the coroutine raises only while it waits for the dialog, and
    [warningResult] the answer to the close-all dialog. *)
Definition CloseWindow (confirmCloseAllTabs displayingCloseDialog : bool)
    (warningResult : ContentDialogResult)
    (answers : TabBase → ContentDialogResult) : M unit :=
  fire_and_forget (
    size <- tabs_Size;;
    if bool_decide (size > 1) && confirmCloseAllTabs && negb displayingCloseDialog then
      if decide (warningResult ≠ Primary) then ret tt
      else
        (* a snapshot of the tabs we want to remove *)
        tabsToRemove <- get _tabs;;
        _RemoveTabs tabsToRemove answers
    else
      tabsToRemove <- get _tabs;;
      _RemoveTabs tabsToRemove answers).

(** The user keeps a read-only tab by not confirming its dialog. *)
Definition declined (answers : TabBase → ContentDialogResult) (p : TerminalPage)
    (tab : TabBase) : Prop :=
  tab ∈ readOnlyTabs (_objects p) ∧ answers tab ≠ Primary.

Global Instance declined_dec answers p tab : Decision (declined answers p tab).
Proof. unfold declined. apply _. Defined.

(** The [TabCloseRequested] handler of the [TabView]. *)
Definition _OnTabCloseRequested (tabViewItem : TabBase)
    (warningResult : ContentDialogResult) : M unit :=
  _RemoveTabViewItem tabViewItem warningResult.

(** ** A tab drag, from the page's side

    The drag itself is the [TabView]'s.  The page sees [TabDragStarting],
    then the control moves the item within its own list, which raises
    [TabItemsChanged] for the removal and for the insertion, as the comment of
    [_OnTabItemsChanged] says, then [TabDragCompleted]. *)
Definition dragTab (from to : Z) : M unit :=
  TabDragStarting;;;
  items <- get (λ p, TabItems (_tabView p));;
  match GetAt items from with
  | Some item => TabItems_RemoveAt from;;; TabItems_InsertAt to item
  | None => ret tt
  end;;;
  TabDragCompleted.

(** ** Scrolling *)

Inductive ScrollDirection := ScrollUp | ScrollDown.

Global Instance ScrollDirection_eq_dec : EqDecision ScrollDirection.
Proof. solve_decision. Defined.

Definition INT_MAX : Z := 2 ^ 31 - 1.

(** [_ComputeScrollDelta].  [rowsToScroll] is a [uint32_t]: the product
    [-1 * rowsToScroll] is taken in [uint32_t], and the value of the
    conditional expression, a [uint32_t], is converted to the [int] that is
    returned. *)
Definition _ComputeScrollDelta (scrollDirection : ScrollDirection) (rowsToScroll : Z) : Z :=
  to_int32 (if decide (scrollDirection = ScrollUp)
            then to_uint32 (to_uint32 (-1) * rowsToScroll)
            else rowsToScroll).

(** [_Scroll].  [wheelPageScroll] is the constant [WHEEL_PAGESCROLL] of the
    Windows headers, [systemRowsToScroll] the page's field of that name,
    [viewHeight tab] what [GetViewHeight] answers for the active control of
    [tab], and [rowsToScroll] the [IReference], [None] when null.  The result
    is the call [terminalTab->Scroll(scrollDelta)] that is made, if any. *)
Definition _Scroll (wheelPageScroll systemRowsToScroll : Z) (viewHeight : TabBase → Z)
    (scrollDirection : ScrollDirection) (rowsToScroll : option Z)
    : M (option (TabBase * Z)) :=
  terminalTab <- _GetFocusedTabImpl;;
  match terminalTab with
  | Some tab =>
      let realRowsToScroll :=
        match rowsToScroll with
        | None =>
            (* The magic value of WHEEL_PAGESCROLL indicates that we need to
               scroll the entire page *)
            if decide (systemRowsToScroll = wheelPageScroll)
            then to_uint32 (viewHeight tab)
            else systemRowsToScroll
        | Some value => value
        end in
      let scrollDelta := _ComputeScrollDelta scrollDirection realRowsToScroll in
      ret (Some (tab, scrollDelta))
  | None => ret None
  end.

(** [_GetActiveControl]: the tab whose active control it is. *)
Definition _GetActiveControl : M (option TabBase) := _GetFocusedTabImpl.

(** [_ScrollPage]. *)
Definition _ScrollPage (viewHeight : TabBase → Z) (scrollDirection : ScrollDirection)
    : M (option (TabBase * Z)) :=
  terminalTab <- _GetFocusedTabImpl;;
  match terminalTab with
  | Some tab =>
      control <- _GetActiveControl;;
      match control with
      | Some active =>
          let termHeight := viewHeight active in
          let scrollDelta := _ComputeScrollDelta scrollDirection (to_uint32 termHeight) in
          ret (Some (tab, scrollDelta))
      | None => fault (* a call on a null control *)
      end
  | None => ret None
  end.

(** [_ScrollToBufferEdge]. *)
Definition _ScrollToBufferEdge (scrollDirection : ScrollDirection)
    : M (option (TabBase * Z)) :=
  terminalTab <- _GetFocusedTabImpl;;
  match terminalTab with
  | Some tab =>
      let scrollDelta := _ComputeScrollDelta scrollDirection INT_MAX in
      ret (Some (tab, scrollDelta))
  | None => ret None
  end.

(** ** Pasting from the clipboard *)

(** A [hstring]: UTF-16 code units. *)
Definition hstring := list Z.

(** What [Clipboard::GetContent] holds, by format. *)
Record DataPackageView := {
  dp_Text : option hstring;
  dp_StorageItems : option (list hstring)   (* the items' paths *)
}.

Inductive PasteWarning := MultiLinePasteWarning | LargePasteWarning.

#[global] Instance PasteWarning_eq_dec : EqDecision PasteWarning.
Proof. solve_decision. Defined.

(** What the handler has done when it is over: the warning dialog that it
    showed, and the text given to [HandleClipboardData]. *)
Record PasteOutcome := {
  po_dialog : option PasteWarning;
  po_handled : option hstring
}.

Definition minimumSizeForWarning : Z := 1024 * 5.

Definition isNewLineLambda (c : Z) : bool :=
  bool_decide (c = 10) || bool_decide (c = 13).

(** The text that [_PasteFromClipboardHandler] reads from the clipboard. *)
Definition pastedText (data : DataPackageView) : hstring :=
  match dp_Text data with
  | Some text => text
  | None =>
      match dp_StorageItems data with
      | Some items =>
          if decide (Size items > 0) then default [] (GetAt items 0) else []
      | None => []
      end
  end.

(** [_PasteFromClipboardHandler].  The two flags are the global settings
    [WarnAboutMultiLinePaste] and [WarnAboutLargePaste]; [answer] is how the
    user answers a warning dialog. *)
Definition _PasteFromClipboardHandler (warnAboutMultiLinePaste warnAboutLargePaste : bool)
    (answer : PasteWarning → ContentDialogResult) (data : DataPackageView) : PasteOutcome :=
  let text := pastedText data in
  let hasNewLine := existsb isNewLineLambda text in
  let warnMultiLine := hasNewLine && warnAboutMultiLinePaste in
  let warnLargeText :=
    bool_decide (Size text > minimumSizeForWarning) && warnAboutLargePaste in
  if warnMultiLine || warnLargeText then
    let shown := if warnMultiLine then MultiLinePasteWarning else LargePasteWarning in
    if decide (answer shown ≠ Primary) then
      (* user rejected the paste *)
      {| po_dialog := Some shown; po_handled := None |}
    else {| po_dialog := Some shown; po_handled := Some text |}
  else {| po_dialog := None; po_handled := Some text |}.

(** ** Pages on which a selection is not a commit of the focus *)



(** Four tabs with the switcher disabled. *)
Definition disabledPage : TerminalPage :=
  fourTabs (with_settings {| GlobalTabSwitcherMode := Disabled;
                             Profiles := [1%nat; 2%nat] |}).

(** The same, with a tab drag under way. *)
Definition dragDisabledPage : TerminalPage := exec TabDragStarting disabledPage.

(** Four tabs in fullscreen or focus mode, where the [TabView] does not
    raise [TabItemsChanged], with the command palette showing. *)
Definition paletteShownPage : TerminalPage :=
  exec (CommandPalette_Visibility Visible)
    (fourTabs (λ p, with_tabView
       {| TabItems := TabItems (_tabView p);
          SelectedItem := SelectedItem (_tabView p);
          RaisesTabItemsChanged := false |} p)).

(** * Properties *)

(** ** Facts on vectors *)

Section IVectorFacts.
Context {A : Type} `{EqDecision A}.
Implicit Types (v : list A) (x : A).

Lemma index_of_lookup v x i : index_of v x = Some i → v !! i = Some x.
Proof.
  revert i. induction v as [|y v IH]; intros i; simpl; [done|].
  destruct (decide (y = x)) as [->|Hne].
  - by intros [= <-].
  - destruct (index_of v x) as [j|] eqn:Hj; simpl; [|done].
    intros [= <-]. simpl. by apply IH.
Qed.

Lemma index_of_lt v x i : index_of v x = Some i → (i < length v)%nat.
Proof. intros H. eapply lookup_lt_Some, index_of_lookup, H. Qed.

Lemma index_of_None v x : index_of v x = None ↔ x ∉ v.
Proof.
  induction v as [|y v IH]; simpl.
  - split; [intros _; apply not_elem_of_nil | done].
  - destruct (decide (y = x)) as [->|Hne].
    + split; [done | intros []; left].
    + rewrite not_elem_of_cons. destruct (index_of v x); simpl.
      * split; [done|]. intros [_ Hn]. by apply IH in Hn.
      * split; [|done]. intros _. split; [congruence | by apply IH].
Qed.

Lemma index_of_elem v x : x ∈ v → is_Some (index_of v x).
Proof.
  intros Hin. destruct (index_of v x) eqn:E; [eauto|].
  by apply index_of_None in E.
Qed.

Lemma index_of_head v x : index_of (x :: v) x = Some O.
Proof. simpl. by rewrite decide_True. Qed.

Lemma index_of_NoDup v x i : NoDup v → v !! i = Some x → index_of v x = Some i.
Proof.
  intros Hnd Hi. destruct (index_of_elem v x) as [j Hj].
  { eapply list_elem_of_lookup_2, Hi. }
  rewrite Hj. f_equal. eapply NoDup_lookup; eauto using index_of_lookup.
Qed.

Lemma index_of_app_fresh v x : x ∉ v → index_of (v ++ [x]) x = Some (length v).
Proof.
  induction v as [|y v IH]; simpl.
  - intros _. by rewrite decide_True.
  - rewrite not_elem_of_cons. intros [Hne Hn].
    rewrite decide_False by congruence. by rewrite IH.
Qed.

Lemma index_of_app_l v w x : x ∈ v → index_of (v ++ w) x = index_of v x.
Proof.
  induction v as [|y v IH]; simpl; [by intros ?%elem_of_nil|].
  destruct (decide (y = x)); [done|].
  intros [?|Hin]%elem_of_cons; [congruence|]. by rewrite IH.
Qed.

Lemma GetAt_lookup v (i : nat) : GetAt v (Z.of_nat i) = v !! i.
Proof. unfold GetAt. rewrite decide_True by lia. by rewrite Nat2Z.id. Qed.

Lemma GetAt_Some v i x :
  GetAt v i = Some x ↔ 0 ≤ i ∧ v !! Z.to_nat i = Some x.
Proof.
  unfold GetAt. case_decide; split;
    [ intros; split; [lia | done] | intros [_ ?]; done
    | done | intros [? _]; lia ].
Qed.

Lemma GetAt_lt v i x : GetAt v i = Some x → 0 ≤ i < Size v.
Proof.
  intros [? Hl]%GetAt_Some. apply lookup_lt_Some in Hl. unfold Size. lia.
Qed.

Lemma GetAt_is_Some v i : 0 ≤ i < Size v → is_Some (GetAt v i).
Proof.
  unfold Size, GetAt. intros ?. rewrite decide_True by lia.
  apply lookup_lt_is_Some. lia.
Qed.

Lemma IndexOf_Some v x i :
  IndexOf v x = Some i → GetAt v i = Some x ∧ 0 ≤ i < Size v.
Proof.
  unfold IndexOf. destruct (index_of v x) as [j|] eqn:Hj; simpl; [|done].
  intros [= <-]. rewrite GetAt_lookup. split; [by apply index_of_lookup|].
  apply index_of_lt in Hj. unfold Size. lia.
Qed.

Lemma IndexOf_NoDup v x i : NoDup v → GetAt v i = Some x → IndexOf v x = Some i.
Proof.
  intros Hnd [? Hl]%GetAt_Some. unfold IndexOf.
  rewrite (index_of_NoDup _ _ _ Hnd Hl). simpl. f_equal. lia.
Qed.

Lemma Size_app v w : Size (v ++ w) = Size v + Size w.
Proof. unfold Size. rewrite length_app. lia. Qed.

Lemma Size_nonneg v : 0 ≤ Size v.
Proof. unfold Size. lia. Qed.
End IVectorFacts.

(** ** Facts on the bump *)

Lemma bumpMRU_perm tab mru : bumpMRU tab mru ≡ₚ mru.
Proof.
  unfold bumpMRU. destruct (index_of mru tab) as [[|i]|] eqn:Hi; try done.
  symmetry. apply delete_Permutation. by apply index_of_lookup.
Qed.

Lemma bumpMRU_head tab rest : bumpMRU tab (tab :: rest) = tab :: rest.
Proof. unfold bumpMRU. by rewrite index_of_head. Qed.

Lemma bumpMRU_absent tab mru : tab ∉ mru → bumpMRU tab mru = mru.
Proof. unfold bumpMRU. intros ->%index_of_None. done. Qed.

Lemma bumpMRU_cons tab mru : tab ∈ mru → ∃ rest, bumpMRU tab mru = tab :: rest.
Proof.
  intros [i Hi]%index_of_elem. unfold bumpMRU. rewrite Hi.
  destruct i; [|eauto]. apply index_of_lookup in Hi.
  destruct mru as [|x rest]; [done|]. simpl in Hi. injection Hi as ->. eauto.
Qed.

Lemma bumpMRU_idem tab mru : bumpMRU tab (bumpMRU tab mru) = bumpMRU tab mru.
Proof.
  destruct (decide (tab ∈ mru)) as [Hin|Hn].
  - destruct (bumpMRU_cons _ _ Hin) as [rest ->]. apply bumpMRU_head.
  - by rewrite 2!(bumpMRU_absent _ _ Hn).
Qed.

(** The bump keeps the order of the other tabs. *)
Lemma bumpMRU_others tab mru :
  filter (λ t, t ≠ tab) (bumpMRU tab mru) = filter (λ t, t ≠ tab) mru.
Proof.
  unfold bumpMRU. destruct (index_of mru tab) as [[|i]|] eqn:Hi; try done.
  apply index_of_lookup in Hi.
  rewrite filter_cons_False by naive_solver.
  rewrite <-(take_drop_middle mru (S i) tab Hi) at 2.
  rewrite delete_take_drop, !filter_app. f_equal.
  by rewrite filter_cons_False by naive_solver.
Qed.

(** ** Reasoning on methods *)

Lemma bind_Ret {A B} (m : M A) (k : A → M B) p a p' :
  m p = Ret a p' → bind m k p = k a p'.
Proof. unfold bind. by intros ->. Qed.

Lemma bind_Throw {A B} (m : M A) (k : A → M B) p p' :
  m p = Throw p' → bind m k p = Throw p'.
Proof. unfold bind. by intros ->. Qed.

Lemma bind_Fault {A B} (m : M A) (k : A → M B) p :
  m p = Fault → bind m k p = Fault.
Proof. unfold bind. by intros ->. Qed.

Lemma bind_assoc {A B C} (m : M A) (k1 : A → M B) (k2 : B → M C) p :
  bind (bind m k1) k2 p = bind m (λ a, bind (k1 a) k2) p.
Proof. unfold bind. by destruct (m p). Qed.

Lemma exec_Ret {A} (m : M A) p a p' : m p = Ret a p' → exec m p = p'.
Proof. unfold exec. by intros ->. Qed.

Section Steady.
Context {X : Type} (R : relation X) `{!PreOrder R} (f : TerminalPage → X).

Lemma steady_ret {A} (a : A) : steady R f (ret a).
Proof. intros p. reflexivity. Qed.

Lemma steady_get {A} (g : TerminalPage → A) : steady R f (get g).
Proof. intros p. reflexivity. Qed.

Lemma steady_throw {A} : steady R f (@throw A).
Proof. intros p. reflexivity. Qed.

Lemma steady_fault {A} : steady R f (@fault A).
Proof. intros p. reflexivity. Qed.

Lemma steady_check {A} (o : option A) : steady R f (check o).
Proof. destruct o; [apply steady_ret | apply steady_throw]. Qed.

Lemma steady_modify (g : TerminalPage → TerminalPage) :
  (∀ p, R (f p) (f (g p))) → steady R f (modify g).
Proof. intros H p. apply H. Qed.

Lemma steady_bind {A B} (m : M A) (k : A → M B) :
  steady R f m → (∀ a, steady R f (k a)) → steady R f (bind m k).
Proof.
  intros Hm Hk p. specialize (Hm p). unfold exec, bind in *.
  destruct (m p) as [a p1| p1|]; simpl in *; [|done|reflexivity].
  specialize (Hk a p1). unfold exec in Hk.
  destruct (k a p1); simpl in *; [by etrans..|reflexivity].
Qed.

Lemma steady_CATCH_LOG (m : M unit) : steady R f m → steady R f (CATCH_LOG m).
Proof.
  intros Hm p. specialize (Hm p). unfold exec, CATCH_LOG in *.
  by destruct (m p).
Qed.

Lemma steady_noexcept {A} (m : M A) : steady R f m → steady R f (noexcept m).
Proof.
  intros Hm p. specialize (Hm p). unfold exec, noexcept in *.
  destruct (m p); simpl in *; [done|reflexivity..].
Qed.

Lemma steady_scope_exit {A} (after : TerminalPage → TerminalPage) (m : M A) :
  (∀ p, R (f p) (f (after p))) → steady R f m → steady R f (scope_exit after m).
Proof.
  intros Ha Hm p. specialize (Hm p). unfold exec, scope_exit in *.
  destruct (m p); simpl in *; [by etrans..|reflexivity].
Qed.
End Steady.

(** Frame goals are settled along the structure of the method. *)
Create HintDb frame discriminated.

Ltac head_of t := lazymatch t with ?f _ => head_of f | _ => t end.

Ltac frame_step :=
  lazymatch goal with
  | |- steady ?R ?f (ret _) => apply (steady_ret R f)
  | |- steady ?R ?f (get _) => apply (steady_get R f)
  | |- steady ?R ?f throw => apply (steady_throw R f)
  | |- steady ?R ?f fault => apply (steady_fault R f)
  | |- steady ?R ?f (check _) => apply (steady_check R f)
  | |- steady ?R ?f (bind _ _) => apply (steady_bind R f); [|intros ?]
  | |- steady ?R ?f (CATCH_LOG _) => apply (steady_CATCH_LOG R f)
  | |- steady ?R ?f (noexcept _) => apply (steady_noexcept R f)
  | |- steady ?R ?f (scope_exit _ _) =>
      apply (steady_scope_exit R f); [by intros []|]
  | |- steady ?R ?f (modify _) => apply (steady_modify R f); by intros []
  | |- steady _ _ (match ?x with _ => _ end) => destruct x
  | |- steady _ _ ?m =>
      first [ solve [eauto with frame]
            | let h := head_of m in progress unfold h ]
  end.

Ltac frame := repeat frame_step.

Lemma with_mruTabs_id p : with_mruTabs (_mruTabs p) p = p.
Proof. by destruct p. Qed.

Lemma with_mruTabs_twice v w p : with_mruTabs v (with_mruTabs w p) = with_mruTabs v p.
Proof. by destruct p. Qed.

(** [_UpdateMRUTab], in one equation. *)
Lemma _UpdateMRUTab_eq index p :
  _UpdateMRUTab index p =
    match GetAt (_tabs p) index with
    | Some tab => Ret tt (with_mruTabs (bumpMRU tab (_mruTabs p)) p)
    | None => Throw p
    end.
Proof.
  unfold _UpdateMRUTab, tabs_GetAt, mruTabs_IndexOf, bind, get, check.
  destruct (GetAt (_tabs p) index) as [tab|]; simpl; [|done].
  unfold bumpMRU, IndexOf.
  destruct (index_of (_mruTabs p) tab) as [[|i]|] eqn:Hi; simpl.
  - by rewrite with_mruTabs_id.
  - apply index_of_lt in Hi.
    unfold mruTabs_RemoveAt, mruTabs_InsertAt, bind, get, check, modify,
      RemoveAt, InsertAt.
    rewrite decide_True by (unfold Size; lia). unfold ret at 1.
    rewrite decide_True by (apply (conj (Z.le_refl 0)), Size_nonneg).
    unfold ret. rewrite with_mruTabs_twice, Nat2Z.id. done.
  - by rewrite with_mruTabs_id.
Qed.

Lemma steady_tabs_UpdateMRUTab index : steady eq _tabs (_UpdateMRUTab index).
Proof.
  intros p. unfold exec. rewrite _UpdateMRUTab_eq.
  by destruct (GetAt _ _).
Qed.

Lemma steady_mru_UpdateMRUTab index : steady (≡ₚ) _mruTabs (_UpdateMRUTab index).
Proof.
  intros p. unfold exec. rewrite _UpdateMRUTab_eq.
  destruct (GetAt _ _); simpl; [|done]. symmetry. apply bumpMRU_perm.
Qed.

(** ** Frames of the event handlers *)

Lemma steady_core_UpdateMRUTab index : steady eq core (_UpdateMRUTab index).
Proof.
  intros p. unfold exec. rewrite _UpdateMRUTab_eq.
  destruct (GetAt _ _); [by destruct p|done].
Qed.

Lemma steady_tabView_UpdateMRUTab index : steady eq _tabView (_UpdateMRUTab index).
Proof.
  intros p. unfold exec. rewrite _UpdateMRUTab_eq.
  destruct (GetAt _ _); [by destruct p|done].
Qed.

Lemma steady_palette_UpdateMRUTab index : steady eq _commandPalette (_UpdateMRUTab index).
Proof.
  intros p. unfold exec. rewrite _UpdateMRUTab_eq.
  destruct (GetAt _ _); [by destruct p|done].
Qed.

Lemma steady_rearrange_UpdateMRUTab index :
  steady eq (λ p, (_rearrangeFrom p, _rearrangeTo p)) (_UpdateMRUTab index).
Proof.
  intros p. unfold exec. rewrite _UpdateMRUTab_eq.
  destruct (GetAt _ _); [by destruct p|done].
Qed.

#[export] Hint Resolve steady_tabs_UpdateMRUTab steady_mru_UpdateMRUTab
  steady_core_UpdateMRUTab steady_tabView_UpdateMRUTab
  steady_palette_UpdateMRUTab steady_rearrange_UpdateMRUTab : frame.

Lemma steady_core_Focus tab state : steady eq core (Focus tab state).
Proof. frame. Qed.
Lemma steady_mru_Focus tab state : steady (≡ₚ) _mruTabs (Focus tab state).
Proof. frame. Qed.
Lemma steady_tabView_Focus tab state : steady eq _tabView (Focus tab state).
Proof. frame. Qed.
Lemma steady_palette_Focus tab state : steady eq _commandPalette (Focus tab state).
Proof. frame. Qed.
Lemma steady_rearrange_Focus tab state :
  steady eq (λ p, (_rearrangeFrom p, _rearrangeTo p)) (Focus tab state).
Proof. frame. Qed.

#[export] Hint Resolve steady_core_Focus steady_mru_Focus steady_tabView_Focus
  steady_palette_Focus steady_rearrange_Focus : frame.


Lemma steady_core_UpdatedSelectedTab index : steady eq core (_UpdatedSelectedTab index).
Proof. frame. Qed.
Lemma steady_mru_UpdatedSelectedTab index : steady (≡ₚ) _mruTabs (_UpdatedSelectedTab index).
Proof. frame. Qed.
Lemma steady_tabView_UpdatedSelectedTab index : steady eq _tabView (_UpdatedSelectedTab index).
Proof. frame. Qed.
Lemma steady_palette_UpdatedSelectedTab index :
  steady eq _commandPalette (_UpdatedSelectedTab index).
Proof. frame. Qed.
Lemma steady_rearrange_UpdatedSelectedTab index :
  steady eq (λ p, (_rearrangeFrom p, _rearrangeTo p)) (_UpdatedSelectedTab index).
Proof. frame. Qed.

#[export] Hint Resolve steady_core_UpdatedSelectedTab steady_mru_UpdatedSelectedTab
  steady_tabView_UpdatedSelectedTab steady_palette_UpdatedSelectedTab
  steady_rearrange_UpdatedSelectedTab : frame.

Lemma steady_core_OnTabSelectionChanged : steady eq core _OnTabSelectionChanged.
Proof. frame. Qed.
Lemma steady_mru_OnTabSelectionChanged : steady (≡ₚ) _mruTabs _OnTabSelectionChanged.
Proof. frame. Qed.
Lemma steady_tabView_OnTabSelectionChanged : steady eq _tabView _OnTabSelectionChanged.
Proof. frame. Qed.
Lemma steady_palette_OnTabSelectionChanged : steady eq _commandPalette _OnTabSelectionChanged.
Proof. frame. Qed.
Lemma steady_rearrange_OnTabSelectionChanged :
  steady eq (λ p, (_rearrangeFrom p, _rearrangeTo p)) _OnTabSelectionChanged.
Proof. frame. Qed.

#[export] Hint Resolve steady_core_OnTabSelectionChanged steady_mru_OnTabSelectionChanged
  steady_tabView_OnTabSelectionChanged steady_palette_OnTabSelectionChanged
  steady_rearrange_OnTabSelectionChanged : frame.

Lemma steady_core_CommandPaletteClosed : steady eq core _CommandPaletteClosed.
Proof. frame. Qed.
Lemma steady_mru_CommandPaletteClosed : steady (≡ₚ) _mruTabs _CommandPaletteClosed.
Proof. frame. Qed.
Lemma steady_tabView_CommandPaletteClosed : steady eq _tabView _CommandPaletteClosed.
Proof. frame. Qed.
Lemma steady_palette_CommandPaletteClosed : steady eq _commandPalette _CommandPaletteClosed.
Proof. frame. Qed.
Lemma steady_rearrange_CommandPaletteClosed :
  steady eq (λ p, (_rearrangeFrom p, _rearrangeTo p)) _CommandPaletteClosed.
Proof. frame. Qed.

#[export] Hint Resolve steady_core_CommandPaletteClosed steady_mru_CommandPaletteClosed
  steady_tabView_CommandPaletteClosed steady_palette_CommandPaletteClosed
  steady_rearrange_CommandPaletteClosed : frame.

(** ** Defined behaviour *)

Section Nofault.
Lemma nofault_ret {A} (a : A) : nofault (ret a).
Proof. by intros p. Qed.
Lemma nofault_get {A} (g : TerminalPage → A) : nofault (get g).
Proof. by intros p. Qed.
Lemma nofault_throw {A} : nofault (@throw A).
Proof. by intros p. Qed.
Lemma nofault_check {A} (o : option A) : nofault (check o).
Proof. by destruct o. Qed.
Lemma nofault_modify g : nofault (modify g).
Proof. by intros p. Qed.
Lemma nofault_bind {A B} (m : M A) (k : A → M B) :
  nofault m → (∀ a, nofault (k a)) → nofault (bind m k).
Proof.
  intros Hm Hk p. specialize (Hm p). unfold bind.
  destruct (m p); [apply Hk|done..].
Qed.
Lemma nofault_CATCH_LOG m : nofault m → nofault (CATCH_LOG m).
Proof. intros Hm p. specialize (Hm p). unfold CATCH_LOG. by destruct (m p). Qed.
Lemma nofault_scope_exit {A} after (m : M A) : nofault m → nofault (scope_exit after m).
Proof. intros Hm p. specialize (Hm p). unfold scope_exit. by destruct (m p). Qed.
End Nofault.

Create HintDb nofault discriminated.

Ltac nofault_step :=
  lazymatch goal with
  | |- nofault (ret _) => apply nofault_ret
  | |- nofault (get _) => apply nofault_get
  | |- nofault throw => apply nofault_throw
  | |- nofault (check _) => apply nofault_check
  | |- nofault (modify _) => apply nofault_modify
  | |- nofault (bind _ _) => apply nofault_bind; [|intros ?]
  | |- nofault (CATCH_LOG _) => apply nofault_CATCH_LOG
  | |- nofault (scope_exit _ _) => apply nofault_scope_exit
  | |- nofault (match ?x with _ => _ end) => destruct x
  | |- nofault ?m =>
      first [ solve [eauto with nofault]
            | let h := head_of m in progress unfold h ]
  end.

Ltac nofault := repeat nofault_step.

(** An invariant over the roster and the MRU list up to its order is kept
    by whatever keeps those. *)
Lemma keeps_of_steady {A} (I : TerminalPage → Prop) (m : M A) :
  (∀ p p', roster p = roster p' → _mruTabs p ≡ₚ _mruTabs p' → I p → I p') →
  nofault m → steady eq roster m → steady (≡ₚ) _mruTabs m → keeps I m.
Proof.
  intros HI Hnf Hc Hm p Hp. specialize (Hnf p). specialize (Hc p).
  specialize (Hm p). unfold exec in *.
  destruct (m p); simpl in *; [by eapply HI..|done].
Qed.

Lemma keeps_bind {A B} I (m : M A) (k : A → M B) :
  keeps I m → (∀ a, keeps I (k a)) → keeps I (bind m k).
Proof.
  intros Hm Hk p Hp. specialize (Hm p Hp). unfold bind.
  destruct (m p); [by apply Hk|done..].
Qed.

(** ** The collection invariant *)

Lemma same_tab_set_perm p :
  NoDup (_tabs p) → (NoDup (_mruTabs p) ∧ same_tab_set p ↔ _mruTabs p ≡ₚ _tabs p).
Proof.
  intros Hnd. split.
  - intros (Hm & H1 & H2). apply NoDup_Permutation; [done..|].
    intros t. split; [apply H2 | apply H1].
  - intros Hp. split; [by rewrite Hp|].
    split; intros t; by rewrite Hp.
Qed.

Lemma collection_ok_alt p :
  collection_ok p ↔
  NoDup (_tabs p) ∧ _mruTabs p ≡ₚ _tabs p ∧
  Forall (λ t, (t < nextTab (_objects p))%nat) (_tabs p).
Proof.
  unfold collection_ok. split.
  - intros (Hnd & Hm & Hs & Hf). split_and!; [done| |done].
    by apply same_tab_set_perm.
  - intros (Hnd & Hp & Hf). apply same_tab_set_perm in Hp as [??]; done.
Qed.

Lemma collection_ok_core p p' :
  roster p = roster p' → _mruTabs p ≡ₚ _mruTabs p' → collection_ok p → collection_ok p'.
Proof.
  rewrite !collection_ok_alt. unfold roster. intros Hc Hm (Hnd & Hp & Hf).
  simplify_eq. rewrite <-Hm. by repeat match goal with H : _ = _ |- _ => rewrite <-H end.
Qed.

Lemma nofault_UpdateMRUTab index : nofault (_UpdateMRUTab index).
Proof. intros p. rewrite _UpdateMRUTab_eq. by destruct (GetAt _ _). Qed.
#[export] Hint Resolve nofault_UpdateMRUTab : nofault.

Lemma bounded_ok_core p p' :
  roster p = roster p' → _mruTabs p ≡ₚ _mruTabs p' → bounded_ok p → bounded_ok p'.
Proof.
  intros Hc Hm [Hok Hb]. split; [by eapply collection_ok_core|].
  unfold roster in Hc. simplify_eq. congruence.
Qed.

(** The calls on the [TabView] and the event handlers keep the
    collection. *)
Ltac handler :=
  apply keeps_of_steady;
    [ first [apply collection_ok_core | apply bounded_ok_core]
    | nofault | frame | frame ].

Lemma int32_id z : 0 ≤ z < 2 ^ 31 → to_int32 z = z.
Proof.
  intros ?. unfold to_int32.
  rewrite Z.mod_small by lia. lia.
Qed.

Lemma uint32_id z : 0 ≤ z < 2 ^ 32 → to_uint32 z = z.
Proof. intros ?. unfold to_uint32. by rewrite Z.mod_small. Qed.

Lemma uint32_minus_one : to_uint32 (-1) = 2 ^ 32 - 1.
Proof. reflexivity. Qed.

Lemma clamp_range v lo hi : lo ≤ hi → lo ≤ clamp v lo hi ≤ hi.
Proof.
  intros ?. unfold clamp.
  destruct (Z.ltb_spec v lo); [lia|]. destruct (Z.ltb_spec hi v); lia.
Qed.

Lemma keeps_insert_rest I (n : TabBase) (m : M unit) :
  (∀ p p', roster p = roster p' → _mruTabs p ≡ₚ _mruTabs p' → I p → I p') →
  nofault m → steady eq roster m → steady (≡ₚ) _mruTabs m →
  keeps I (TabItems_Append n;;; m;;; TabView_SelectedItem n).
Proof.
  intros HI Hnf Hc Hm. apply keeps_of_steady; [done|nofault|frame|frame].
Qed.

Lemma collection_ok_append p p' n :
  n = nextTab (_objects p) → nextTab (_objects p') = S n →
  _tabs p' = Append (_tabs p) n → _mruTabs p' = Append (_mruTabs p) n →
  collection_ok p → collection_ok p'.
Proof.
  intros -> Ho Ht Hm. rewrite !collection_ok_alt. intros (Hnd & Hp & Hf).
  rewrite Ht, Hm, Ho. unfold Append. split_and!.
  - apply NoDup_app. split_and!; [done| |apply NoDup_singleton].
    intros t Hin ->%list_elem_of_singleton.
    rewrite Forall_forall in Hf. specialize (Hf _ Hin). lia.
  - by rewrite Hp.
  - apply Forall_app. split.
    + eapply Forall_impl; [done|]. simpl. lia.
    + apply Forall_singleton. lia.
Qed.

Lemma keeps_CreateNewTabFromSettings g d :
  keeps collection_ok (_CreateNewTabFromSettings g d).
Proof.
  intros p Hp. unfold _CreateNewTabFromSettings.
  erewrite bind_Ret by reflexivity.
  erewrite bind_Ret by reflexivity.
  erewrite bind_Ret by reflexivity.
  apply keeps_insert_rest.
  - apply collection_ok_core.
  - nofault.
  - frame.
  - frame.
  - by eapply collection_ok_append.
Qed.

Lemma keeps_OpenSettingsUI : keeps collection_ok _OpenSettingsUI.
Proof.
  intros p Hp. unfold _OpenSettingsUI.
  erewrite bind_Ret by reflexivity.
  destruct (_settingsTab p) as [t|].
  - revert p Hp. handler.
  - erewrite bind_Ret by reflexivity.
    erewrite bind_Ret by reflexivity.
    erewrite bind_Ret by reflexivity.
    apply (keeps_insert_rest collection_ok _ (modify _)).
    + apply collection_ok_core.
    + nofault.
    + frame.
    + frame.
    + by eapply collection_ok_append.
Qed.

Lemma nofault_std_clamp v lo hi : lo ≤ hi → nofault (std_clamp v lo hi).
Proof. intros ? p. unfold std_clamp. by rewrite decide_False by lia. Qed.

Lemma std_clamp_Ret v lo hi p :
  lo ≤ hi → std_clamp v lo hi p = Ret (clamp v lo hi) p.
Proof. intros ?. unfold std_clamp. by rewrite decide_False by lia. Qed.

Lemma keeps_scope_exit {A} I after (m : M A) p :
  (∀ p', I p' → I (after p')) →
  match m p with Ret _ p' | Throw p' => I p' | Fault => False end →
  match scope_exit after m p with Ret _ p' | Throw p' => I p' | Fault => False end.
Proof. intros Ha. unfold scope_exit. destruct (m p); auto. Qed.

Lemma tabs_RemoveAt_Ret i p :
  0 ≤ i < Size (_tabs p) →
  tabs_RemoveAt i p = Ret tt (with_tabs (delete (Z.to_nat i) (_tabs p)) p).
Proof.
  intros ?. unfold tabs_RemoveAt, bind, get, check, RemoveAt.
  by rewrite decide_True.
Qed.

Lemma mruTabs_RemoveAt_Ret i p :
  0 ≤ i < Size (_mruTabs p) →
  mruTabs_RemoveAt i p = Ret tt (with_mruTabs (delete (Z.to_nat i) (_mruTabs p)) p).
Proof.
  intros ?. unfold mruTabs_RemoveAt, bind, get, check, RemoveAt.
  by rewrite decide_True.
Qed.

Lemma tabs_InsertAt_Ret i tab p :
  0 ≤ i ≤ Size (_tabs p) →
  tabs_InsertAt i tab p =
    Ret tt (with_tabs (take (Z.to_nat i) (_tabs p) ++ tab :: drop (Z.to_nat i) (_tabs p)) p).
Proof.
  intros ?. unfold tabs_InsertAt, bind, get, check, InsertAt.
  by rewrite decide_True.
Qed.

Lemma Size_delete {A} (v : list A) (i : nat) :
  (i < length v)%nat → Size (delete i v) = Size v - 1.
Proof. intros ?. unfold Size. rewrite length_delete by (apply lookup_lt_is_Some; lia). lia. Qed.

(** Removing one tab from both vectors. *)
Lemma delete_both_perm (tabs mru : list TabBase) i j x :
  mru ≡ₚ tabs → tabs !! i = Some x → mru !! j = Some x →
  delete j mru ≡ₚ delete i tabs.
Proof.
  intros Hp Hi Hj. apply (Permutation_cons_inv (a:=x)).
  by rewrite <-!delete_Permutation.
Qed.

Lemma bounded_ok_remove p p' i j x :
  _tabs p !! i = Some x → _mruTabs p !! j = Some x →
  _tabs p' = delete i (_tabs p) → _mruTabs p' = delete j (_mruTabs p) →
  nextTab (_objects p') = nextTab (_objects p) →
  bounded_ok p → bounded_ok p'.
Proof.
  intros Hi Hj Ht Hm Hn [Hok Hb]. revert Hok. unfold bounded_ok.
  rewrite !collection_ok_alt, Ht, Hm, Hn. intros (Hnd & Hp & Hf).
  split_and!.
  - eapply sublist_NoDup; [done|apply sublist_delete].
  - by eapply delete_both_perm.
  - by apply Forall_delete.
  - rewrite Size_delete by (by eapply lookup_lt_Some). lia.
Qed.

Lemma keeps_focus_replacement size (focused : option Z) tabIndex :
  0 ≤ size < 2 ^ 31 →
  keeps bounded_ok
    (if decide (size = 0) then modify (with_lastTabClosed true)
     else if decide (focused = Some tabIndex) then
       tabSwitchMode <- get (λ p, GlobalTabSwitcherMode (_settings p));;
       if decide (tabSwitchMode = MostRecentlyUsed) then
         newSelectedTab <- mruTabs_GetAt 0;;
         newSelected <- tabs_IndexOf newSelectedTab;;
         match newSelected with
         | Some newSelectedIndex =>
             _UpdatedSelectedTab (to_int32 newSelectedIndex);;;
             TabView_SelectedItem newSelectedTab
         | None => ret tt
         end
       else
         newSelectedIndex <-
           std_clamp (to_int32 (to_uint32 (tabIndex - 1))) 0 (to_int32 size);;
         _UpdatedSelectedTab newSelectedIndex;;;
         newSelectedTab <- tabs_GetAt (to_uint32 newSelectedIndex);;
         TabView_SelectedItem newSelectedTab
     else ret tt).
Proof.
  intros Hsize.
  assert (nofault (std_clamp (to_int32 (to_uint32 (tabIndex - 1))) 0 (to_int32 size))).
  { apply nofault_std_clamp. rewrite int32_id; lia. }
  apply keeps_of_steady; [apply bounded_ok_core|..].
  - nofault.
  - frame.
  - frame.
Qed.

Lemma keeps_RemoveTab tab w : keeps bounded_ok (_RemoveTab tab w).
Proof.
  intros p Hp. unfold _RemoveTab.
  erewrite bind_Ret by reflexivity.
  destruct (_ && _); [done|].
  erewrite bind_Ret by reflexivity.
  destruct (IndexOf (_tabs p) tab) as [i|] eqn:Hi; [|done].
  erewrite bind_Ret by reflexivity.
  apply keeps_scope_exit.
  { intros p'. apply bounded_ok_core; done. }
  erewrite bind_Ret by reflexivity.
  erewrite bind_Ret by reflexivity.
  erewrite bind_Ret by reflexivity.
  apply IndexOf_Some in Hi as [Hget Hrange].
  pose proof Hp as [Hok _]. apply collection_ok_alt in Hok as (Hnd & Hperm & Hf).
  apply GetAt_Some in Hget as [_ Hget].
  assert (tab ∈ _mruTabs p) as [j Hj]%index_of_elem.
  { rewrite Hperm. by eapply list_elem_of_lookup_2. }
  cbn [_mruTabs with_objects with_removing]. unfold IndexOf. rewrite Hj. simpl.
  pose proof (index_of_lt _ _ _ Hj). apply index_of_lookup in Hj.
  erewrite bind_Ret; last first.
  { apply mruTabs_RemoveAt_Ret. simpl. unfold Size. lia. }
  erewrite bind_Ret; last first.
  { apply tabs_RemoveAt_Ret. simpl. lia. }
  match goal with
  | |- context [bind _ _ ?q] => assert (bounded_ok q) as Hq
  end.
  { eapply (bounded_ok_remove p); [exact Hget|exact Hj|..|done]; simpl;
      by rewrite ?Nat2Z.id. }
  revert Hq.
  match goal with |- bounded_ok ?q → _ => generalize q end.
  clear. intros q Hq. revert q Hq.
  apply keeps_bind; [handler|intros _].
  intros q Hq. erewrite bind_Ret by reflexivity.
  refine (keeps_bind bounded_ok _ _ _ _ q Hq); [|intros _; handler].
  apply keeps_focus_replacement.
  destruct Hq as [_ ?]. split; [apply Size_nonneg|done].
Qed.

Lemma insert_at_perm {A} (l : list A) n x : take n l ++ x :: drop n l ≡ₚ x :: l.
Proof. by rewrite <-Permutation_middle, take_drop. Qed.

Lemma move_perm {A} (l : list A) i n x :
  l !! i = Some x → take n (delete i l) ++ x :: drop n (delete i l) ≡ₚ l.
Proof. intros Hi. by rewrite insert_at_perm, <-delete_Permutation. Qed.

Lemma bounded_ok_move p p' :
  _tabs p' ≡ₚ _tabs p → _mruTabs p' = _mruTabs p →
  nextTab (_objects p') = nextTab (_objects p) →
  bounded_ok p → bounded_ok p'.
Proof.
  intros Ht Hm Hn [Hok Hb]. revert Hok. unfold bounded_ok.
  rewrite !collection_ok_alt, Hm, Hn. intros (Hnd & Hp & Hf).
  split_and!.
  - by rewrite Ht.
  - by rewrite Ht.
  - by rewrite Ht.
  - unfold Size in *. by rewrite Ht.
Qed.

Lemma move_index size s :
  1 ≤ size < 2 ^ 31 →
  0 ≤ to_uint32 (clamp s 0 (to_int32 (to_uint32 (size - 1)))) ≤ size - 1.
Proof.
  intros ?. rewrite (uint32_id (size - 1)) by lia.
  rewrite (int32_id (size - 1)) by lia.
  pose proof (clamp_range s 0 (size - 1)). rewrite uint32_id; lia.
Qed.

Lemma tabs_GetAt_eq i p :
  tabs_GetAt i p =
    match GetAt (_tabs p) i with Some tab => Ret tab p | None => Throw p end.
Proof. unfold tabs_GetAt, bind, get. by destruct (GetAt _ _). Qed.

Lemma mruTabs_GetAt_eq i p :
  mruTabs_GetAt i p =
    match GetAt (_mruTabs p) i with Some tab => Ret tab p | None => Throw p end.
Proof. unfold mruTabs_GetAt, bind, get. by destruct (GetAt _ _). Qed.

Lemma TryMoveTab_outcome c s p :
  bounded_ok p →
  match _TryMoveTab c s p with
  | Ret _ p' | Throw p' => bounded_ok p'
  | Fault => _tabs p = []
  end.
Proof.
  intros Hp. unfold _TryMoveTab. erewrite bind_Ret by reflexivity.
  destruct (decide (_tabs p = [])) as [He|Hne].
  { rewrite He. unfold bind, std_clamp. by rewrite decide_True by by vm_compute. }
  assert (1 ≤ Size (_tabs p) < 2 ^ 31) as Hsize.
  { destruct Hp as [_ ?]. split; [|done].
    unfold Size. destruct (_tabs p); simpl in *; [done|lia]. }
  pose proof (move_index _ s Hsize) as Hidx.
  erewrite bind_Ret; last first.
  { apply std_clamp_Ret. rewrite uint32_id, int32_id; lia. }
  destruct (decide (c ≠ _)) as [Hcn|]; [|done].
  destruct (GetAt (_tabs p) c) as [tab|] eqn:Hget; last first.
  { erewrite bind_Throw; [done|]. by rewrite tabs_GetAt_eq, Hget. }
  erewrite bind_Ret by (by rewrite tabs_GetAt_eq, Hget).
  pose proof (GetAt_lt _ _ _ Hget) as Hc.
  apply GetAt_Some in Hget as [_ Hget].
  erewrite bind_Ret; last by apply tabs_RemoveAt_Ret.
  erewrite bind_Ret; last first.
  { apply tabs_InsertAt_Ret. cbn [_tabs with_tabs].
    rewrite Size_delete by (unfold Size in Hc; lia). lia. }
  match goal with
  | |- context [bind _ _ ?q] => assert (bounded_ok q) as Hq
  end.
  { apply (bounded_ok_move p); [|done..]. cbn [_tabs with_tabs].
    by apply move_perm. }
  revert Hq.
  match goal with |- bounded_ok ?q → _ => generalize q end.
  intros q Hq.
  assert (keeps bounded_ok
    (TabItems_RemoveAt c;;;
     TabItems_InsertAt (to_uint32 (clamp s 0 (to_int32 (to_uint32 (Size (_tabs p) - 1))))) tab;;;
     TabView_SelectedItem tab)) as Hk by handler.
  specialize (Hk q Hq).
  match goal with |- match ?x with _ => _ end => by destruct x end.
Qed.

Lemma keeps_UpdateMRUTab index : keeps collection_ok (_UpdateMRUTab index).
Proof. handler. Qed.

(** C5. After every Insert, Remove, Move or BumpMRU the display order and
    the MRU list hold the same set of tabs: each of them takes a collection
    that is in order (distinct tabs, the same set in both lists) to one that
    is in order, whether it returns or raises.  The only way out is the
    undefined [std::clamp] of a Move on a page without tabs. *)
Theorem C5_order_and_mru_same_set (op : CollectionOp) (p : TerminalPage) :
  collection_ok p → Size (_tabs p) < 2 ^ 31 →
  match run_op op p with
  | Ret _ p' | Throw p' => collection_ok p' ∧ same_tab_set p'
  | Fault => (∃ c s, op = OpMove c s) ∧ _tabs p = []
  end.
Proof.
  intros Hok Hb.
  assert (∀ q, collection_ok q → collection_ok q ∧ same_tab_set q) as Hset.
  { intros q Hq. split; [done|]. apply Hq. }
  destruct op as [g d| |tab w|c s|index]; simpl.
  - pose proof (keeps_CreateNewTabFromSettings g d p Hok) as H.
    destruct (_CreateNewTabFromSettings g d p); by try apply Hset.
  - pose proof (keeps_OpenSettingsUI p Hok) as H.
    destruct (_OpenSettingsUI p); by try apply Hset.
  - pose proof (keeps_RemoveTab tab w p (conj Hok Hb)) as H.
    destruct (_RemoveTab tab w p); by try apply Hset, H.
  - pose proof (TryMoveTab_outcome c s p (conj Hok Hb)) as H.
    destruct (_TryMoveTab c s p); try apply Hset, H. eauto.
  - pose proof (keeps_UpdateMRUTab index p Hok) as H.
    destruct (_UpdateMRUTab index p); by try apply Hset.
Qed.

Lemma C5_witness :
  match run_op (OpRemove 1%nat DialogNone) (fourTabs id) with
  | Ret _ p' | Throw p' => collection_ok p' ∧ same_tab_set p'
  | Fault => (∃ c s, OpRemove 1%nat DialogNone = OpMove c s) ∧ _tabs (fourTabs id) = []
  end.
Proof.
  apply (C5_order_and_mru_same_set (OpRemove 1%nat DialogNone) (fourTabs id)).
  - apply (bool_decide_unpack _). vm_compute. exact I.
  - vm_compute. reflexivity.
Defined.

(** C10. BumpMRU is idempotent: a tab that is already at the head of the
    MRU list is left where it is, with the whole page as it was, and bumping
    the same tab twice in a row is bumping it once. *)
Theorem C10_UpdateMRUTab_idempotent (index : Z) (p : TerminalPage) :
  (∀ tab rest,
     GetAt (_tabs p) index = Some tab → _mruTabs p = tab :: rest →
     _UpdateMRUTab index p = Ret tt p) ∧
  (_UpdateMRUTab index;;; _UpdateMRUTab index) p = _UpdateMRUTab index p.
Proof.
  split.
  - intros tab rest Hget Hmru. rewrite _UpdateMRUTab_eq, Hget, Hmru.
    by rewrite bumpMRU_head, <-Hmru, with_mruTabs_id.
  - unfold bind. rewrite _UpdateMRUTab_eq.
    destruct (GetAt (_tabs p) index) as [tab|] eqn:Hget; [|done].
    rewrite _UpdateMRUTab_eq. cbn [_tabs _mruTabs with_mruTabs].
    by rewrite Hget, bumpMRU_idem, with_mruTabs_twice.
Qed.

Lemma C10_witness :
  _UpdateMRUTab 3 (fourTabs id) = Ret tt (fourTabs id).
Proof.
  apply (proj1 (C10_UpdateMRUTab_idempotent 3 (fourTabs id)) 3%nat [2; 1; 0]%nat).
  - vm_compute. reflexivity.
  - vm_compute. reflexivity.
Defined.

(** C2. With the tab switcher disabled, a next or previous tab request on
    a page without tabs computes [% tabCount] with [tabCount] zero: the
    request does not return. *)
Theorem C2_SelectNextTab_empty_faults (bMoveRight : bool) (profiles : list GUID) :
  _SelectNextTab bMoveRight None (initialPage Disabled profiles) = Fault ∧
  _SelectNextTab bMoveRight (Some Disabled) (initialPage InOrder profiles) = Fault.
Proof. by destruct bMoveRight. Qed.

(** On the same page [_SelectTab] is the no-op the specification asks
    for. *)
Lemma SelectTab_empty tabIndex p :
  _tabs p = [] → _SelectTab tabIndex p = Ret false p.
Proof.
  intros He. unfold _SelectTab, bind, tabs_Size, get. rewrite He.
  rewrite decide_False; [done|]. unfold Size. simpl. lia.
Qed.

(** ** Duplicating with a profile that is gone *)

Lemma CreateWithProfileByID_missing guid p :
  guid ∉ Profiles (_settings p) → CreateWithProfileByID guid p = Throw p.
Proof.
  intros Hn. unfold CreateWithProfileByID, bind, get.
  by rewrite decide_False.
Qed.

(** C8. When the profile of the focused tab's focused pane is not among
    the profiles of the current settings, DuplicateFocusedTab and
    duplicate-mode SplitPane return without raising and leave the page as it
    was: no tab and no pane is added, nothing is shown. *)
Theorem C8_duplicate_missing_profile (p : TerminalPage) (tab : TabBase) (guid : GUID) :
  _GetFocusedTabImpl p = Ret (Some tab) p →
  focusedProfiles (_objects p) !! tab = Some guid →
  guid ∉ Profiles (_settings p) →
  _DuplicateFocusedTab p = Ret tt p ∧
  ∀ splitType profileForArgs autoSplit canSplit,
    _SplitPane splitType Duplicate profileForArgs autoSplit canSplit p = Ret tt p.
Proof.
  intros Hfocus Hprofile Hmissing. split.
  - unfold _DuplicateFocusedTab. erewrite bind_Ret by exact Hfocus.
    unfold _DuplicateTab, CATCH_LOG.
    erewrite bind_Ret by (unfold GetFocusedProfile, get; by rewrite Hprofile).
    cbv beta iota.
    erewrite bind_Throw; [done|]. by apply CreateWithProfileByID_missing.
  - intros splitType profileForArgs autoSplit canSplit. unfold _SplitPane.
    destruct (decide (splitType = SplitNone)); [done|].
    erewrite bind_Ret by exact Hfocus.
    unfold CATCH_LOG. erewrite bind_Throw; [done|].
    case_decide; [|done].
    erewrite bind_Ret by (unfold GetFocusedProfile, get; by rewrite Hprofile).
    cbv beta iota.
    erewrite bind_Throw; [done|]. by apply CreateWithProfileByID_missing.
Qed.

Lemma C8_witness :
  _DuplicateFocusedTab reloadedPage = Ret tt reloadedPage ∧
  ∀ splitType profileForArgs autoSplit canSplit,
    _SplitPane splitType Duplicate profileForArgs autoSplit canSplit reloadedPage
    = Ret tt reloadedPage.
Proof.
  apply (C8_duplicate_missing_profile reloadedPage 0%nat 1%nat).
  - vm_compute. reflexivity.
  - vm_compute. reflexivity.
  - apply (bool_decide_unpack _). vm_compute. exact I.
Defined.

(** ** Readers *)

Section Reader.
Lemma reader_ret {A} (a : A) : reader (ret a).
Proof. by intros p. Qed.
Lemma reader_get {A} (g : TerminalPage → A) : reader (get g).
Proof. by intros p. Qed.
Lemma reader_throw {A} : reader (@throw A).
Proof. by intros p. Qed.
Lemma reader_fault {A} : reader (@fault A).
Proof. by intros p. Qed.
Lemma reader_check {A} (o : option A) : reader (check o).
Proof. by destruct o. Qed.
Lemma reader_bind {A B} (m : M A) (k : A → M B) :
  reader m → (∀ a, reader (k a)) → reader (bind m k).
Proof.
  intros Hm Hk p. specialize (Hm p). unfold bind.
  destruct (m p) as [a p1|p1|]; [subst; apply Hk|done..].
Qed.
Lemma reader_noexcept {A} (m : M A) : reader m → reader (noexcept m).
Proof. intros Hm p. specialize (Hm p). unfold noexcept. by destruct (m p). Qed.
End Reader.

Ltac reader_step :=
  lazymatch goal with
  | |- reader (ret _) => apply reader_ret
  | |- reader (get _) => apply reader_get
  | |- reader throw => apply reader_throw
  | |- reader fault => apply reader_fault
  | |- reader (check _) => apply reader_check
  | |- reader (bind _ _) => apply reader_bind; [|intros ?]
  | |- reader (noexcept _) => apply reader_noexcept
  | |- reader (match ?x with _ => _ end) => destruct x
  | |- reader ?m => let h := head_of m in progress unfold h
  end.

Ltac reader := repeat reader_step.

Lemma reader_GetFocusedTabImpl : reader _GetFocusedTabImpl.
Proof. reader. Qed.

Lemma GetFocusedTabImpl_cases p :
  (∃ o, _GetFocusedTabImpl p = Ret o p) ∨ _GetFocusedTabImpl p = Fault.
Proof.
  pose proof (reader_GetFocusedTabImpl p) as Hr.
  unfold _GetFocusedTabImpl, noexcept in *.
  destruct (bind _ _ p); subst; eauto.
Qed.

(** ** Zoom *)

Lemma UnZoomIfNeeded_focused p tab :
  _GetFocusedTabImpl p = Ret (Some tab) p →
  ∃ p', _UnZoomIfNeeded p = Ret tt p' ∧
    (tab ∉ zoomedTabs (_objects p')) ∧
    paneCalls (_objects p') = paneCalls (_objects p) ∧
    readOnlyControls (_objects p') = readOnlyControls (_objects p) ∧
    focusedProfiles (_objects p') = focusedProfiles (_objects p) ∧
    _settings p' = _settings p.
Proof.
  intros Hf. unfold _UnZoomIfNeeded. erewrite bind_Ret by exact Hf.
  cbv beta iota. erewrite bind_Ret by reflexivity.
  destruct (bool_decide (tab ∈ zoomedTabs (_objects p))) eqn:Hz.
  - eexists. split; [reflexivity|]. simpl. split_and!; try done.
    intros [_ Hn]%elem_of_difference. by apply Hn, elem_of_singleton.
  - eexists. split; [reflexivity|]. split_and!; try done.
    by apply bool_decide_eq_false in Hz.
Qed.

Lemma PaneRequest_unzoomed tab c p :
  tab ∉ zoomedTabs (_objects p) →
  ∃ p', PaneRequest tab c p = Ret tt p' ∧
    paneCalls (_objects p') = paneCalls (_objects p) ++ [(tab, c, false)] ∧
    zoomedTabs (_objects p') = zoomedTabs (_objects p).
Proof.
  intros Hz. eexists. split; [reflexivity|]. simpl.
  by rewrite bool_decide_eq_false_2.
Qed.

Lemma pane_op_focused op p tab :
  _GetFocusedTabImpl p = Ret (Some tab) p →
  ∃ p', run_pane_op op p = Ret tt p' ∧
    paneCalls (_objects p') =
      paneCalls (_objects p) ++
      match requested op p tab with Some c => [(tab, c, false)] | None => [] end ∧
    (is_Some (requested op p tab) → tab ∉ zoomedTabs (_objects p')).
Proof.
  intros Hf.
  destruct (UnZoomIfNeeded_focused p tab Hf) as (q & Hq & Hz & Hcalls & Hro & Hprof & Hset).
  destruct op as [splitType splitMode pfa auto can|w|d|d]; simpl.
  - unfold _SplitPane.
    destruct (decide (splitType = SplitNone)) as [->|Hn].
    { eexists. split; [reflexivity|]. rewrite app_nil_r. split; [done|].
      by intros [? [=]]. }
    rewrite bool_decide_eq_false_2 by done. cbn [orb]; cbv iota.
    erewrite bind_Ret by exact Hf. cbv beta iota. unfold CATCH_LOG.
    destruct splitMode.
    + rewrite decide_False by done.
      erewrite bind_Ret by reflexivity. cbv beta. destruct can; cbn [negb]; cbv iota.
      * erewrite bind_Ret by exact Hq.
        destruct (PaneRequest_unzoomed tab (CallSplitPane
          (if decide (splitType = SplitAutomatic) then auto else splitType)
          (default pfa None)) q Hz) as (q' & -> & Hc' & Hz').
        eexists. split; [done|]. rewrite Hc', Hcalls. split; [done|].
        intros _. by rewrite Hz'.
      * eexists. split; [reflexivity|]. rewrite app_nil_r. split; [done|].
        by intros [? [=]].
    + rewrite decide_True by done. cbv iota. rewrite bind_assoc.
      erewrite (bind_Ret (GetFocusedProfile tab)) by reflexivity. cbv beta.
      destruct (focusedProfiles (_objects p) !! tab) as [guid|] eqn:Hg.
      * destruct (decide (guid ∈ Profiles (_settings p))) as [Hin|Hnin].
        -- rewrite (bool_decide_eq_true_2 _ Hin). rewrite bind_assoc.
           erewrite (bind_Ret (CreateWithProfileByID guid)); last first.
           { unfold CreateWithProfileByID, bind, get.
             rewrite decide_True by done. reflexivity. }
           erewrite (bind_Ret (ret _)) by reflexivity.
           cbv beta. destruct can; cbn [negb]; cbv iota.
           ++ erewrite bind_Ret by exact Hq.
              destruct (PaneRequest_unzoomed tab (CallSplitPane
                (if decide (splitType = SplitAutomatic) then auto else splitType)
                (default pfa (Some guid))) q Hz) as (q' & -> & Hc' & Hz').
              eexists. split; [done|]. rewrite Hc', Hcalls. split; [done|].
              intros _. by rewrite Hz'.
           ++ eexists. split; [reflexivity|]. rewrite app_nil_r. split; [done|].
              by intros [? [=]].
        -- rewrite (bool_decide_eq_false_2 _ Hnin). rewrite bind_assoc.
           erewrite bind_Throw; last by apply CreateWithProfileByID_missing.
           eexists. split; [reflexivity|].
           destruct can; cbn [negb]; cbv iota; rewrite app_nil_r;
             (split; [done|]; by intros [? [=]]).
      * erewrite (bind_Ret (ret None)) by reflexivity.
        cbv beta. destruct can; cbn [negb]; cbv iota.
        -- erewrite bind_Ret by exact Hq.
           destruct (PaneRequest_unzoomed tab (CallSplitPane
             (if decide (splitType = SplitAutomatic) then auto else splitType)
             (default pfa None)) q Hz) as (q' & -> & Hc' & Hz').
           eexists. split; [done|]. rewrite Hc', Hcalls. split; [done|].
           intros _. by rewrite Hz'.
        -- eexists. split; [reflexivity|]. rewrite app_nil_r. split; [done|].
           by intros [? [=]].
  - unfold _CloseFocusedPane, fire_and_forget, noexcept.
    erewrite bind_Ret by exact Hf. cbv beta iota.
    erewrite bind_Ret by exact Hq.
    erewrite bind_Ret by reflexivity. rewrite Hro.
    destruct (bool_decide (tab ∈ readOnlyControls (_objects p))); cbn [andb]; cbv iota.
    + destruct (decide (w ≠ Primary)) as [Hw|Hw].
      * rewrite bool_decide_eq_false_2 by done. simpl.
        eexists. split; [reflexivity|]. rewrite app_nil_r. split; [done|].
        by intros [? [=]].
      * apply dec_stable in Hw as ->. rewrite bool_decide_eq_true_2 by done. cbn [negb]; cbv iota.
        erewrite bind_Ret by reflexivity.
        match goal with |- context [PaneRequest _ _ ?q0] =>
          destruct (PaneRequest_unzoomed tab CallClosePane q0) as (q' & -> & Hc' & Hz')
        end; [done|].
        eexists. split; [done|]. rewrite Hc'. simpl. rewrite Hcalls.
        split; [done|]. intros _. by rewrite Hz'.
    + destruct (PaneRequest_unzoomed tab CallClosePane q Hz) as (q' & -> & Hc' & Hz').
      eexists. split; [done|]. rewrite Hc', Hcalls. split; [done|].
      intros _. by rewrite Hz'.
  - unfold _ResizePane. erewrite bind_Ret by exact Hf. cbv beta iota.
    erewrite bind_Ret by exact Hq.
    destruct (PaneRequest_unzoomed tab (CallResizePane d) q Hz) as (q' & -> & Hc' & Hz').
    eexists. split; [done|]. rewrite Hc', Hcalls. split; [done|].
    intros _. by rewrite Hz'.
  - unfold _MoveFocus. erewrite bind_Ret by exact Hf. cbv beta iota.
    erewrite bind_Ret by exact Hq.
    destruct (PaneRequest_unzoomed tab (CallNavigateFocus d) q Hz) as (q' & -> & Hc' & Hz').
    eexists. split; [done|]. rewrite Hc', Hcalls. split; [done|].
    intros _. by rewrite Hz'.
Qed.

Lemma steady_paneCalls_close_settings w :
  steady eq (λ p, paneCalls (_objects p))
    (focused <- _GetFocusedTabIndex;;
     match focused with
     | Some index =>
         tab <- tabs_GetAt index;;
         isTerminal <- _GetTerminalTabImpl tab;;
         match isTerminal with
         | Some _ => ret tt
         | None => _RemoveTab tab w
         end
     | None => ret tt
     end).
Proof. frame. Qed.

Lemma pane_op_unfocused op p :
  _GetFocusedTabImpl p = Ret None p ∨ _GetFocusedTabImpl p = Fault →
  paneCalls (_objects (exec (run_pane_op op) p)) = paneCalls (_objects p).
Proof.
  intros Hf. unfold exec.
  destruct op as [splitType splitMode pfa auto can|w|d|d]; simpl.
  - unfold _SplitPane. destruct (decide (splitType = SplitNone)); [done|].
    unfold bind. by destruct Hf as [->| ->].
  - unfold _CloseFocusedPane, fire_and_forget, noexcept.
    destruct Hf as [Hf|Hf]; [|by rewrite (bind_Fault _ _ _ Hf)].
    erewrite bind_Ret by exact Hf. cbv beta iota.
    pose proof (steady_paneCalls_close_settings w p) as Hs.
    unfold exec in Hs. by destruct (bind _ _ p).
  - unfold _ResizePane, bind. by destruct Hf as [->| ->].
  - unfold _MoveFocus, bind. by destruct Hf as [->| ->].
Qed.

(** C7. Every pane operation of the page (SplitPane, ClosePane,
    ResizePane, MoveFocus) unzooms the focused tab before it touches the
    pane tree: each request that an operation makes of a tab's tree reaches
    the tab when it is not zoomed, and the tab is not zoomed afterwards.  On
    a focused terminal tab the operation returns and makes exactly the
    request [requested] names, or none when it is refused (no split
    requested, no room to split, the profile to duplicate is gone, the close
    of a read-only pane not confirmed). *)
Theorem C7_unzoom_before_pane_request (op : PaneOp) (p : TerminalPage) :
  (∃ calls,
     paneCalls (_objects (exec (run_pane_op op) p)) = paneCalls (_objects p) ++ calls ∧
     Forall (λ c, c.2 = false ∧
                  c.1.1 ∉ zoomedTabs (_objects (exec (run_pane_op op) p))) calls) ∧
  (∀ tab,
     _GetFocusedTabImpl p = Ret (Some tab) p →
     ∃ p', run_pane_op op p = Ret tt p' ∧
       paneCalls (_objects p') =
         paneCalls (_objects p) ++
         match requested op p tab with Some c => [(tab, c, false)] | None => [] end ∧
       (is_Some (requested op p tab) → tab ∉ zoomedTabs (_objects p'))).
Proof.
  split; [|intros tab; apply pane_op_focused].
  destruct (GetFocusedTabImpl_cases p) as [[[tab|] Hf]|Hf].
  - destruct (pane_op_focused op p tab Hf) as (p' & Hrun & Hcalls & Hz).
    rewrite (exec_Ret _ _ _ _ Hrun). eexists. split; [exact Hcalls|].
    destruct (requested op p tab); [|by apply Forall_nil].
    apply Forall_singleton. split; [done|]. apply Hz. eauto.
  - exists []. rewrite app_nil_r. split; [|by apply Forall_nil].
    apply pane_op_unfocused. by left.
  - exists []. rewrite app_nil_r. split; [|by apply Forall_nil].
    apply pane_op_unfocused. by right.
Qed.

Lemma C7_witness :
  ∃ p', run_pane_op (OpMoveFocus DirLeft) zoomedPage = Ret tt p' ∧
    paneCalls (_objects p') =
      paneCalls (_objects zoomedPage) ++
      match requested (OpMoveFocus DirLeft) zoomedPage O with
      | Some c => [(O, c, false)]
      | None => []
      end ∧
    (is_Some (requested (OpMoveFocus DirLeft) zoomedPage O) →
     O ∉ zoomedTabs (_objects p')).
Proof.
  apply (proj2 (C7_unzoom_before_pane_request (OpMoveFocus DirLeft) zoomedPage) O).
  vm_compute. reflexivity.
Defined.

(** ** Methods that always return *)

Section Total.
Lemma total_ret {A} (a : A) : total (ret a).
Proof. intros p. by eexists _, _. Qed.
Lemma total_get {A} (g : TerminalPage → A) : total (get g).
Proof. intros p. by eexists _, _. Qed.
Lemma total_modify g : total (modify g).
Proof. intros p. by eexists _, _. Qed.
Lemma total_bind {A B} (m : M A) (k : A → M B) :
  total m → (∀ a, total (k a)) → total (bind m k).
Proof.
  intros Hm Hk p. destruct (Hm p) as (a & p1 & H1).
  unfold bind. rewrite H1. apply Hk.
Qed.
Lemma total_CATCH_LOG m : nofault m → total (CATCH_LOG m).
Proof.
  intros Hm p. specialize (Hm p). unfold CATCH_LOG.
  destruct (m p) as [[] p1|p1|]; [by eexists _, _..|done].
Qed.
End Total.

Ltac total_step :=
  lazymatch goal with
  | |- total (ret _) => apply total_ret
  | |- total (get _) => apply total_get
  | |- total (modify _) => apply total_modify
  | |- total (bind _ _) => apply total_bind; [|intros ?]
  | |- total (CATCH_LOG _) => apply total_CATCH_LOG; nofault
  | |- total (match ?x with _ => _ end) => destruct x
  | |- total ?m => let h := head_of m in progress unfold h
  end.

Ltac total := repeat total_step.

Lemma total_UpdatedSelectedTab index : total (_UpdatedSelectedTab index).
Proof. total. Qed.

Lemma total_OnTabSelectionChanged : total _OnTabSelectionChanged.
Proof. total. Qed.

Lemma total_TabView_SelectedItem item : total (TabView_SelectedItem item).
Proof. total. Qed.

Lemma total_exec (m : M unit) p : total m → m p = Ret tt (exec m p).
Proof. intros Hm. destruct (Hm p) as ([] & p' & H). unfold exec. by rewrite H. Qed.

(** ** Selecting an item *)

Lemma steady_SelectedItem_TabView_SelectedItem item p :
  SelectedItem (_tabView (exec (TabView_SelectedItem item) p)) = Some item.
Proof.
  unfold exec, TabView_SelectedItem.
  erewrite bind_Ret by reflexivity.
  destruct (decide (SelectedItem (_tabView p) = Some item)); [done|].
  erewrite bind_Ret by reflexivity.
  pose proof (steady_tabView_OnTabSelectionChanged
    (with_tabView (with_SelectedItem (Some item) (_tabView p)) p)) as Hs.
  unfold exec in Hs.
  destruct (total_OnTabSelectionChanged
    (with_tabView (with_SelectedItem (Some item) (_tabView p)) p)) as ([] & p' & Hp').
  rewrite Hp' in *. simpl in *. by rewrite <-Hs.
Qed.

Lemma steady_TabItems_TabView_SelectedItem item :
  steady eq (λ p, TabItems (_tabView p)) (TabView_SelectedItem item).
Proof.
  intros p. unfold exec, TabView_SelectedItem.
  erewrite bind_Ret by reflexivity.
  destruct (decide _); [done|].
  erewrite bind_Ret by reflexivity.
  pose proof (steady_tabView_OnTabSelectionChanged
    (with_tabView (with_SelectedItem (Some item) (_tabView p)) p)) as Hs.
  unfold exec in *. destruct (_OnTabSelectionChanged _); simpl in *; by rewrite <-?Hs.
Qed.

Lemma steady_core_TabView_SelectedItem item : steady eq core (TabView_SelectedItem item).
Proof. frame. Qed.
Lemma steady_palette_TabView_SelectedItem item :
  steady eq _commandPalette (TabView_SelectedItem item).
Proof. frame. Qed.
Lemma steady_mru_TabView_SelectedItem item :
  steady (≡ₚ) _mruTabs (TabView_SelectedItem item).
Proof. frame. Qed.

(** Selecting returns, with the item selected, and leaves the display
    order, the items and the command palette alone. *)
Lemma TabView_SelectedItem_spec item p :
  ∃ p', TabView_SelectedItem item p = Ret tt p' ∧
    SelectedItem (_tabView p') = Some item ∧
    TabItems (_tabView p') = TabItems (_tabView p) ∧
    core p' = core p ∧
    _commandPalette p' = _commandPalette p.
Proof.
  exists (exec (TabView_SelectedItem item) p). split_and!.
  - apply total_exec, total_TabView_SelectedItem.
  - apply steady_SelectedItem_TabView_SelectedItem.
  - symmetry. apply steady_TabItems_TabView_SelectedItem.
  - symmetry. apply steady_core_TabView_SelectedItem.
  - symmetry. apply steady_palette_TabView_SelectedItem.
Qed.

(** ** Selecting a tab by index *)

Lemma core_tabs p p' : core p' = core p → _tabs p' = _tabs p.
Proof. unfold core. by intros [= ? _]. Qed.

Lemma core_dispatcher p p' : core p' = core p → _dispatcher p' = _dispatcher p.
Proof. unfold core. by intros [=]. Qed.

Lemma core_flags p p' :
  core p' = core p →
  _rearranging p' = _rearranging p ∧ _removing p' = _removing p ∧
  _newTabFlyoutIsOpen p' = _newTabFlyoutIsOpen p ∧
  _startupState p' = _startupState p ∧ _settings p' = _settings p ∧
  RaisesTabItemsChanged (_tabView p') = RaisesTabItemsChanged (_tabView p).
Proof. unfold core. by intros [=]. Qed.

Lemma UpdatedSelectedTab_spec index p :
  ∃ p', _UpdatedSelectedTab index p = Ret tt p' ∧
    _tabView p' = _tabView p ∧ core p' = core p ∧
    _commandPalette p' = _commandPalette p.
Proof.
  exists (exec (_UpdatedSelectedTab index) p). split_and!.
  - apply total_exec, total_UpdatedSelectedTab.
  - symmetry. apply steady_tabView_UpdatedSelectedTab.
  - symmetry. apply steady_core_UpdatedSelectedTab.
  - symmetry. apply steady_palette_UpdatedSelectedTab.
Qed.

(** A pass of the dispatcher over one parked [_SetFocusedTabIndex]. *)
Lemma run_dispatcher_one tabIndex tab p :
  _dispatcher p = [Resume_SetFocusedTabIndex tabIndex] →
  GetAt (_tabs p) tabIndex = Some tab →
  ∃ p', run_dispatcher p = Ret tt p' ∧
    SelectedItem (_tabView p') = Some tab ∧
    _tabs p' = _tabs p ∧ _commandPalette p' = _commandPalette p ∧
    _dispatcher p' = [].
Proof.
  intros Hd Hget. unfold run_dispatcher.
  erewrite bind_Ret by reflexivity. rewrite Hd.
  erewrite bind_Ret by reflexivity.
  cbn [resume_all resume]. unfold fire_and_forget, noexcept.
  set (q := with_dispatcher [] p).
  destruct (TabView_SelectedItem_spec tab q) as (p' & Hsel & Hs & Hi & Hc & Hcp).
  unfold bind at 1. unfold bind at 1.
  rewrite tabs_GetAt_eq. cbn [_tabs q with_dispatcher]. rewrite Hget, Hsel.
  cbn [ret]. eexists. split; [reflexivity|]. split_and!; try done.
  - by rewrite (core_tabs _ _ Hc).
  - by rewrite (core_dispatcher _ _ Hc).
Qed.

Lemma run_dispatcher_idle p : _dispatcher p = [] → run_dispatcher p = Ret tt (with_dispatcher [] p).
Proof.
  intros Hd. unfold run_dispatcher.
  erewrite bind_Ret by reflexivity. rewrite Hd. reflexivity.
Qed.

Lemma next_index_arith (bMoveRight : bool) N i :
  1 ≤ N < 2 ^ 31 → 0 ≤ i < 2 ^ 31 →
  to_uint32 (to_uint32 (N + i) + to_uint32 (if bMoveRight then 1 else -1)) `mod` N
  = (i + (if bMoveRight then 1 else -1) + N) `mod` N.
Proof.
  intros ??. rewrite (uint32_id (N + i)) by lia. destruct bMoveRight.
  - rewrite (uint32_id 1) by lia. rewrite uint32_id by lia. f_equal. lia.
  - rewrite uint32_minus_one. unfold to_uint32.
    replace (N + i + (2 ^ 32 - 1)) with (N + i - 1 + 1 * 2 ^ 32) by lia.
    rewrite Z_mod_plus_full. rewrite (Z.mod_small (N + i - 1) (2 ^ 32)) by lia.
    f_equal. lia.
Qed.


(** ** The MRU list under the event handlers *)

Lemma UpdatedSelectedTab_mru index p :
  _mruTabs (exec (_UpdatedSelectedTab index) p) = mruAfterSelected index p.
Proof.
  unfold exec, _UpdatedSelectedTab, mruAfterSelected.
  erewrite bind_Ret by reflexivity.
  destruct (decide (index >= 0)); [|done].
  unfold CATCH_LOG.
  destruct (GetAt (_tabs p) (to_uint32 index)) as [tab|] eqn:Hget; last first.
  { erewrite bind_Throw
      by (rewrite tabs_GetAt_eq; cbn [_tabs with_objects]; by rewrite Hget).
    done. }
  erewrite bind_Ret
    by (rewrite tabs_GetAt_eq; cbn [_tabs with_objects]; by rewrite Hget).
  erewrite bind_Ret by reflexivity.
  erewrite bind_Ret by reflexivity.
  cbn [_commandPalette with_tabContent with_objects].
  destruct (decide (cp_Visibility (_commandPalette p) ≠ Visible)); [|done].
  erewrite bind_Ret by reflexivity.
  rewrite _UpdateMRUTab_eq. cbn [_tabs with_objects with_tabContent].
  by rewrite Hget.
Qed.

Lemma OnTabSelectionChanged_mru p :
  _mruTabs (exec _OnTabSelectionChanged p) =
    if negb (_rearranging p) && negb (_removing p)
    then mruAfterSelected
           (default (-1)
              (match SelectedItem (_tabView p) with
               | Some item => IndexOf (TabItems (_tabView p)) item
               | None => None
               end)) p
    else _mruTabs p.
Proof.
  unfold exec at 1, _OnTabSelectionChanged.
  erewrite bind_Ret by reflexivity. erewrite bind_Ret by reflexivity.
  destruct (negb (_rearranging p) && negb (_removing p)); [|done].
  unfold SelectedIndex. rewrite bind_assoc.
  erewrite bind_Ret by reflexivity. erewrite bind_Ret by reflexivity.
  apply UpdatedSelectedTab_mru.
Qed.

Lemma OnTabSelectionChanged_spec p :
  ∃ p', _OnTabSelectionChanged p = Ret tt p' ∧
    _mruTabs p' = _mruTabs (exec _OnTabSelectionChanged p) ∧
    _tabView p' = _tabView p ∧ core p' = core p ∧
    _commandPalette p' = _commandPalette p ∧
    (_rearrangeFrom p', _rearrangeTo p') = (_rearrangeFrom p, _rearrangeTo p).
Proof.
  exists (exec _OnTabSelectionChanged p). split_and!.
  - apply total_exec, total_OnTabSelectionChanged.
  - done.
  - symmetry. apply steady_tabView_OnTabSelectionChanged.
  - symmetry. apply steady_core_OnTabSelectionChanged.
  - symmetry. apply steady_palette_OnTabSelectionChanged.
  - symmetry. apply steady_rearrange_OnTabSelectionChanged.
Qed.

(** Without a selection the handlers leave the MRU list alone. *)
Lemma OnTabSelectionChanged_unselected p :
  SelectedItem (_tabView p) = None →
  ∃ p', _OnTabSelectionChanged p = Ret tt p' ∧
    _mruTabs p' = _mruTabs p ∧ _tabView p' = _tabView p ∧ core p' = core p ∧
    _commandPalette p' = _commandPalette p.
Proof.
  intros Hn. destruct (OnTabSelectionChanged_spec p) as (p' & Hr & Hm & Hv & Hc & Hcp & _).
  exists p'. split_and!; try done.
  rewrite Hm, OnTabSelectionChanged_mru, Hn.
  by destruct (_ && _).
Qed.

Lemma CommandPaletteClosed_unselected p :
  SelectedItem (_tabView p) = None → _CommandPaletteClosed p = Ret tt p.
Proof.
  intros Hn. unfold _CommandPaletteClosed.
  erewrite bind_Ret by reflexivity.
  destruct (negb (_newTabFlyoutIsOpen p)); [|done].
  unfold _GetFocusedTabIndex. erewrite bind_Ret by reflexivity.
  by rewrite Hn.
Qed.


Lemma TabView_SelectedItem_mru item p :
  SelectedItem (_tabView p) ≠ Some item →
  _mruTabs (exec (TabView_SelectedItem item) p) =
    if negb (_rearranging p) && negb (_removing p)
    then mruAfterSelected (default (-1) (IndexOf (TabItems (_tabView p)) item)) p
    else _mruTabs p.
Proof.
  intros Hne. unfold exec at 1, TabView_SelectedItem.
  erewrite bind_Ret by reflexivity. rewrite decide_False by done.
  erewrite bind_Ret by reflexivity.
  match goal with |- context [_OnTabSelectionChanged ?q] =>
    pose proof (OnTabSelectionChanged_mru q) as Hm;
    destruct (total_OnTabSelectionChanged q) as ([] & p' & Hp')
  end.
  unfold exec in Hm. rewrite Hp' in *. simpl in *. by rewrite Hm.
Qed.

Lemma lookup_insert_at {A} (l : list A) (n : nat) x :
  (n ≤ length l)%nat → (take n l ++ x :: drop n l) !! n = Some x.
Proof.
  intros ?. rewrite lookup_app_r by (rewrite length_take; lia).
  rewrite length_take. by replace (n - n `min` length l)%nat with O by lia.
Qed.


(** ** Inserting a tab *)

Lemma bumpMRU_append_fresh tab mru : tab ∉ mru → bumpMRU tab (mru ++ [tab]) = tab :: mru.
Proof.
  intros Hn. unfold bumpMRU. rewrite index_of_app_fresh by done.
  destruct mru as [|x mru']; [done|].
  cbn [length]. change (x :: mru') with ([x] ++ mru') at 2.
  rewrite <-(length_cons x mru'), delete_middle. by rewrite app_nil_r.
Qed.

Lemma TabItems_Append_quiet item p :
  cp_Visibility (_commandPalette p) = Collapsed → _rearranging p = false →
  TabItems_Append item p =
    Ret tt (with_tabView (with_TabItems (Append (TabItems (_tabView p)) item) (_tabView p)) p).
Proof.
  intros Hcp Hr. unfold TabItems_Append.
  erewrite bind_Ret by reflexivity. erewrite bind_Ret by reflexivity.
  unfold raise_TabItemsChanged. erewrite bind_Ret by reflexivity.
  destruct (RaisesTabItemsChanged _); [|done].
  unfold _OnTabItemsChanged. erewrite bind_Ret by reflexivity.
  cbn [_rearranging with_tabView]. rewrite Hr.
  erewrite bind_Ret by reflexivity.
  unfold CommandPalette_Visibility. erewrite bind_Ret by reflexivity.
  cbn [_commandPalette with_tabView]. by rewrite decide_True.
Qed.

Lemma select_new_tab n q tabs0 mru0 :
  _tabs q = tabs0 ++ [n] → _mruTabs q = mru0 ++ [n] →
  TabItems (_tabView q) = tabs0 ++ [n] →
  n ∉ tabs0 → n ∉ mru0 → SelectedItem (_tabView q) ≠ Some n →
  _rearranging q = false → _removing q = false →
  cp_Visibility (_commandPalette q) = Collapsed →
  Size tabs0 < 2 ^ 31 →
  ∃ p', TabView_SelectedItem n q = Ret tt p' ∧
    _tabs p' = tabs0 ++ [n] ∧ _mruTabs p' = n :: mru0 ∧
    SelectedItem (_tabView p') = Some n.
Proof.
  intros Ht Hm Hi Hnt Hnm Hsel Hr Hrm Hcp Hsize.
  destruct (TabView_SelectedItem_spec n q) as (p' & Hrun & Hs & _ & Hc & _).
  exists p'. split_and!; try done.
  - by rewrite (core_tabs _ _ Hc).
  - rewrite <-(exec_Ret _ _ _ _ Hrun), TabView_SelectedItem_mru by done.
    rewrite Hr, Hrm. cbn [negb andb]. unfold mruAfterSelected, IndexOf.
    rewrite Hi, index_of_app_fresh by done. cbn [fmap option_fmap option_map default from_option id].
    pose proof (Size_nonneg tabs0). unfold Size in *.
    rewrite decide_True by lia. rewrite uint32_id by lia.
    rewrite Ht, GetAt_lookup, lookup_app_r, Nat.sub_diag by done. cbn [lookup list_lookup].
    rewrite Hcp, decide_True by done. rewrite Hm. by apply bumpMRU_append_fresh.
Qed.

Lemma fresh_not_in p :
  page_wf p →
  (nextTab (_objects p) ∉ _tabs p) ∧ (nextTab (_objects p) ∉ _mruTabs p) ∧
  SelectedItem (_tabView p) ≠ Some (nextTab (_objects p)).
Proof.
  intros ((Hnd & Hmnd & [Hs1 Hs2] & Hf) & Hitems & Hsel & Hb).
  assert (nextTab (_objects p) ∉ _tabs p) as Hn.
  { intros Hin. rewrite Forall_forall in Hf. specialize (Hf _ Hin). lia. }
  split_and!; [done|by intros ?%Hs2|].
  intros He. unfold selected_ok in Hsel. by rewrite He in Hsel.
Qed.


Lemma steady_tabs_of_core {A} (m : M A) : steady eq core m → steady eq _tabs m.
Proof. intros H p. specialize (H p). unfold core in H. by simplify_eq. Qed.




(** ** Closing the focused tab *)

Lemma UpdatedSelectedTab_full index p :
  ∃ p', _UpdatedSelectedTab index p = Ret tt p' ∧
    _mruTabs p' = mruAfterSelected index p ∧
    _tabView p' = _tabView p ∧ core p' = core p.
Proof.
  destruct (UpdatedSelectedTab_spec index p) as (p' & Hr & Hv & Hc & _).
  exists p'. split_and!; try done.
  by rewrite <-(exec_Ret _ _ _ _ Hr), UpdatedSelectedTab_mru.
Qed.

(** While a removal is in progress, selecting an item only selects it. *)
Lemma TabView_SelectedItem_removing item p :
  _removing p = true →
  ∃ p', TabView_SelectedItem item p = Ret tt p' ∧
    SelectedItem (_tabView p') = Some item ∧
    _mruTabs p' = _mruTabs p ∧ core p' = core p.
Proof.
  intros Hrm.
  destruct (TabView_SelectedItem_spec item p) as (p' & Hr & Hs & _ & Hc & _).
  exists p'. split_and!; try done.
  rewrite <-(exec_Ret _ _ _ _ Hr).
  destruct (decide (SelectedItem (_tabView p) = Some item)) as [He|Hne].
  { unfold exec, TabView_SelectedItem. erewrite bind_Ret by reflexivity.
    by rewrite decide_True. }
  rewrite TabView_SelectedItem_mru by done. rewrite Hrm.
  by rewrite andb_false_r.
Qed.

Lemma left_index_clamp i count :
  0 ≤ i ≤ count → 1 ≤ count < 2 ^ 31 →
  clamp (to_int32 (to_uint32 (i - 1))) 0 (to_int32 count)
  = clamp (i - 1) 0 (count - 1).
Proof.
  intros ??. rewrite (int32_id count) by lia.
  destruct (decide (i = 0)) as [->|].
  - change (to_int32 (to_uint32 (0 - 1))) with (-1). unfold clamp.
    destruct (Z.ltb_spec (0 - 1) 0); [done|lia].
  - rewrite uint32_id, int32_id by lia. unfold clamp.
    destruct (Z.ltb_spec (i - 1) 0); [done|].
    destruct (Z.ltb_spec count (i - 1)), (Z.ltb_spec (count - 1) (i - 1)); lia.
Qed.







(** * Further properties of the page *)

(** ** Selecting by index *)

Lemma SelectTab_out_of_range tabIndex p :
  ¬ (0 ≤ tabIndex < Size (_tabs p)) → _SelectTab tabIndex p = Ret false p.
Proof.
  intros Hr. unfold _SelectTab. erewrite bind_Ret by reflexivity.
  rewrite decide_False; [done|]. lia.
Qed.

Lemma SelectTab_in_range tabIndex tab p :
  GetAt (_tabs p) tabIndex = Some tab →
  ∃ p1, _SelectTab tabIndex p = Ret true p1 ∧ _tabs p1 = _tabs p ∧
    if decide (_startupState p = InStartup)
    then SelectedItem (_tabView p1) = Some tab ∧ _dispatcher p1 = _dispatcher p
    else p1 = with_dispatcher (_dispatcher p ++ [Resume_SetFocusedTabIndex tabIndex]) p.
Proof.
  intros Hget. pose proof (GetAt_lt _ _ _ Hget) as Hlt.
  unfold _SelectTab. erewrite bind_Ret by reflexivity.
  rewrite decide_True by lia. rewrite ?bind_assoc.
  erewrite bind_Ret by reflexivity.
  destruct (decide (_startupState p = InStartup)) as [Hs|Hs].
  - rewrite ?bind_assoc.
    erewrite bind_Ret by (by rewrite tabs_GetAt_eq, Hget).
    rewrite ?bind_assoc.
    destruct (TabView_SelectedItem_spec tab p) as (p1 & Hsel & Hs1 & Hi1 & Hc1 & Hcp1).
    erewrite bind_Ret by exact Hsel.
    destruct (UpdatedSelectedTab_spec (to_int32 tabIndex) p1) as (p2 & Hupd & Hv2 & Hc2 & Hcp2).
    erewrite bind_Ret by exact Hupd.
    eexists. split; [reflexivity|]. split_and!.
    + by rewrite (core_tabs _ _ Hc2), (core_tabs _ _ Hc1).
    + by rewrite Hv2.
    + by rewrite (core_dispatcher _ _ Hc2), (core_dispatcher _ _ Hc1).
  - erewrite bind_Ret by reflexivity. by eexists.
Qed.

(** X1. [_SelectTab] answers whether the index is one of the display order.
    For an index outside it the page is left as it was.  For an index inside
    it the answer is true and, once the dispatcher has run (at once during
    startup), the tab at that index is the selected one; the display order
    is not changed. *)
Theorem SelectTab_true_iff_in_range (tabIndex : Z) (p : TerminalPage) :
  (¬ (0 ≤ tabIndex < Size (_tabs p)) → _SelectTab tabIndex p = Ret false p) ∧
  (0 ≤ tabIndex < Size (_tabs p) → _dispatcher p = [] →
   ∃ p1 p2 tab,
     _SelectTab tabIndex p = Ret true p1 ∧
     run_dispatcher p1 = Ret tt p2 ∧
     GetAt (_tabs p) tabIndex = Some tab ∧
     SelectedItem (_tabView p2) = Some tab ∧
     _tabs p2 = _tabs p ∧ _dispatcher p2 = []).
Proof.
  split; [apply SelectTab_out_of_range|].
  intros Hr Hd. destruct (GetAt_is_Some (_tabs p) tabIndex Hr) as [tab Hget].
  destruct (SelectTab_in_range tabIndex tab p Hget) as (p1 & Hr1 & Ht1 & Hcase).
  destruct (decide (_startupState p = InStartup)) as [Hs|Hs].
  - destruct Hcase as [Hsel Hd1]. rewrite Hd in Hd1.
    exists p1, (with_dispatcher [] p1), tab. split_and!; try done.
    by apply run_dispatcher_idle.
  - destruct (run_dispatcher_one tabIndex tab p1) as (p2 & Hr2 & Hs2 & Ht2 & _ & Hd2).
    { subst p1. cbn. by rewrite Hd. }
    { by rewrite Ht1. }
    exists p1, p2, tab. split_and!; try done. by rewrite Ht2.
Qed.

Lemma SelectTab_true_iff_in_range_witness :
  ∃ p1 p2 tab,
    _SelectTab 2 (fourTabs id) = Ret true p1 ∧
    run_dispatcher p1 = Ret tt p2 ∧
    GetAt (_tabs (fourTabs id)) 2 = Some tab ∧
    SelectedItem (_tabView p2) = Some tab ∧
    _tabs p2 = _tabs (fourTabs id) ∧ _dispatcher p2 = [].
Proof.
  destruct (SelectTab_true_iff_in_range 2 (fourTabs id)) as [_ H].
  apply H.
  - apply (bool_decide_unpack _). vm_compute. exact I.
  - vm_compute. reflexivity.
Defined.

(** ** The selected tab *)

(** X2. [_UpdatedSelectedTab] returns for every [int32_t] index, whatever
    the page: an index that is no tab is swallowed by the handler's
    [CATCH_LOG].  It never changes the display order or the [TabView].  For
    an index of no tab every tab is left unfocused and the MRU list and the
    content are kept.  For the index of a tab the content is that tab's; with
    the command palette showing the tab is not focused and the MRU list is
    kept; otherwise the tab is the only focused tab and is bumped in the MRU
    list. *)
Theorem UpdatedSelectedTab_focuses_at_most_one (index : Z) (p : TerminalPage) :
  - 2 ^ 31 ≤ index < 2 ^ 31 →
  ∃ p', _UpdatedSelectedTab index p = Ret tt p' ∧
    _tabs p' = _tabs p ∧ _tabView p' = _tabView p ∧
    match GetAt (_tabs p) index with
    | None =>
        _mruTabs p' = _mruTabs p ∧ _tabContent p' = _tabContent p ∧
        ∀ t, t ∈ _tabs p → t ∉ focusedTabs (_objects p')
    | Some tab =>
        _tabContent p' = Some tab ∧
        if decide (cp_Visibility (_commandPalette p) = Visible)
        then _mruTabs p' = _mruTabs p ∧
             ∀ t, t ∈ _tabs p → t ∉ focusedTabs (_objects p')
        else _mruTabs p' = bumpMRU tab (_mruTabs p) ∧
             ∀ t, t ∈ _tabs p → t ∈ focusedTabs (_objects p') ↔ t = tab
    end.
Proof.
  intros Hrange. unfold _UpdatedSelectedTab.
  erewrite bind_Ret by reflexivity.
  destruct (decide (index >= 0)) as [Hpos|Hneg]; last first.
  { eexists. split; [reflexivity|]. cbn.
    unfold GetAt. rewrite decide_False by lia.
    split_and!; try done. intros t Ht. rewrite elem_of_difference, elem_of_list_to_set.
    tauto. }
  rewrite uint32_id by lia. unfold CATCH_LOG.
  set (q := with_objects _ p).
  destruct (GetAt (_tabs p) index) as [tab|] eqn:Hget.
  - pose proof Hget as [_ Hl]%GetAt_Some.
    assert (tab ∈ _tabs p) as Hin by (by eapply list_elem_of_lookup_2).
    erewrite bind_Ret by (by rewrite tabs_GetAt_eq; cbn [q _tabs with_objects]; rewrite Hget).
    erewrite bind_Ret by reflexivity. erewrite bind_Ret by reflexivity.
    cbn [q _commandPalette with_tabContent with_objects].
    destruct (decide (cp_Visibility (_commandPalette p) = Visible)) as [Hv|Hv].
    + rewrite decide_False by (intros H; by apply H).
      eexists. split; [reflexivity|]. cbn. split_and!; try done.
      intros t Ht. rewrite elem_of_difference, elem_of_list_to_set. tauto.
    + rewrite decide_True by done.
      erewrite bind_Ret by reflexivity. rewrite _UpdateMRUTab_eq.
      subst q. cbn. rewrite Hget.
      eexists. split; [reflexivity|]. cbn. split_and!; try done.
      intros t Ht. rewrite elem_of_union, elem_of_singleton,
        elem_of_difference, elem_of_list_to_set. split; [tauto|]. intros ->. by left.
  - erewrite bind_Throw by (by rewrite tabs_GetAt_eq; cbn [q _tabs with_objects]; rewrite Hget).
    eexists. split; [reflexivity|]. cbn. split_and!; try done.
    intros t Ht. rewrite elem_of_difference, elem_of_list_to_set. tauto.
Qed.

Lemma UpdatedSelectedTab_focuses_at_most_one_witness :
  ∃ p', _UpdatedSelectedTab 7 mruPage = Ret tt p' ∧
    _tabs p' = _tabs mruPage ∧ _tabView p' = _tabView mruPage ∧
    match GetAt (_tabs mruPage) 7 with
    | None =>
        _mruTabs p' = _mruTabs mruPage ∧ _tabContent p' = _tabContent mruPage ∧
        ∀ t, t ∈ _tabs mruPage → t ∉ focusedTabs (_objects p')
    | Some tab =>
        _tabContent p' = Some tab ∧
        if decide (cp_Visibility (_commandPalette mruPage) = Visible)
        then _mruTabs p' = _mruTabs mruPage ∧
             ∀ t, t ∈ _tabs mruPage → t ∉ focusedTabs (_objects p')
        else _mruTabs p' = bumpMRU tab (_mruTabs mruPage) ∧
             ∀ t, t ∈ _tabs mruPage → t ∈ focusedTabs (_objects p') ↔ t = tab
    end.
Proof.
  apply (UpdatedSelectedTab_focuses_at_most_one 7 mruPage).
  apply (bool_decide_unpack _). vm_compute. exact I.
Defined.

(** ** Opening tabs *)

Lemma core_statics p p' :
  core p' = core p →
  _settingsTab p' = _settingsTab p ∧ _lastTabClosed p' = _lastTabClosed p ∧
  nextTab (_objects p') = nextTab (_objects p) ∧
  terminalTabs (_objects p') = terminalTabs (_objects p) ∧
  zoomedTabs (_objects p') = zoomedTabs (_objects p) ∧
  readOnlyTabs (_objects p') = readOnlyTabs (_objects p) ∧
  readOnlyControls (_objects p') = readOnlyControls (_objects p) ∧
  focusedProfiles (_objects p') = focusedProfiles (_objects p) ∧
  shutdownTabs (_objects p') = shutdownTabs (_objects p) ∧
  paneCalls (_objects p') = paneCalls (_objects p).
Proof. unfold core. intros H. by simplify_eq. Qed.

(** What [page_idle] depends on. *)
Lemma page_idle_intro p :
  NoDup (_tabs p) → _mruTabs p ≡ₚ _tabs p →
  Forall (λ t, (t < nextTab (_objects p))%nat) (_tabs p) →
  TabItems (_tabView p) = _tabs p → selected_ok p → Size (_tabs p) < 2 ^ 31 →
  _rearranging p = false → _removing p = false →
  cp_Visibility (_commandPalette p) = Collapsed → _dispatcher p = [] →
  page_idle p.
Proof.
  intros. unfold page_idle, page_wf. rewrite collection_ok_alt. by split_and!.
Qed.

(** The last step of an insertion: the new tab's item is selected. *)
Lemma select_appended n q tabs0 mru0 :
  _tabs q = tabs0 ++ [n] → _mruTabs q = mru0 ++ [n] →
  TabItems (_tabView q) = tabs0 ++ [n] →
  n ∉ tabs0 → n ∉ mru0 → SelectedItem (_tabView q) ≠ Some n →
  _rearranging q = false → _removing q = false →
  cp_Visibility (_commandPalette q) = Collapsed →
  Size tabs0 < 2 ^ 31 →
  ∃ p', TabView_SelectedItem n q = Ret tt p' ∧
    core p' = core q ∧ _mruTabs p' = n :: mru0 ∧
    TabItems (_tabView p') = tabs0 ++ [n] ∧
    SelectedItem (_tabView p') = Some n ∧
    _commandPalette p' = _commandPalette q.
Proof.
  intros Ht Hm Hi ?????? Hb.
  destruct (TabView_SelectedItem_spec n q) as (p' & Hr & Hs & Hi' & Hc & Hcp).
  destruct (select_new_tab n q tabs0 mru0) as (p'' & Hr' & _ & Hm' & _); try done.
  rewrite Hr in Hr'. injection Hr' as <-.
  exists p'. split_and!; try done. by rewrite Hi'.
Qed.

Lemma CreateNewTab_spec guid p :
  page_wf p → _rearranging p = false → _removing p = false →
  cp_Visibility (_commandPalette p) = Collapsed →
  let n := nextTab (_objects p) in
  ∃ p', _CreateNewTabFromSettings guid false p = Ret tt p' ∧
    core p' = core (with_tabs (_tabs p ++ [n])
                      (with_objects (new_TerminalTab guid (_objects p)) p)) ∧
    _mruTabs p' = n :: _mruTabs p ∧
    TabItems (_tabView p') = _tabs p ++ [n] ∧
    SelectedItem (_tabView p') = Some n ∧
    _commandPalette p' = _commandPalette p.
Proof.
  intros Hwf Hr Hrm Hcp n.
  destruct (fresh_not_in p Hwf) as (Hnt & Hnm & Hsel).
  destruct Hwf as (Hok & Hitems & _ & Hb).
  unfold _CreateNewTabFromSettings.
  erewrite bind_Ret by reflexivity. erewrite bind_Ret by reflexivity.
  erewrite bind_Ret by reflexivity.
  erewrite bind_Ret by (by apply TabItems_Append_quiet).
  erewrite bind_Ret by reflexivity.
  match goal with |- context [TabView_SelectedItem _ ?q0] => set (q := q0) end.
  destruct (select_appended n q (_tabs p) (_mruTabs p))
    as (p' & Hr' & Hc & Hm & Hi & Hs & Hp); try done.
  { subst q. cbn. by rewrite Hitems. }
  exists p'. by split_and!.
Qed.

Lemma OpenSettingsUI_first p :
  page_wf p → _rearranging p = false → _removing p = false →
  cp_Visibility (_commandPalette p) = Collapsed → _settingsTab p = None →
  let n := nextTab (_objects p) in
  ∃ p', _OpenSettingsUI p = Ret tt p' ∧
    core p' = core (with_settingsTab (Some n) (with_tabs (_tabs p ++ [n])
                      (with_objects (new_SettingsTab (_objects p)) p))) ∧
    _mruTabs p' = n :: _mruTabs p ∧
    TabItems (_tabView p') = _tabs p ++ [n] ∧
    SelectedItem (_tabView p') = Some n ∧
    _commandPalette p' = _commandPalette p.
Proof.
  intros Hwf Hr Hrm Hcp Hst n.
  destruct (fresh_not_in p Hwf) as (Hnt & Hnm & Hsel).
  destruct Hwf as (Hok & Hitems & _ & Hb).
  unfold _OpenSettingsUI.
  erewrite bind_Ret by reflexivity. rewrite Hst.
  erewrite bind_Ret by reflexivity. erewrite bind_Ret by reflexivity.
  erewrite bind_Ret by reflexivity.
  erewrite bind_Ret by (by apply TabItems_Append_quiet).
  erewrite bind_Ret by reflexivity.
  match goal with |- context [TabView_SelectedItem _ ?q0] => set (q := q0) end.
  destruct (select_appended n q (_tabs p) (_mruTabs p))
    as (p' & Hr' & Hc & Hm & Hi & Hs & Hp); try done.
  { subst q. cbn. by rewrite Hitems. }
  exists p'. by split_and!.
Qed.

(** An insertion leaves an idle page idle. *)
Lemma page_idle_appended p p' n :
  page_idle p → Size (_tabs p) + 1 < 2 ^ 31 →
  n = nextTab (_objects p) →
  _tabs p' = _tabs p ++ [n] → nextTab (_objects p') = S n →
  _mruTabs p' = n :: _mruTabs p →
  TabItems (_tabView p') = _tabs p ++ [n] →
  SelectedItem (_tabView p') = Some n →
  _rearranging p' = _rearranging p → _removing p' = _removing p →
  _commandPalette p' = _commandPalette p → _dispatcher p' = _dispatcher p →
  page_idle p'.
Proof.
  intros (Hwf & Hr & Hrm & Hcp & Hd) Hb -> Ht Hn Hm Hi Hs Hr' Hrm' Hcp' Hd'.
  destruct (fresh_not_in p Hwf) as (Hnt & Hnm & _).
  destruct Hwf as ((Hnd & Hperm & Hf)%collection_ok_alt & Hitems & Hsel & _).
  apply page_idle_intro; rewrite ?Ht, ?Hm, ?Hn; try congruence.
  - apply NoDup_app. split_and!; [done| |apply NoDup_singleton].
    intros x Hx ->%list_elem_of_singleton. done.
  - rewrite Hperm. by rewrite <-Permutation_cons_append.
  - apply Forall_app. split.
    + eapply Forall_impl; [exact Hf|]. simpl. lia.
    + apply Forall_singleton. lia.
  - unfold selected_ok. rewrite Hs, Ht. apply elem_of_app. right. by left.
  - rewrite Size_app. unfold Size at 2. simpl. lia.
Qed.

(** X3. Opening a tab on an idle page returns and leaves the page idle:
    the [TabView] still holds one item per tab in display order, the lists
    hold the same tabs once each, and the selected item is a tab.  The new
    tab is a terminal tab made for the requested profile, last in the display
    order. *)
Theorem OpenNewTab_keeps_page_idle (profileGuid : GUID) (p : TerminalPage) :
  page_idle p → Size (_tabs p) + 1 < 2 ^ 31 →
  ∃ p', _OpenNewTab profileGuid p = Ret tt p' ∧ page_idle p' ∧
    let newTab := nextTab (_objects p) in
    _tabs p' = _tabs p ++ [newTab] ∧
    (newTab ∉ _tabs p) ∧
    newTab ∈ terminalTabs (_objects p') ∧
    focusedProfiles (_objects p') !! newTab = Some profileGuid.
Proof.
  intros Hidle Hb. pose proof Hidle as (Hwf & Hr & Hrm & Hcp & Hd).
  destruct (CreateNewTab_spec profileGuid p Hwf Hr Hrm Hcp)
    as (p' & Hret & Hc & Hm & Hi & Hs & Hp).
  destruct (core_flags _ _ Hc) as (Hr' & Hrm' & _).
  destruct (core_statics _ _ Hc) as (_ & _ & Hn & Hterm & _ & _ & _ & Hprof & _).
  pose proof (core_tabs _ _ Hc) as Ht. pose proof (core_dispatcher _ _ Hc) as Hd'.
  destruct (fresh_not_in p Hwf) as (Hnt & _).
  exists p'. unfold _OpenNewTab, CATCH_LOG. rewrite Hret. split; [done|].
  split; [|split_and!; try done].
  - by eapply (page_idle_appended p p' (nextTab (_objects p))).
  - rewrite Hterm. cbn. apply elem_of_union. left. by apply elem_of_singleton.
  - rewrite Hprof. cbn. by rewrite lookup_insert_eq.
Qed.

Lemma OpenNewTab_keeps_page_idle_witness :
  ∃ p', _OpenNewTab 2%nat (fourTabs id) = Ret tt p' ∧ page_idle p' ∧
    let newTab := nextTab (_objects (fourTabs id)) in
    _tabs p' = _tabs (fourTabs id) ++ [newTab] ∧
    (newTab ∉ _tabs (fourTabs id)) ∧
    newTab ∈ terminalTabs (_objects p') ∧
    focusedProfiles (_objects p') !! newTab = Some 2%nat.
Proof.
  apply (OpenNewTab_keeps_page_idle 2%nat (fourTabs id)).
  - apply (bool_decide_unpack _). vm_compute. exact I.
  - vm_compute. reflexivity.
Defined.

(** X4. The settings tab is opened once.  On an idle page without a
    settings tab [_OpenSettingsUI] appends one, selects it and leaves the page
    idle; called again it changes nothing at all.  Whenever a settings tab is
    open the call creates no tab: the display order is kept and the settings
    tab is the selected one. *)
Theorem OpenSettingsUI_opens_once (p : TerminalPage) :
  (page_idle p → Size (_tabs p) + 1 < 2 ^ 31 → _settingsTab p = None →
   ∃ p1, _OpenSettingsUI p = Ret tt p1 ∧ page_idle p1 ∧
     _tabs p1 = _tabs p ++ [nextTab (_objects p)] ∧
     _settingsTab p1 = Some (nextTab (_objects p)) ∧
     SelectedItem (_tabView p1) = Some (nextTab (_objects p)) ∧
     _OpenSettingsUI p1 = Ret tt p1) ∧
  (∀ tab, _settingsTab p = Some tab →
   ∃ p1, _OpenSettingsUI p = Ret tt p1 ∧
     _tabs p1 = _tabs p ∧ _settingsTab p1 = Some tab ∧
     nextTab (_objects p1) = nextTab (_objects p) ∧
     SelectedItem (_tabView p1) = Some tab).
Proof.
  split.
  - intros Hidle Hb Hst. pose proof Hidle as (Hwf & Hr & Hrm & Hcp & Hd).
    destruct (OpenSettingsUI_first p Hwf Hr Hrm Hcp Hst)
      as (p' & Hret & Hc & Hm & Hi & Hs & Hp).
    destruct (core_flags _ _ Hc) as (Hr' & Hrm' & _).
    destruct (core_statics _ _ Hc) as (Hst' & _ & Hn & _).
    pose proof (core_tabs _ _ Hc) as Ht. pose proof (core_dispatcher _ _ Hc) as Hd'.
    exists p'. split_and!; try done.
    + by eapply (page_idle_appended p p' (nextTab (_objects p))).
    + unfold _OpenSettingsUI. erewrite bind_Ret by reflexivity.
      rewrite Hst'. cbn [_settingsTab with_settingsTab].
      unfold TabView_SelectedItem. erewrite bind_Ret by reflexivity.
      by rewrite decide_True.
  - intros tab Hst. unfold _OpenSettingsUI. erewrite bind_Ret by reflexivity.
    rewrite Hst.
    destruct (TabView_SelectedItem_spec tab p) as (p' & Hr & Hs & Hi & Hc & Hcp).
    destruct (core_statics _ _ Hc) as (Hst' & _ & Hn & _).
    exists p'. split_and!; try done.
    + by apply core_tabs.
    + by rewrite Hst'.
Qed.

Lemma OpenSettingsUI_opens_once_witness :
  (∃ p1, _OpenSettingsUI (fourTabs id) = Ret tt p1 ∧ page_idle p1 ∧
     _tabs p1 = _tabs (fourTabs id) ++ [nextTab (_objects (fourTabs id))] ∧
     _settingsTab p1 = Some (nextTab (_objects (fourTabs id))) ∧
     SelectedItem (_tabView p1) = Some (nextTab (_objects (fourTabs id))) ∧
     _OpenSettingsUI p1 = Ret tt p1).
Proof.
  destruct (OpenSettingsUI_opens_once (fourTabs id)) as [H _].
  apply H.
  - apply (bool_decide_unpack _). vm_compute. exact I.
  - vm_compute. reflexivity.
  - vm_compute. reflexivity.
Defined.

(** ** Closing tabs *)

Lemma raise_TabItemsChanged_quiet change index p :
  cp_Visibility (_commandPalette p) = Collapsed → _rearranging p = false →
  raise_TabItemsChanged change index p = Ret tt p.
Proof.
  intros Hcp Hr. unfold raise_TabItemsChanged. erewrite bind_Ret by reflexivity.
  destruct (RaisesTabItemsChanged _); [|done].
  unfold _OnTabItemsChanged. erewrite bind_Ret by reflexivity. rewrite Hr.
  erewrite bind_Ret by reflexivity.
  unfold CommandPalette_Visibility. erewrite bind_Ret by reflexivity.
  by rewrite decide_True.
Qed.

Lemma TabItems_RemoveAt_quiet index item p :
  GetAt (TabItems (_tabView p)) index = Some item →
  cp_Visibility (_commandPalette p) = Collapsed → _rearranging p = false →
  ∃ p', TabItems_RemoveAt index p = Ret tt p' ∧
    core p' = core p ∧ _mruTabs p' = _mruTabs p ∧
    _commandPalette p' = _commandPalette p ∧
    TabItems (_tabView p') = delete (Z.to_nat index) (TabItems (_tabView p)) ∧
    SelectedItem (_tabView p') =
      if decide (SelectedItem (_tabView p) = Some item) then None
      else SelectedItem (_tabView p).
Proof.
  intros Hget Hcp Hr. pose proof (GetAt_lt _ _ _ Hget) as Hlt.
  unfold TabItems_RemoveAt.
  erewrite bind_Ret by reflexivity. rewrite Hget.
  erewrite bind_Ret by reflexivity.
  unfold RemoveAt. rewrite decide_True by done.
  erewrite bind_Ret by reflexivity. erewrite bind_Ret by reflexivity.
  erewrite bind_Ret by reflexivity.
  cbn [_tabView with_tabView SelectedItem with_TabItems].
  destruct (decide (SelectedItem (_tabView p) = Some item)) as [Hs|Hs].
  - rewrite bind_assoc. erewrite bind_Ret by reflexivity.
    match goal with |- context [bind _OnTabSelectionChanged _ ?q] =>
      destruct (OnTabSelectionChanged_unselected q) as (q1 & Hr1 & Hm1 & Hv1 & Hc1 & Hp1)
    end; [done|].
    erewrite bind_Ret by exact Hr1.
    destruct (core_flags _ _ Hc1) as (Hr' & _).
    rewrite raise_TabItemsChanged_quiet by (by rewrite ?Hp1, ?Hr').
    exists q1. split; [done|]. rewrite Hc1, Hm1, Hp1, Hv1. done.
  - erewrite bind_Ret by reflexivity.
    rewrite raise_TabItemsChanged_quiet by done.
    by eexists.
Qed.

Lemma TabItems_InsertAt_quiet index item p :
  0 ≤ index ≤ Size (TabItems (_tabView p)) →
  cp_Visibility (_commandPalette p) = Collapsed → _rearranging p = false →
  TabItems_InsertAt index item p =
    Ret tt (with_tabView
      (with_TabItems (take (Z.to_nat index) (TabItems (_tabView p)) ++
                      item :: drop (Z.to_nat index) (TabItems (_tabView p)))
         (_tabView p)) p).
Proof.
  intros Hi Hcp Hr. unfold TabItems_InsertAt.
  erewrite bind_Ret by reflexivity.
  unfold InsertAt. rewrite decide_True by done.
  erewrite bind_Ret by reflexivity. erewrite bind_Ret by reflexivity.
  by rewrite raise_TabItemsChanged_quiet.
Qed.

(** Selecting an item while a removal is in progress. *)
Lemma TabView_SelectedItem_suppressed item p :
  _removing p = true →
  ∃ p', TabView_SelectedItem item p = Ret tt p' ∧
    SelectedItem (_tabView p') = Some item ∧
    TabItems (_tabView p') = TabItems (_tabView p) ∧
    _mruTabs p' = _mruTabs p ∧ core p' = core p ∧
    _commandPalette p' = _commandPalette p.
Proof.
  intros Hrm.
  destruct (TabView_SelectedItem_spec item p) as (p' & Hr & Hs & Hi & Hc & Hp).
  destruct (TabView_SelectedItem_removing item p Hrm) as (p'' & Hr' & _ & Hm & _).
  rewrite Hr in Hr'. injection Hr' as <-. exists p'. by split_and!.
Qed.

Lemma GetAt_nil {A} (i : Z) : GetAt (@nil A) i = None.
Proof. unfold GetAt. by case_decide. Qed.

Lemma replacementTab_is_tab mode i tabs mru :
  mru ≡ₚ tabs → 0 ≤ i ≤ Size tabs → 1 ≤ Size tabs →
  ∃ t, replacementTab mode i tabs mru = Some t ∧ t ∈ tabs.
Proof.
  intros Hp Hi Hs. unfold replacementTab. destruct (decide _).
  - destruct mru as [|t mru].
    { apply Permutation_nil_l in Hp. subst. unfold Size in Hs. simpl in Hs. lia. }
    exists t. split; [done|]. rewrite <-Hp. left.
  - pose proof (clamp_range (i - 1) 0 (Size tabs - 1)) as Hc.
    destruct (GetAt_is_Some tabs (clamp (i - 1) 0 (Size tabs - 1))) as [t Ht]; [lia|].
    exists t. split; [done|]. apply GetAt_Some in Ht as [_ Ht].
    by eapply list_elem_of_lookup_2.
Qed.

Lemma page_idle_removed p p' i j tab :
  page_idle p → _tabs p !! i = Some tab → _mruTabs p !! j = Some tab →
  _tabs p' = delete i (_tabs p) → _mruTabs p' ≡ₚ delete j (_mruTabs p) →
  nextTab (_objects p') = nextTab (_objects p) →
  TabItems (_tabView p') = delete i (_tabs p) →
  selected_ok p' →
  _rearranging p' = false → _removing p' = false →
  _commandPalette p' = _commandPalette p → _dispatcher p' = [] →
  page_idle p'.
Proof.
  intros (Hwf & Hr & Hrm & Hcp & Hd) Hi Hj Ht Hm Hn Hit Hsel Hr' Hrm' Hcp' Hd'.
  destruct Hwf as ((Hnd & Hperm & Hf)%collection_ok_alt & Hitems & _ & Hb).
  apply page_idle_intro; rewrite ?Ht, ?Hn; try congruence.
  - eapply sublist_NoDup; [done|apply sublist_delete].
  - rewrite Hm. by eapply delete_both_perm.
  - by apply Forall_delete.
  - pose proof (lookup_lt_Some _ _ _ Hi).
    rewrite (Size_delete (_tabs p) i) by done. lia.
Qed.

(** What [_RemoveTab] does to an idle page. *)
Lemma RemoveTab_spec tab w i p :
  page_idle p → GetAt (_tabs p) i = Some tab →
  tab ∉ readOnlyTabs (_objects p) ∨ w = Primary →
  let tabs' := delete (Z.to_nat i) (_tabs p) in
  ∃ j p',
    _RemoveTab tab w p = Ret tt p' ∧ page_idle p' ∧
    _tabs p' = tabs' ∧
    _mruTabs p !! j = Some tab ∧
    let mru' := delete j (_mruTabs p) in
    let focused := bool_decide (SelectedItem (_tabView p) = Some tab) in
    let newTab := replacementTab (GlobalTabSwitcherMode (_settings p)) i tabs' mru' in
    SelectedItem (_tabView p') =
      (if focused then newTab else SelectedItem (_tabView p)) ∧
    _mruTabs p' =
      (if focused then from_option (λ t, bumpMRU t mru') mru' newTab else mru') ∧
    _lastTabClosed p' =
      (if decide (Size (_tabs p) = 1) then true else _lastTabClosed p) ∧
    _settings p' = _settings p ∧ _settingsTab p' = _settingsTab p ∧
    nextTab (_objects p') = nextTab (_objects p) ∧
    readOnlyTabs (_objects p') = readOnlyTabs (_objects p) ∧
    terminalTabs (_objects p') = terminalTabs (_objects p) ∧
    shutdownTabs (_objects p') = {[tab]} ∪ shutdownTabs (_objects p).
Proof.
  intros Hidle Hget Hro tabs'.
  pose proof Hidle as ((Hok & Hitems & Hselok & Hb) & Hrearr & Hrem & Hcp & Hd).
  pose proof (GetAt_lt _ _ _ Hget) as Hrange.
  pose proof Hok as (Hnd & Hperm & Hf)%collection_ok_alt.
  pose proof (IndexOf_NoDup _ _ _ Hnd Hget) as Hi.
  pose proof Hget as [_ Hl]%GetAt_Some.
  assert (tab ∈ _mruTabs p) as [j Hj]%index_of_elem.
  { rewrite Hperm. by eapply list_elem_of_lookup_2. }
  pose proof (index_of_lt _ _ _ Hj) as Hjlt.
  pose proof (index_of_lookup _ _ _ Hj) as Hjl.
  set (mru' := delete j (_mruTabs p)).
  assert (mru' ≡ₚ tabs') as Hperm' by (by eapply delete_both_perm).
  assert (Size tabs' = Size (_tabs p) - 1) as Hsize'.
  { apply Size_delete. unfold Size in Hrange. lia. }
  set (foc := match SelectedItem (_tabView p) with
              | Some item => IndexOf (TabItems (_tabView p)) item
              | None => None
              end).
  assert (foc = Some i ↔ SelectedItem (_tabView p) = Some tab) as Hfoc.
  { subst foc. rewrite Hitems. destruct (SelectedItem (_tabView p)) as [s|]; [|done].
    split.
    - intros [Hs _]%IndexOf_Some. congruence.
    - by intros [= ->]. }
  unfold _RemoveTab. erewrite bind_Ret by reflexivity.
  assert (bool_decide (tab ∈ readOnlyTabs (_objects p))
          && negb (bool_decide (w = Primary)) = false) as ->.
  { destruct Hro as [Hn| ->].
    - by rewrite bool_decide_eq_false_2.
    - rewrite (bool_decide_eq_true_2 (Primary = Primary)) by done.
      by rewrite andb_false_r. }
  erewrite bind_Ret by reflexivity. cbn [_tabs]. rewrite Hi.
  erewrite bind_Ret by reflexivity. unfold scope_exit.
  erewrite bind_Ret by reflexivity.
  cbn [_tabView with_removing]. fold foc.
  erewrite bind_Ret by reflexivity. erewrite bind_Ret by reflexivity.
  cbn [_mruTabs with_objects with_removing]. unfold IndexOf at 1. rewrite Hj.
  cbn [fmap option_fmap option_map].
  erewrite bind_Ret; last first.
  { apply mruTabs_RemoveAt_Ret. cbn [_mruTabs with_objects with_removing].
    unfold Size. lia. }
  erewrite bind_Ret; last first.
  { apply tabs_RemoveAt_Ret. cbn [_tabs with_mruTabs with_objects with_removing]. lia. }
  cbn [_tabs _mruTabs with_mruTabs with_objects with_removing].
  rewrite Nat2Z.id. fold tabs' mru'.
  match goal with |- context [bind (TabItems_RemoveAt _) _ ?q] => set (q0 := q) end.
  destruct (TabItems_RemoveAt_quiet i tab q0) as (q1 & Hr1 & Hc1 & Hm1 & Hp1 & Hi1 & Hs1).
  { subst q0. cbn. by rewrite Hitems. }
  { done. }
  { done. }
  erewrite bind_Ret by exact Hr1.
  assert (_tabs q1 = tabs') as Ht1 by (by rewrite (core_tabs _ _ Hc1)).
  assert (_mruTabs q1 = mru') as Hmq1 by (by rewrite Hm1).
  assert (TabItems (_tabView q1) = tabs') as Hiq1.
  { rewrite Hi1. subst q0. cbn. by rewrite Hitems. }
  assert (SelectedItem (_tabView q1) =
          if decide (SelectedItem (_tabView p) = Some tab) then None
          else SelectedItem (_tabView p)) as Hsq1 by done.
  assert (_rearranging q1 = false ∧ _removing q1 = true ∧
          _commandPalette q1 = _commandPalette p ∧ _dispatcher q1 = [] ∧
          _settings q1 = _settings p ∧ _settingsTab q1 = _settingsTab p ∧
          _lastTabClosed q1 = _lastTabClosed p ∧
          nextTab (_objects q1) = nextTab (_objects p) ∧
          readOnlyTabs (_objects q1) = readOnlyTabs (_objects p) ∧
          terminalTabs (_objects q1) = terminalTabs (_objects p) ∧
          shutdownTabs (_objects q1) = {[tab]} ∪ shutdownTabs (_objects p))
    as (Hre1 & Hrm1 & Hcp1 & Hd1 & Hset1 & Hst1 & Hlc1 & Hn1 & Hro1 & Hterm1 & Hsh1).
  { destruct (core_flags _ _ Hc1) as (-> & -> & _ & _ & -> & _).
    destruct (core_statics _ _ Hc1) as (-> & -> & -> & -> & _ & -> & _ & _ & -> & _).
    rewrite (core_dispatcher _ _ Hc1), Hp1. subst q0. cbn. by rewrite Hrearr, Hd. }
  assert (selected_ok q1) as Hselok1.
  { unfold selected_ok. rewrite Hsq1, Ht1.
    destruct (decide _) as [|Hne]; [done|].
    destruct (SelectedItem (_tabView p)) as [s|] eqn:Hs; [|done].
    unfold selected_ok in Hselok. rewrite Hs in Hselok.
    apply list_elem_of_lookup_1 in Hselok as [k Hk].
    apply list_elem_of_lookup.
    destruct (decide (k = Z.to_nat i)) as [->|Hki]; [congruence|].
    destruct (decide (k < Z.to_nat i)%nat).
    - exists k. subst tabs'. by rewrite list_lookup_delete_lt.
    - exists (pred k). subst tabs'. rewrite list_lookup_delete_ge by lia.
      by replace (S (pred k)) with k by lia. }
  erewrite bind_Ret by reflexivity. unfold tabs_Size, get at 1. cbv beta.
  rewrite Ht1.
  exists j.
  destruct (decide (Size tabs' = 0)) as [Hz|Hnz].
  - (* the last tab *)
    erewrite bind_Ret by reflexivity. erewrite bind_Ret by reflexivity.
    cbn [_rearranging with_lastTabClosed]. rewrite Hre1.
    assert (tabs' = []) as Hnil.
    { destruct tabs'; [done|]. unfold Size in Hz. simpl in Hz. lia. }
    assert (mru' = []) as Hmnil by (apply Permutation_nil_r; by rewrite <-Hnil).
    eexists. split; [reflexivity|].
    cbn [_tabs _mruTabs _tabView _lastTabClosed _settings _settingsTab _objects
         with_removing with_lastTabClosed]. cbv zeta. fold tabs' mru'.
    assert (replacementTab (GlobalTabSwitcherMode (_settings p)) i tabs' mru' = None) as Hrep.
    { unfold replacementTab. rewrite Hnil, Hmnil, !GetAt_nil.
      by destruct (decide (GlobalTabSwitcherMode (_settings p) = MostRecentlyUsed)). }
    split_and!; try done.
    + eapply (page_idle_removed p _ (Z.to_nat i) j tab); cbn; try done.
      by rewrite Hmq1.
    + rewrite Hsq1, Hrep. by case_bool_decide; destruct (decide _).
    + rewrite Hmq1, Hrep. by case_bool_decide.
    + rewrite decide_True by lia. done.
  - destruct (decide (foc = Some i)) as [Hfi|Hfi].
    + (* the focused tab, others remain *)
      apply Hfoc in Hfi as Hsel.
      rewrite ?bind_assoc. erewrite bind_Ret by reflexivity.
      rewrite Hset1.
      destruct (replacementTab_is_tab (GlobalTabSwitcherMode (_settings p)) i tabs' mru')
        as (t & Hrep & Hin); [done|lia|pose proof (Size_nonneg tabs'); lia|].
      cbv zeta. fold tabs' mru'.
      rewrite (bool_decide_eq_true_2 _ Hsel). rewrite Hrep. cbn [from_option].
      unfold replacementTab in Hrep.
      assert (∃ q3, (if decide (GlobalTabSwitcherMode (_settings p) = MostRecentlyUsed)
                then
                  newSelectedTab <- mruTabs_GetAt 0;;
                  newSelected <- tabs_IndexOf newSelectedTab;;
                  match newSelected with
                  | Some newSelectedIndex =>
                      _UpdatedSelectedTab (to_int32 newSelectedIndex);;;
                      TabView_SelectedItem newSelectedTab
                  | None => ret tt
                  end
                else
                  newSelectedIndex <-
                    std_clamp (to_int32 (to_uint32 (i - 1))) 0 (to_int32 (Size tabs'));;
                  _UpdatedSelectedTab newSelectedIndex;;;
                  newSelectedTab <- tabs_GetAt (to_uint32 newSelectedIndex);;
                  TabView_SelectedItem newSelectedTab) q1 = Ret tt q3 ∧
               core q3 = core q1 ∧ _commandPalette q3 = _commandPalette q1 ∧
               TabItems (_tabView q3) = TabItems (_tabView q1) ∧
               SelectedItem (_tabView q3) = Some t ∧
               _mruTabs q3 = bumpMRU t mru') as (q3 & Hr3 & Hc3 & Hp3 & Hi3 & Hs3 & Hm3).
      { destruct (decide (GlobalTabSwitcherMode (_settings p) = MostRecentlyUsed)) as [Hmode|Hmode].
        * rewrite ?bind_assoc.
          erewrite bind_Ret by (by rewrite mruTabs_GetAt_eq, Hmq1, Hrep).
          rewrite ?bind_assoc. erewrite bind_Ret by reflexivity.
          apply index_of_elem in Hin as [k Hk].
          unfold IndexOf. rewrite Ht1, Hk. cbn [fmap option_fmap option_map].
          pose proof (index_of_lt _ _ _ Hk) as Hklt.
          pose proof (index_of_lookup _ _ _ Hk) as Hkl.
          destruct (UpdatedSelectedTab_full (to_int32 (Z.of_nat k)) q1)
            as (q2 & Hr2 & Hm2 & Hv2 & Hc2).
          destruct (UpdatedSelectedTab_spec (to_int32 (Z.of_nat k)) q1)
            as (q2' & Hr2' & _ & _ & Hp2).
          rewrite Hr2 in Hr2'. injection Hr2' as <-.
          erewrite bind_Ret by exact Hr2.
          assert (_mruTabs q2 = bumpMRU t mru') as Hmq2.
          { rewrite Hm2. unfold mruAfterSelected. unfold Size in *.
            rewrite int32_id by lia. rewrite decide_True by lia.
            rewrite uint32_id by lia. rewrite Ht1, GetAt_lookup, Hkl, Hmq1.
            rewrite Hcp1, Hcp. by rewrite decide_True. }
          destruct (core_flags _ _ Hc2) as (Hre2 & Hrm2 & _).
          destruct (TabView_SelectedItem_suppressed t q2)
            as (q3 & Hr3 & Hs3 & Hi3 & Hm3 & Hc3 & Hp3).
          { by rewrite Hrm2, Hrm1. }
          exists q3. split; [exact Hr3|]. split_and!; try congruence.
        * rewrite ?bind_assoc.
          erewrite bind_Ret; last first.
          { apply std_clamp_Ret. rewrite int32_id; lia. }
          rewrite (left_index_clamp i (Size tabs')) by lia.
          pose proof (clamp_range (i - 1) 0 (Size tabs' - 1)) as Hcl.
          set (n := clamp (i - 1) 0 (Size tabs' - 1)) in *.
          destruct (UpdatedSelectedTab_full n q1) as (q2 & Hr2 & Hm2 & Hv2 & Hc2).
          destruct (UpdatedSelectedTab_spec n q1) as (q2' & Hr2' & _ & _ & Hp2).
          rewrite Hr2 in Hr2'. injection Hr2' as <-.
          erewrite bind_Ret by exact Hr2.
          assert (_tabs q2 = tabs') as Ht2 by (by rewrite (core_tabs _ _ Hc2)).
          rewrite ?bind_assoc.
          erewrite bind_Ret by (by rewrite tabs_GetAt_eq, Ht2, uint32_id, Hrep by lia).
          assert (_mruTabs q2 = bumpMRU t mru') as Hmq2.
          { rewrite Hm2. unfold mruAfterSelected.
            rewrite decide_True by lia. rewrite uint32_id by lia.
            rewrite Ht1, Hrep, Hmq1, Hcp1, Hcp. by rewrite decide_True. }
          destruct (core_flags _ _ Hc2) as (Hre2 & Hrm2 & _).
          destruct (TabView_SelectedItem_suppressed t q2)
            as (q3 & Hr3 & Hs3 & Hi3 & Hm3 & Hc3 & Hp3).
          { by rewrite Hrm2, Hrm1. }
          exists q3. split; [exact Hr3|]. split_and!; try congruence. }
      rewrite ?bind_assoc in Hr3. rewrite ?bind_assoc.
      erewrite bind_Ret by exact Hr3.
      destruct (core_flags _ _ Hc3) as (Hre3 & Hrm3 & _ & _ & Hset3 & _).
      destruct (core_statics _ _ Hc3)
        as (Hst3 & Hlc3 & Hn3 & Hterm3 & _ & Hro3 & _ & _ & Hsh3 & _).
      erewrite bind_Ret by reflexivity. rewrite Hre3, Hre1.
      eexists. split; [reflexivity|].
      cbn [_tabs _mruTabs _tabView _lastTabClosed _settings _settingsTab _objects
           with_removing]. cbv zeta. fold tabs' mru'.
      split_and!; try congruence.
      * eapply (page_idle_removed p _ (Z.to_nat i) j tab); cbn; try congruence.
        -- by rewrite (core_tabs _ _ Hc3).
        -- rewrite Hm3. apply bumpMRU_perm.
        -- by rewrite Hi3.
        -- unfold selected_ok. cbn. by rewrite Hs3, (core_tabs _ _ Hc3), Ht1.
        -- by rewrite (core_dispatcher _ _ Hc3).
      * by rewrite (core_tabs _ _ Hc3).
      * rewrite decide_False by lia. congruence.
    + (* another tab *)
      assert (SelectedItem (_tabView p) ≠ Some tab) as Hsel by (by rewrite <-Hfoc).
      erewrite bind_Ret by reflexivity. erewrite bind_Ret by reflexivity.
      rewrite Hre1.
      eexists. split; [reflexivity|].
      cbn [_tabs _mruTabs _tabView _lastTabClosed _settings _settingsTab _objects
           with_removing]. cbv zeta. fold tabs' mru'.
      rewrite (bool_decide_eq_false_2 _ Hsel).
      rewrite decide_False in Hsq1 by done.
      split_and!; try congruence.
      * eapply (page_idle_removed p _ (Z.to_nat i) j tab); cbn; try done; try congruence.
        by rewrite Hmq1.
      * rewrite decide_False by lia. congruence.
Qed.

(** X5. Closing a tab of an idle page, read-only tabs once the user has
    confirmed, returns and leaves the page idle.  The tab is shut down and is
    gone from the display order, whose other tabs keep their order, and from
    the MRU list; the [TabView] loses the same item. *)
Theorem RemoveTab_keeps_page_idle
    (tab : TabBase) (warningResult : ContentDialogResult) (i : Z) (p : TerminalPage) :
  page_idle p → GetAt (_tabs p) i = Some tab →
  tab ∉ readOnlyTabs (_objects p) ∨ warningResult = Primary →
  ∃ p', _RemoveTab tab warningResult p = Ret tt p' ∧ page_idle p' ∧
    _tabs p' = delete (Z.to_nat i) (_tabs p) ∧
    TabItems (_tabView p') = delete (Z.to_nat i) (TabItems (_tabView p)) ∧
    (tab ∉ _tabs p') ∧ (tab ∉ _mruTabs p') ∧
    tab ∈ shutdownTabs (_objects p').
Proof.
  intros Hidle Hget Hro.
  destruct (RemoveTab_spec tab warningResult i p Hidle Hget Hro)
    as (j & p' & Hr & Hidle' & Ht & Hj & _ & _ & _ & _ & _ & _ & _ & _ & Hsh).
  pose proof Hidle as ((Hok & Hitems & _) & _).
  pose proof Hidle' as ((Hok' & Hitems' & _) & _).
  apply collection_ok_alt in Hok as (Hnd & _), Hok' as (_ & Hperm' & _).
  apply GetAt_Some in Hget as [_ Hl].
  assert (tab ∉ _tabs p') as Hnin.
  { rewrite Ht. intros [k Hk]%list_elem_of_lookup.
    destruct (decide (k < Z.to_nat i)%nat).
    - rewrite list_lookup_delete_lt in Hk by done.
      pose proof (NoDup_lookup _ _ _ _ Hnd Hk Hl). lia.
    - rewrite list_lookup_delete_ge in Hk by lia.
      pose proof (NoDup_lookup _ _ _ _ Hnd Hk Hl). lia. }
  exists p'. split_and!; try done.
  - by rewrite Hitems', Hitems.
  - by rewrite Hperm'.
  - rewrite Hsh. apply elem_of_union. left. by apply elem_of_singleton.
Qed.

Lemma RemoveTab_keeps_page_idle_witness :
  ∃ p', _RemoveTab 1%nat DialogNone (fourTabs id) = Ret tt p' ∧ page_idle p' ∧
    _tabs p' = delete (Z.to_nat 1) (_tabs (fourTabs id)) ∧
    TabItems (_tabView p') = delete (Z.to_nat 1) (TabItems (_tabView (fourTabs id))) ∧
    (1%nat ∉ _tabs p') ∧ (1%nat ∉ _mruTabs p') ∧
    1%nat ∈ shutdownTabs (_objects p').
Proof.
  apply (RemoveTab_keeps_page_idle 1%nat DialogNone 1 (fourTabs id)).
  - apply (bool_decide_unpack _). vm_compute. exact I.
  - vm_compute. reflexivity.
  - left. apply (bool_decide_unpack _). vm_compute. exact I.
Defined.

(** X6. [LastTabClosed] is raised exactly when the removal empties the
    collection.  Closing the only tab of an idle page leaves no tab, no MRU
    entry and no selection, and raises the event; closing a tab while others
    remain leaves the event as it was. *)
Theorem RemoveTab_raises_LastTabClosed_when_empty
    (tab : TabBase) (warningResult : ContentDialogResult) (i : Z) (p : TerminalPage) :
  page_idle p → GetAt (_tabs p) i = Some tab →
  tab ∉ readOnlyTabs (_objects p) ∨ warningResult = Primary →
  ∃ p', _RemoveTab tab warningResult p = Ret tt p' ∧
    if decide (Size (_tabs p) = 1)
    then _tabs p' = [] ∧ _mruTabs p' = [] ∧
         SelectedItem (_tabView p') = None ∧ _lastTabClosed p' = true
    else _tabs p' ≠ [] ∧ _lastTabClosed p' = _lastTabClosed p.
Proof.
  intros Hidle Hget Hro.
  destruct (RemoveTab_spec tab warningResult i p Hidle Hget Hro)
    as (j & p' & Hr & Hidle' & Ht & Hj & Hs & Hm & Hl & _).
  pose proof Hidle' as ((Hok' & _ & Hsel' & _) & _).
  apply collection_ok_alt in Hok' as (_ & Hperm' & _).
  pose proof (GetAt_lt _ _ _ Hget) as Hlt.
  assert (Size (_tabs p') = Size (_tabs p) - 1) as Hsize.
  { rewrite Ht. apply Size_delete. unfold Size in Hlt. lia. }
  exists p'. split; [done|]. rewrite Hl.
  destruct (decide (Size (_tabs p) = 1)) as [H1|H1].
  - assert (_tabs p' = []) as Hnil.
    { destruct (_tabs p'); [done|]. unfold Size in *. simpl in Hsize. lia. }
    split_and!; try done.
    + apply Permutation_nil_r. by rewrite <-Hnil.
    + unfold selected_ok in Hsel'. rewrite Hnil in Hsel'.
      destruct (SelectedItem (_tabView p')); [|done]. by apply not_elem_of_nil in Hsel'.
  - split; [|done]. intros Hnil. rewrite Hnil in Hsize. unfold Size in *.
    simpl in Hsize. lia.
Qed.

Lemma RemoveTab_raises_LastTabClosed_when_empty_witness :
  ∃ p', _RemoveTab 0%nat DialogNone oneTabPage = Ret tt p' ∧
    if decide (Size (_tabs oneTabPage) = 1)
    then _tabs p' = [] ∧ _mruTabs p' = [] ∧
         SelectedItem (_tabView p') = None ∧ _lastTabClosed p' = true
    else _tabs p' ≠ [] ∧ _lastTabClosed p' = _lastTabClosed oneTabPage.
Proof.
  apply (RemoveTab_raises_LastTabClosed_when_empty 0%nat DialogNone 0 oneTabPage).
  - apply (bool_decide_unpack _). vm_compute. exact I.
  - vm_compute. reflexivity.
  - left. apply (bool_decide_unpack _). vm_compute. exact I.
Defined.

(** X7. Closing a tab that is not the selected one leaves the selection
    where it is, and takes the tab out of the MRU list without reordering
    it. *)
Theorem RemoveTab_unfocused_keeps_selection
    (tab : TabBase) (warningResult : ContentDialogResult) (i : Z) (p : TerminalPage) :
  page_idle p → GetAt (_tabs p) i = Some tab →
  tab ∉ readOnlyTabs (_objects p) ∨ warningResult = Primary →
  SelectedItem (_tabView p) ≠ Some tab →
  ∃ p' j, _RemoveTab tab warningResult p = Ret tt p' ∧
    SelectedItem (_tabView p') = SelectedItem (_tabView p) ∧
    _mruTabs p !! j = Some tab ∧ _mruTabs p' = delete j (_mruTabs p).
Proof.
  intros Hidle Hget Hro Hsel.
  destruct (RemoveTab_spec tab warningResult i p Hidle Hget Hro)
    as (j & p' & Hr & _ & _ & Hj & Hs & Hm & _).
  rewrite (bool_decide_eq_false_2 _ Hsel) in Hs, Hm.
  by exists p', j.
Qed.

Lemma RemoveTab_unfocused_keeps_selection_witness :
  ∃ p' j, _RemoveTab 1%nat DialogNone (fourTabs id) = Ret tt p' ∧
    SelectedItem (_tabView p') = SelectedItem (_tabView (fourTabs id)) ∧
    _mruTabs (fourTabs id) !! j = Some 1%nat ∧
    _mruTabs p' = delete j (_mruTabs (fourTabs id)).
Proof.
  apply (RemoveTab_unfocused_keeps_selection 1%nat DialogNone 1 (fourTabs id)).
  - apply (bool_decide_unpack _). vm_compute. exact I.
  - vm_compute. reflexivity.
  - left. apply (bool_decide_unpack _). vm_compute. exact I.
  - vm_compute. discriminate.
Defined.

(** X8. When the focused tab of an idle page is closed and tabs remain,
    the tab that takes the focus is the selected item and heads the MRU list,
    whatever the switcher mode; the other tabs keep their MRU order. *)
Theorem RemoveTab_focused_replacement_heads_mru
    (tab : TabBase) (warningResult : ContentDialogResult) (i : Z) (p : TerminalPage) :
  page_idle p → GetAt (_tabs p) i = Some tab →
  tab ∉ readOnlyTabs (_objects p) ∨ warningResult = Primary →
  SelectedItem (_tabView p) = Some tab → 2 ≤ Size (_tabs p) →
  ∃ p' j newTab, _RemoveTab tab warningResult p = Ret tt p' ∧
    SelectedItem (_tabView p') = Some newTab ∧ newTab ∈ _tabs p' ∧
    GetAt (_mruTabs p') 0 = Some newTab ∧
    _mruTabs p !! j = Some tab ∧
    _mruTabs p' = bumpMRU newTab (delete j (_mruTabs p)).
Proof.
  intros Hidle Hget Hro Hsel Hsize.
  destruct (RemoveTab_spec tab warningResult i p Hidle Hget Hro)
    as (j & p' & Hr & Hidle' & Ht & Hj & Hs & Hm & _).
  pose proof Hidle as ((Hok & _) & _).
  apply collection_ok_alt in Hok as (Hnd & Hperm & _).
  pose proof (GetAt_lt _ _ _ Hget) as Hlt.
  pose proof Hget as [_ Hl]%GetAt_Some.
  rewrite (bool_decide_eq_true_2 _ Hsel) in Hs, Hm.
  destruct (replacementTab_is_tab (GlobalTabSwitcherMode (_settings p)) i
              (delete (Z.to_nat i) (_tabs p)) (delete j (_mruTabs p)))
    as (t & Hrep & Hin).
  { by eapply delete_both_perm. }
  { rewrite Size_delete by (unfold Size in Hlt; lia). lia. }
  { rewrite Size_delete by (unfold Size in Hlt; lia). lia. }
  rewrite Hrep in Hs, Hm. cbn [from_option] in Hm.
  exists p', j, t. split_and!; try done.
  - by rewrite Ht.
  - rewrite Hm. assert (t ∈ delete j (_mruTabs p)) as Hinm.
    { erewrite delete_both_perm; [exact Hin|done..]. }
    destruct (delete j (_mruTabs p)) as [|h rest] eqn:Hdel.
    { by apply not_elem_of_nil in Hinm. }
    unfold bumpMRU. apply index_of_elem in Hinm as [[|k] Hk]; rewrite Hk.
    + apply index_of_lookup in Hk. by injection Hk as ->.
    + done.
Qed.

Lemma RemoveTab_focused_replacement_heads_mru_witness :
  ∃ p' j newTab, _RemoveTab 3%nat DialogNone (fourTabs id) = Ret tt p' ∧
    SelectedItem (_tabView p') = Some newTab ∧ newTab ∈ _tabs p' ∧
    GetAt (_mruTabs p') 0 = Some newTab ∧
    _mruTabs (fourTabs id) !! j = Some 3%nat ∧
    _mruTabs p' = bumpMRU newTab (delete j (_mruTabs (fourTabs id))).
Proof.
  apply (RemoveTab_focused_replacement_heads_mru 3%nat DialogNone 3 (fourTabs id)).
  - apply (bool_decide_unpack _). vm_compute. exact I.
  - vm_compute. reflexivity.
  - left. apply (bool_decide_unpack _). vm_compute. exact I.
  - vm_compute. reflexivity.
  - vm_compute. discriminate.
Defined.

Lemma RemoveTab_noop tab w p :
  (tab ∈ readOnlyTabs (_objects p) ∧ w ≠ Primary) ∨ (tab ∉ _tabs p) →
  _RemoveTab tab w p = Ret tt p.
Proof.
  intros Hcase. unfold _RemoveTab. erewrite bind_Ret by reflexivity.
  destruct (bool_decide (tab ∈ readOnlyTabs (_objects p))
            && negb (bool_decide (w = Primary))) eqn:Hguard; [done|].
  destruct Hcase as [[Hro Hw]|Hnin].
  - rewrite (bool_decide_eq_true_2 _ Hro), (bool_decide_eq_false_2 _ Hw) in Hguard.
    done.
  - erewrite bind_Ret by reflexivity.
    apply index_of_None in Hnin. unfold IndexOf. by rewrite Hnin.
Qed.

(** X9. What [_RemoveTab] refuses: a read-only tab whose dialog was not
    confirmed, and a tab that is not in the display order (it is already
    removed).  The page is left exactly as it was. *)
Theorem RemoveTab_refusals
    (tab : TabBase) (warningResult : ContentDialogResult) (p : TerminalPage) :
  (tab ∈ readOnlyTabs (_objects p) ∧ warningResult ≠ Primary) ∨ (tab ∉ _tabs p) →
  _RemoveTab tab warningResult p = Ret tt p.
Proof. apply RemoveTab_noop. Qed.

Lemma RemoveTab_refusals_witness :
  _RemoveTab 9%nat DialogNone (fourTabs id) = Ret tt (fourTabs id).
Proof.
  apply (RemoveTab_refusals 9%nat DialogNone (fourTabs id)).
  right. apply (bool_decide_unpack _). vm_compute. exact I.
Defined.

(** X10. The ways to close a tab agree.  On a page whose [TabView] mirrors
    the display order, [_CloseFocusedTab] is [_RemoveTab] on the selected tab
    and does nothing without a selection; [_RemoveTabViewItem], and with it
    the [TabCloseRequested] handler, is [_RemoveTab] on the tab of the item
    and does nothing for an item the [TabView] does not hold. *)
Theorem close_entry_points_agree
    (warningResult : ContentDialogResult) (p : TerminalPage) :
  TabItems (_tabView p) = _tabs p → NoDup (_tabs p) →
  (SelectedItem (_tabView p) = None → _CloseFocusedTab warningResult p = Ret tt p) ∧
  (∀ tab, SelectedItem (_tabView p) = Some tab → tab ∈ _tabs p →
     _CloseFocusedTab warningResult p = _RemoveTab tab warningResult p) ∧
  (∀ item, item ∈ _tabs p →
     _RemoveTabViewItem item warningResult p = _RemoveTab item warningResult p ∧
     _OnTabCloseRequested item warningResult p = _RemoveTab item warningResult p) ∧
  (∀ item, item ∉ _tabs p →
     _RemoveTabViewItem item warningResult p = Ret tt p).
Proof.
  intros Hitems Hnd.
  assert (∀ item, item ∈ _tabs p →
    ∃ i, IndexOf (_tabs p) item = Some i ∧ GetAt (_tabs p) i = Some item) as Hidx.
  { intros item [k Hk]%index_of_elem. exists (Z.of_nat k).
    unfold IndexOf. rewrite Hk. split; [done|].
    rewrite GetAt_lookup. by apply index_of_lookup. }
  split_and!.
  - intros Hs. unfold _CloseFocusedTab. erewrite bind_Ret by reflexivity.
    by rewrite Hs.
  - intros tab Hs Hin. destruct (Hidx tab Hin) as (i & Hi & Hget).
    unfold _CloseFocusedTab. erewrite bind_Ret by reflexivity.
    rewrite Hs, Hitems, Hi.
    by erewrite bind_Ret by (by rewrite tabs_GetAt_eq, Hget).
  - intros item Hin. destruct (Hidx item Hin) as (i & Hi & Hget).
    assert (_RemoveTabViewItem item warningResult p = _RemoveTab item warningResult p) as H.
    { unfold _RemoveTabViewItem. erewrite bind_Ret by reflexivity.
      rewrite Hitems, Hi.
      by erewrite bind_Ret by (by rewrite tabs_GetAt_eq, Hget). }
    by split.
  - intros item Hnin. unfold _RemoveTabViewItem. erewrite bind_Ret by reflexivity.
    rewrite Hitems. apply index_of_None in Hnin. unfold IndexOf. by rewrite Hnin.
Qed.

Lemma close_entry_points_agree_witness :
  (SelectedItem (_tabView (fourTabs id)) = None →
     _CloseFocusedTab Primary (fourTabs id) = Ret tt (fourTabs id)) ∧
  (∀ tab, SelectedItem (_tabView (fourTabs id)) = Some tab → tab ∈ _tabs (fourTabs id) →
     _CloseFocusedTab Primary (fourTabs id) = _RemoveTab tab Primary (fourTabs id)) ∧
  (∀ item, item ∈ _tabs (fourTabs id) →
     _RemoveTabViewItem item Primary (fourTabs id) = _RemoveTab item Primary (fourTabs id) ∧
     _OnTabCloseRequested item Primary (fourTabs id) = _RemoveTab item Primary (fourTabs id)) ∧
  (∀ item, item ∉ _tabs (fourTabs id) →
     _RemoveTabViewItem item Primary (fourTabs id) = Ret tt (fourTabs id)).
Proof.
  apply (close_entry_points_agree Primary (fourTabs id)).
  - vm_compute. reflexivity.
  - apply (bool_decide_unpack _). vm_compute. exact I.
Defined.

(** ** Closing the window *)

Lemma filter_ext_elem {A} (P Q : A → Prop)
    `{!∀ x, Decision (P x), !∀ x, Decision (Q x)} (l : list A) :
  (∀ x, x ∈ l → P x ↔ Q x) → filter P l = filter Q l.
Proof.
  induction l as [|a l IH]; intros Hext; [done|].
  rewrite !filter_cons. rewrite IH by (intros x Hx; apply Hext; by right).
  apply decide_ext, Hext. left.
Qed.

Lemma filter_all {A} (P : A → Prop) `{!∀ x, Decision (P x)} (l : list A) :
  (∀ x, x ∈ l → P x) → filter P l = l.
Proof.
  induction l as [|a l IH]; intros Hall; [done|].
  rewrite filter_cons_True by (apply Hall; left).
  rewrite IH; [done|]. intros x Hx. apply Hall. by right.
Qed.

Lemma delete_as_filter {A} `{EqDecision A} (l : list A) i x :
  NoDup l → l !! i = Some x → delete i l = filter (λ y, y ≠ x) l.
Proof.
  revert i. induction l as [|a l IH]; intros i Hnd Hi; [done|].
  apply NoDup_cons in Hnd as [Ha Hnd]. destruct i as [|i]; simpl in *.
  - injection Hi as ->. rewrite filter_cons_False by (intros Hne; by apply Hne).
    symmetry. apply filter_all. intros y Hy ->. done.
  - rewrite filter_cons_True.
    + f_equal. by apply IH.
    + intros ->. apply Ha. by eapply list_elem_of_lookup_2.
Qed.

(** The tabs of the snapshot go one by one; the read-only tabs that the
    user keeps stay. *)
Lemma RemoveTabs_each_spec answers l p :
  page_idle p →
  ∃ p', RemoveTabs_each l answers p = Ret tt p' ∧ page_idle p' ∧
    _tabs p' = filter (λ t, t ∉ l ∨ declined answers p t) (_tabs p) ∧
    readOnlyTabs (_objects p') = readOnlyTabs (_objects p) ∧
    (_lastTabClosed p = true → _lastTabClosed p' = true) ∧
    (_tabs p ≠ [] → _tabs p' = [] → _lastTabClosed p' = true).
Proof.
  revert p. induction l as [|tab rest IH]; intros p Hidle.
  { exists p. split_and!; try done.
    symmetry. apply filter_all. intros x _. left. apply not_elem_of_nil. }
  cbn [RemoveTabs_each].
  destruct (decide (declined answers p tab ∨ tab ∉ _tabs p)) as [Hno|Hyes].
  - erewrite bind_Ret by (by apply RemoveTab_noop).
    destruct (IH p Hidle) as (p' & Hr & Hidle' & Ht & Hro & Hl1 & Hl2).
    exists p'. split_and!; try done.
    rewrite Ht. apply filter_ext_elem. intros x Hx.
    rewrite not_elem_of_cons.
    destruct Hno as [Hd|Hn]; [|set_unfold; naive_solver].
    destruct (decide (x = tab)) as [->|]; naive_solver.
  - assert (¬ declined answers p tab ∧ tab ∈ _tabs p) as [Hnd Hin].
    { split; [tauto|]. destruct (decide (tab ∈ _tabs p)); tauto. }
    apply list_elem_of_lookup_1 in Hin as [k Hk].
    assert (GetAt (_tabs p) (Z.of_nat k) = Some tab) as Hget
      by (by rewrite GetAt_lookup).
    destruct (RemoveTab_spec tab (answers tab) (Z.of_nat k) p Hidle Hget)
      as (j & p1 & Hr1 & Hidle1 & Ht1 & _ & _ & _ & Hlc1 & _ & _ & _ & Hro1 & _).
    { unfold declined in Hnd.
      destruct (decide (tab ∈ readOnlyTabs (_objects p))); [|by left].
      destruct (decide (answers tab = Primary)); [by right|tauto]. }
    erewrite bind_Ret by exact Hr1.
    destruct (IH p1 Hidle1) as (p' & Hr & Hidle' & Ht & Hro & Hl1 & Hl2).
    pose proof Hidle as ((Hok & _) & _).
    apply collection_ok_alt in Hok as (Hnodup & _).
    rewrite Nat2Z.id in Ht1.
    rewrite (delete_as_filter _ _ _ Hnodup Hk) in Ht1.
    exists p'. split_and!; try done.
    + rewrite Ht, Ht1, list_filter_filter. apply list_filter_iff.
      intros x. unfold declined. rewrite Hro1, not_elem_of_cons.
      unfold declined in Hnd. destruct (decide (x = tab)) as [->|]; naive_solver.
    + congruence.
    + intros Hl. apply Hl1. rewrite Hlc1. by destruct (decide _).
    + intros Hne Hnil. destruct (decide (_tabs p1 = [])) as [He|He]; [|by apply Hl2].
      apply Hl1. rewrite Hlc1. rewrite decide_True; [done|].
      pose proof (lookup_lt_Some _ _ _ Hk) as Hlt.
      assert (Size (_tabs p1) = Size (_tabs p) - 1) as Hs.
      { rewrite <-(delete_as_filter _ _ _ Hnodup Hk) in Ht1. rewrite Ht1.
        by apply Size_delete. }
      rewrite He in Hs. unfold Size in *. simpl in Hs. lia.
Qed.

(** X11. [CloseWindow] on an idle page returns.  When more than one tab
    is open, the setting asks for a confirmation, no such dialog is showing
    and the user does not confirm, nothing changes.  Otherwise every tab
    that stood in the display order is removed, apart from the read-only tabs
    whose own dialog the user does not confirm, which stay in their order;
    the page is idle again, and when this empties a collection that had tabs
    [LastTabClosed] has been raised. *)
Theorem CloseWindow_closes_all_but_declined
    (confirmCloseAllTabs displayingCloseDialog : bool)
    (warningResult : ContentDialogResult)
    (answers : TabBase → ContentDialogResult) (p : TerminalPage) :
  page_idle p →
  ∃ p', CloseWindow confirmCloseAllTabs displayingCloseDialog warningResult answers p
        = Ret tt p' ∧
    if bool_decide (Size (_tabs p) > 1) && confirmCloseAllTabs
       && negb displayingCloseDialog && negb (bool_decide (warningResult = Primary))
    then p' = p
    else page_idle p' ∧
         _tabs p' = filter (declined answers p) (_tabs p) ∧
         (_tabs p ≠ [] → _tabs p' = [] → _lastTabClosed p' = true).
Proof.
  intros Hidle. unfold CloseWindow, fire_and_forget, noexcept.
  erewrite bind_Ret by reflexivity.
  assert (∃ p', (tabsToRemove <- get _tabs;; _RemoveTabs tabsToRemove answers) p
                = Ret tt p' ∧ page_idle p' ∧
            _tabs p' = filter (declined answers p) (_tabs p) ∧
            (_tabs p ≠ [] → _tabs p' = [] → _lastTabClosed p' = true))
    as (p' & Hr & Hidle' & Ht & Hl).
  { erewrite bind_Ret by reflexivity.
    destruct (RemoveTabs_each_spec answers (_tabs p) p Hidle)
      as (p' & Hr & Hidle' & Ht & _ & _ & Hl).
    exists p'. unfold _RemoveTabs, fire_and_forget, noexcept. rewrite Hr.
    split_and!; try done. rewrite Ht. apply filter_ext_elem. intros x Hx. tauto. }
  destruct (bool_decide (Size (_tabs p) > 1) && confirmCloseAllTabs
            && negb displayingCloseDialog) eqn:Hguard; cbn [andb].
  - destruct (decide (warningResult ≠ Primary)) as [Hw|Hw].
    + rewrite (bool_decide_eq_false_2 _ Hw). by exists p.
    + apply dec_stable in Hw. rewrite (bool_decide_eq_true_2 _ Hw). cbn [negb].
      rewrite Hr. by exists p'.
  - rewrite Hr. by exists p'.
Qed.

Lemma CloseWindow_closes_all_but_declined_witness :
  ∃ p', CloseWindow true false Primary (λ _, DialogNone) (fourTabs id) = Ret tt p' ∧
    if bool_decide (Size (_tabs (fourTabs id)) > 1) && true
       && negb false && negb (bool_decide (Primary = Primary))
    then p' = fourTabs id
    else page_idle p' ∧
         _tabs p' = filter (declined (λ _, DialogNone) (fourTabs id)) (_tabs (fourTabs id)) ∧
         (_tabs (fourTabs id) ≠ [] → _tabs p' = [] → _lastTabClosed p' = true).
Proof.
  apply (CloseWindow_closes_all_but_declined true false Primary (λ _, DialogNone)
           (fourTabs id)).
  apply (bool_decide_unpack _). vm_compute. exact I.
Defined.

(** The test page of four tabs: closing the window leaves none. *)
Example CloseWindow_four_tabs :
  _tabs (exec (CloseWindow true false Primary (λ _, DialogNone)) (fourTabs id)) = [] ∧
  _lastTabClosed (exec (CloseWindow true false Primary (λ _, DialogNone)) (fourTabs id)) = true.
Proof. vm_compute. done. Qed.

(** ** Moving tabs *)

(** Selecting the item of a tab on a page at rest. *)
Lemma TabView_SelectedItem_commit item i p :
  _rearranging p = false → _removing p = false →
  cp_Visibility (_commandPalette p) = Collapsed →
  TabItems (_tabView p) = _tabs p → NoDup (_tabs p) → Size (_tabs p) < 2 ^ 31 →
  GetAt (_tabs p) i = Some item →
  ∃ p', TabView_SelectedItem item p = Ret tt p' ∧
    core p' = core p ∧ _commandPalette p' = _commandPalette p ∧
    TabItems (_tabView p') = TabItems (_tabView p) ∧
    SelectedItem (_tabView p') = Some item ∧
    (SelectedItem (_tabView p) ≠ Some item → _mruTabs p' = bumpMRU item (_mruTabs p)) ∧
    (SelectedItem (_tabView p) = Some item → p' = p).
Proof.
  intros Hr Hrm Hcp Hitems Hnd Hb Hget.
  destruct (TabView_SelectedItem_spec item p) as (p' & Hret & Hs & Hi & Hc & Hp).
  exists p'. split_and!; try done.
  - intros Hne. rewrite <-(exec_Ret _ _ _ _ Hret).
    rewrite TabView_SelectedItem_mru by done. rewrite Hr, Hrm. cbn [negb andb].
    rewrite Hitems, (IndexOf_NoDup _ _ _ Hnd Hget). cbn [default].
    pose proof (GetAt_lt _ _ _ Hget). unfold mruAfterSelected, id.
    destruct (decide (i >= 0)); [|lia]. rewrite uint32_id by lia. rewrite Hget, Hcp.
    by rewrite decide_True.
  - intros He. unfold TabView_SelectedItem in Hret.
    erewrite bind_Ret in Hret by reflexivity.
    rewrite decide_True in Hret by done. by injection Hret.
Qed.

Lemma page_idle_moved p p' :
  page_idle p → _tabs p' ≡ₚ _tabs p → _mruTabs p' ≡ₚ _mruTabs p →
  nextTab (_objects p') = nextTab (_objects p) →
  TabItems (_tabView p') = _tabs p' → selected_ok p' →
  _rearranging p' = false → _removing p' = false →
  _commandPalette p' = _commandPalette p → _dispatcher p' = [] →
  page_idle p'.
Proof.
  intros (Hwf & Hr & Hrm & Hcp & Hd) Ht Hm Hn Hit Hsel Hr' Hrm' Hcp' Hd'.
  destruct Hwf as ((Hnd & Hperm & Hf)%collection_ok_alt & Hitems & _ & Hb).
  apply page_idle_intro; try done.
  - by rewrite Ht.
  - by rewrite Hm, Ht.
  - by rewrite Ht, Hn.
  - unfold Size in *. by rewrite Ht.
  - congruence.
Qed.

Lemma delete_insert_at {A} (l : list A) (n : nat) x :
  (n ≤ length l)%nat → delete n (take n l ++ x :: drop n l) = l.
Proof.
  intros Hn. rewrite delete_take_drop.
  rewrite take_app_le by (rewrite length_take; lia).
  rewrite take_take, Nat.min_id.
  rewrite drop_app_ge by (rewrite length_take; lia).
  rewrite length_take. replace (S n - n `min` length l)%nat with 1%nat by lia.
  simpl. rewrite drop_0. apply take_drop.
Qed.

(** What [_TryMoveTab] does to an idle page. *)
Lemma TryMoveTab_spec c s tab p :
  page_idle p → GetAt (_tabs p) c = Some tab → - 2 ^ 31 ≤ s < 2 ^ 31 →
  let n := clamp s 0 (Size (_tabs p) - 1) in
  ∃ p', _TryMoveTab c s p = Ret tt p' ∧ page_idle p' ∧
    (c = n → p' = p) ∧
    (c ≠ n →
     _tabs p' = take (Z.to_nat n) (delete (Z.to_nat c) (_tabs p)) ++
                tab :: drop (Z.to_nat n) (delete (Z.to_nat c) (_tabs p)) ∧
     SelectedItem (_tabView p') = Some tab ∧
     _mruTabs p' = bumpMRU tab (_mruTabs p)).
Proof.
  intros Hidle Hget Hs n.
  pose proof Hidle as ((Hok & Hitems & Hselok & Hb) & Hrearr & Hrem & Hcp & Hd).
  pose proof Hok as (Hnd & Hperm & Hf)%collection_ok_alt.
  pose proof (GetAt_lt _ _ _ Hget) as Hc.
  assert (1 ≤ Size (_tabs p) < 2 ^ 31) as Hsize by lia.
  pose proof (clamp_range s 0 (Size (_tabs p) - 1)) as Hcl.
  assert (to_uint32 (clamp s 0 (to_int32 (to_uint32 (Size (_tabs p) - 1)))) = n) as Hnew.
  { rewrite (uint32_id (Size (_tabs p) - 1)) by lia.
    rewrite (int32_id (Size (_tabs p) - 1)) by lia. apply uint32_id. lia. }
  unfold _TryMoveTab. erewrite bind_Ret by reflexivity.
  erewrite bind_Ret; last first.
  { apply std_clamp_Ret. rewrite uint32_id, int32_id; lia. }
  rewrite Hnew. fold n in Hcl.
  destruct (decide (c ≠ n)) as [Hne|He].
  2:{ apply dec_stable in He. exists p. by split_and!. }
  erewrite bind_Ret by (by rewrite tabs_GetAt_eq, Hget).
  pose proof Hget as [_ Hl]%GetAt_Some.
  erewrite bind_Ret by (by apply tabs_RemoveAt_Ret).
  assert (Size (delete (Z.to_nat c) (_tabs p)) = Size (_tabs p) - 1) as Hsd.
  { apply Size_delete. unfold Size in Hc. lia. }
  erewrite bind_Ret; last first.
  { apply tabs_InsertAt_Ret. cbn [_tabs with_tabs]. rewrite Hsd. lia. }
  cbn [_tabs with_tabs].
  set (tabs' := take (Z.to_nat n) (delete (Z.to_nat c) (_tabs p)) ++
                tab :: drop (Z.to_nat n) (delete (Z.to_nat c) (_tabs p))).
  assert (tabs' ≡ₚ _tabs p) as Hperm' by (by apply move_perm).
  assert (GetAt tabs' n = Some tab) as Hgetn.
  { apply GetAt_Some. split; [lia|]. apply lookup_insert_at. unfold Size in *. lia. }
  match goal with |- context [bind (TabItems_RemoveAt _) _ ?q] => set (q0 := q) end.
  destruct (TabItems_RemoveAt_quiet c tab q0) as (q1 & Hr1 & Hc1 & Hm1 & Hp1 & Hi1 & Hs1).
  { subst q0. cbn. by rewrite Hitems. }
  { done. }
  { done. }
  erewrite bind_Ret by exact Hr1.
  destruct (core_flags _ _ Hc1) as (Hre1 & Hrm1 & _).
  erewrite bind_Ret; last first.
  { apply TabItems_InsertAt_quiet.
    - rewrite Hi1. subst q0. cbn. rewrite Hitems, Hsd. lia.
    - by rewrite Hp1.
    - by rewrite Hre1. }
  match goal with |- context [TabView_SelectedItem tab ?q] => set (q2 := q) end.
  assert (core q2 = core q0) as Hc2 by (subst q2; exact Hc1).
  assert (_tabs q2 = tabs') as Ht2 by (by rewrite (core_tabs _ _ Hc2)).
  assert (TabItems (_tabView q2) = tabs') as Hi2.
  { subst q2. cbn. rewrite Hi1. subst q0. cbn. by rewrite Hitems. }
  assert (SelectedItem (_tabView q2) ≠ Some tab) as Hs2.
  { subst q2. cbn. rewrite Hs1. subst q0. cbn.
    destruct (decide (SelectedItem (_tabView p) = Some tab)); done. }
  assert (_rearranging q2 = false ∧ _removing q2 = false ∧
          _commandPalette q2 = _commandPalette p ∧ _dispatcher q2 = [] ∧
          nextTab (_objects q2) = nextTab (_objects p) ∧
          _mruTabs q2 = _mruTabs p) as (Hre2 & Hrm2 & Hp2 & Hd2 & Hn2 & Hmq2).
  { destruct (core_statics _ _ Hc1) as (_ & _ & Hn1 & _).
    subst q2. cbn. rewrite Hre1, Hrm1, Hp1, (core_dispatcher _ _ Hc1), Hn1, Hm1.
    subst q0. by cbn. }
  destruct (TabView_SelectedItem_commit tab n q2)
    as (p' & Hr3 & Hc3 & Hp3 & Hi3 & Hs3 & Hm3 & _); try done.
  { by rewrite Hp2. }
  { by rewrite Hi2. }
  { rewrite Ht2. by rewrite Hperm'. }
  { rewrite Ht2. unfold Size in *. by rewrite Hperm'. }
  { by rewrite Ht2. }
  specialize (Hm3 Hs2).
  destruct (core_flags _ _ Hc3) as (Hre3 & Hrm3 & _).
  destruct (core_statics _ _ Hc3) as (_ & _ & Hn3 & _).
  exists p'. split; [exact Hr3|]. split_and!; try done.
  - apply (page_idle_moved p p'); try congruence.
    + by rewrite (core_tabs _ _ Hc3), Ht2.
    + rewrite Hm3, Hmq2. apply bumpMRU_perm.
    + by rewrite Hi3, Hi2, (core_tabs _ _ Hc3), Ht2.
    + unfold selected_ok. rewrite Hs3, (core_tabs _ _ Hc3), Ht2, Hperm'.
      by eapply list_elem_of_lookup_2.
    + by rewrite (core_dispatcher _ _ Hc3).
  - intros _. split_and!; try done.
    + by rewrite (core_tabs _ _ Hc3), Ht2.
    + by rewrite Hm3, Hmq2.
Qed.

(** X12. [_TryMoveTab] on an idle page moves one tab and returns: the tab
    of index [currentTabIndex] stands at the suggested index clamped to the
    display order, the other tabs keep their order, and the page is idle
    again.  When the clamped index is the current one nothing changes at all;
    otherwise the moved tab is the selected one and has been bumped to the
    head of the MRU list. *)
Theorem TryMoveTab_moves_one_tab
    (currentTabIndex suggestedNewTabIndex : Z) (tab : TabBase) (p : TerminalPage) :
  page_idle p → GetAt (_tabs p) currentTabIndex = Some tab →
  - 2 ^ 31 ≤ suggestedNewTabIndex < 2 ^ 31 →
  let newTabIndex := clamp suggestedNewTabIndex 0 (Size (_tabs p) - 1) in
  ∃ p', _TryMoveTab currentTabIndex suggestedNewTabIndex p = Ret tt p' ∧
    page_idle p' ∧
    GetAt (_tabs p') newTabIndex = Some tab ∧
    delete (Z.to_nat newTabIndex) (_tabs p') = delete (Z.to_nat currentTabIndex) (_tabs p) ∧
    (currentTabIndex = newTabIndex → p' = p) ∧
    (currentTabIndex ≠ newTabIndex →
     SelectedItem (_tabView p') = Some tab ∧
     _mruTabs p' = bumpMRU tab (_mruTabs p)).
Proof.
  intros Hidle Hget Hs n.
  destruct (TryMoveTab_spec currentTabIndex suggestedNewTabIndex tab p Hidle Hget Hs)
    as (p' & Hr & Hidle' & Hsame & Hmove).
  fold n in Hsame, Hmove.
  pose proof (GetAt_lt _ _ _ Hget) as Hc.
  pose proof (clamp_range suggestedNewTabIndex 0 (Size (_tabs p) - 1)) as Hcl.
  fold n in Hcl.
  exists p'. split; [done|]. split; [done|].
  destruct (decide (currentTabIndex = n)) as [He|Hne].
  - rewrite (Hsame He). subst n. rewrite <-He. by split_and!.
  - destruct (Hmove Hne) as (Ht & Hsel & Hm). rewrite Ht.
    assert (Z.to_nat n ≤ length (delete (Z.to_nat currentTabIndex) (_tabs p)))%nat as Hlen.
    { rewrite length_delete by (apply GetAt_Some in Hget as [_ Hl]; by eexists).
      unfold Size in *. lia. }
    split_and!; try done.
    + apply GetAt_Some. split; [lia|]. by apply lookup_insert_at.
    + by apply delete_insert_at.
Qed.

Lemma TryMoveTab_moves_one_tab_witness :
  let newTabIndex := clamp 7 0 (Size (_tabs (fourTabs id)) - 1) in
  ∃ p', _TryMoveTab 1 7 (fourTabs id) = Ret tt p' ∧
    page_idle p' ∧
    GetAt (_tabs p') newTabIndex = Some 1%nat ∧
    delete (Z.to_nat newTabIndex) (_tabs p') = delete (Z.to_nat 1) (_tabs (fourTabs id)) ∧
    (1 = newTabIndex → p' = fourTabs id) ∧
    (1 ≠ newTabIndex →
     SelectedItem (_tabView p') = Some 1%nat ∧
     _mruTabs p' = bumpMRU 1%nat (_mruTabs (fourTabs id))).
Proof.
  apply (TryMoveTab_moves_one_tab 1 7 1%nat (fourTabs id)).
  - apply (bool_decide_unpack _). vm_compute. exact I.
  - vm_compute. reflexivity.
  - apply (bool_decide_unpack _). vm_compute. exact I.
Defined.

(** ** A tab drag *)

Lemma OnTabSelectionChanged_suppressed p :
  _rearranging p = true ∨ _removing p = true → _OnTabSelectionChanged p = Ret tt p.
Proof.
  intros H. unfold _OnTabSelectionChanged.
  erewrite bind_Ret by reflexivity. erewrite bind_Ret by reflexivity.
  destruct H as [-> | ->]; [done|]. by rewrite andb_false_r.
Qed.

(** While a drag is under way the page only notes where the item left and
    where it arrived. *)
Lemma TabItems_RemoveAt_dragging index item p :
  GetAt (TabItems (_tabView p)) index = Some item →
  cp_Visibility (_commandPalette p) = Collapsed → _rearranging p = true →
  RaisesTabItemsChanged (_tabView p) = true →
  ∃ p', TabItems_RemoveAt index p = Ret tt p' ∧
    core p' = core p ∧ _mruTabs p' = _mruTabs p ∧
    _commandPalette p' = _commandPalette p ∧
    TabItems (_tabView p') = delete (Z.to_nat index) (TabItems (_tabView p)) ∧
    SelectedItem (_tabView p') =
      (if decide (SelectedItem (_tabView p) = Some item) then None
       else SelectedItem (_tabView p)) ∧
    _rearrangeFrom p' = Some index ∧ _rearrangeTo p' = _rearrangeTo p.
Proof.
  intros Hget Hcp Hr Hraise. pose proof (GetAt_lt _ _ _ Hget) as Hlt.
  unfold TabItems_RemoveAt.
  erewrite bind_Ret by reflexivity. rewrite Hget.
  erewrite bind_Ret by reflexivity.
  unfold RemoveAt. rewrite decide_True by done.
  erewrite bind_Ret by reflexivity. erewrite bind_Ret by reflexivity.
  erewrite bind_Ret by reflexivity.
  cbn [_tabView with_tabView SelectedItem with_TabItems].
  assert (∀ q, cp_Visibility (_commandPalette q) = Collapsed → _rearranging q = true →
               RaisesTabItemsChanged (_tabView q) = true →
               raise_TabItemsChanged ItemRemoved index q
               = Ret tt (with_rearrangeFrom (Some index) q)) as Hraised.
  { intros q Hq1 Hq2 Hq3. unfold raise_TabItemsChanged.
    erewrite bind_Ret by reflexivity. rewrite Hq3.
    unfold _OnTabItemsChanged. erewrite bind_Ret by reflexivity. rewrite Hq2.
    erewrite bind_Ret by reflexivity.
    unfold CommandPalette_Visibility. erewrite bind_Ret by reflexivity.
    cbn [_commandPalette with_rearrangeFrom]. by rewrite decide_True. }
  destruct (decide (SelectedItem (_tabView p) = Some item)) as [Hs|Hs].
  - rewrite bind_assoc. erewrite bind_Ret by reflexivity.
    erewrite bind_Ret by (apply OnTabSelectionChanged_suppressed; by left).
    rewrite Hraised by done. by eexists.
  - erewrite bind_Ret by reflexivity.
    rewrite Hraised by done. by eexists.
Qed.

Lemma TabItems_InsertAt_dragging index item p :
  0 ≤ index ≤ Size (TabItems (_tabView p)) →
  cp_Visibility (_commandPalette p) = Collapsed → _rearranging p = true →
  RaisesTabItemsChanged (_tabView p) = true →
  TabItems_InsertAt index item p =
    Ret tt (with_rearrangeTo (Some index) (with_tabView
      (with_TabItems (take (Z.to_nat index) (TabItems (_tabView p)) ++
                      item :: drop (Z.to_nat index) (TabItems (_tabView p)))
         (_tabView p)) p)).
Proof.
  intros Hi Hcp Hr Hraise. unfold TabItems_InsertAt.
  erewrite bind_Ret by reflexivity.
  unfold InsertAt. rewrite decide_True by done.
  erewrite bind_Ret by reflexivity. erewrite bind_Ret by reflexivity.
  unfold raise_TabItemsChanged. erewrite bind_Ret by reflexivity.
  cbn [_tabView with_tabView RaisesTabItemsChanged with_TabItems]. rewrite Hraise.
  unfold _OnTabItemsChanged. erewrite bind_Ret by reflexivity.
  cbn [_rearranging with_tabView]. rewrite Hr.
  erewrite bind_Ret by reflexivity.
  unfold CommandPalette_Visibility. erewrite bind_Ret by reflexivity.
  cbn [_commandPalette with_rearrangeTo with_tabView]. by rewrite decide_True.
Qed.

(** A tab dragged over the tab row of an idle page. *)
Lemma dragTab_spec
    (from to : Z) (tab : TabBase) (p : TerminalPage) :
  page_idle p → RaisesTabItemsChanged (_tabView p) = true →
  GetAt (_tabs p) from = Some tab → 0 ≤ to < Size (_tabs p) →
  ∃ p', dragTab from to p = Ret tt p' ∧ page_idle p' ∧
    TabItems (_tabView p') = _tabs p' ∧
    GetAt (_tabs p') to = Some tab ∧
    delete (Z.to_nat to) (_tabs p') = delete (Z.to_nat from) (_tabs p) ∧
    _mruTabs p' = _mruTabs p ∧
    _rearrangeFrom p' = None ∧ _rearrangeTo p' = None.
Proof.
  intros Hidle Hraise Hget Hto.
  pose proof Hidle as ((Hok & Hitems & Hselok & Hb) & Hrearr & Hrem & Hcp & Hd).
  pose proof Hok as (Hnd & Hperm & Hf)%collection_ok_alt.
  pose proof (GetAt_lt _ _ _ Hget) as Hfrom.
  pose proof Hget as [_ Hl]%GetAt_Some.
  assert (Size (delete (Z.to_nat from) (_tabs p)) = Size (_tabs p) - 1) as Hsd.
  { apply Size_delete. unfold Size in Hfrom. lia. }
  set (tabs' := take (Z.to_nat to) (delete (Z.to_nat from) (_tabs p)) ++
                tab :: drop (Z.to_nat to) (delete (Z.to_nat from) (_tabs p))).
  assert (tabs' ≡ₚ _tabs p) as Hperm' by (by apply move_perm).
  assert (Z.to_nat to ≤ length (delete (Z.to_nat from) (_tabs p)))%nat as Hlen.
  { unfold Size in *. lia. }
  assert (GetAt tabs' to = Some tab) as Hgetn.
  { apply GetAt_Some. split; [lia|]. by apply lookup_insert_at. }
  unfold dragTab, TabDragStarting.
  rewrite ?bind_assoc. erewrite bind_Ret by reflexivity.
  rewrite ?bind_assoc. erewrite bind_Ret by reflexivity.
  rewrite ?bind_assoc. erewrite bind_Ret by reflexivity.
  rewrite ?bind_assoc. erewrite bind_Ret by reflexivity.
  cbn [_tabView with_rearranging with_rearrangeFrom with_rearrangeTo].
  rewrite Hitems, Hget. rewrite ?bind_assoc.
  match goal with |- context [bind (TabItems_RemoveAt _) _ ?q] => set (q0 := q) end.
  destruct (TabItems_RemoveAt_dragging from tab q0)
    as (q1 & Hr1 & Hc1 & Hm1 & Hp1 & Hi1 & Hs1 & Hf1 & Ht1); try done.
  { subst q0. cbn. by rewrite Hitems. }
  rewrite ?bind_assoc. erewrite bind_Ret by exact Hr1.
  destruct (core_flags _ _ Hc1) as (Hre1 & Hrm1 & _ & _ & _ & Hra1).
  destruct (core_statics _ _ Hc1) as (_ & _ & Hn1 & _).
  erewrite bind_Ret; last first.
  { apply TabItems_InsertAt_dragging; rewrite ?Hp1, ?Hre1, ?Hra1; try done.
    rewrite Hi1. subst q0. cbn. rewrite Hitems, Hsd. lia. }
  unfold TabDragCompleted.
  rewrite ?bind_assoc. erewrite bind_Ret by reflexivity.
  rewrite ?bind_assoc. erewrite bind_Ret by reflexivity.
  cbn [_rearrangeFrom _rearrangeTo with_rearrangeTo with_tabView]. rewrite Hf1.
  rewrite (uint32_id from), (uint32_id to) by lia.
  assert (_tabs q1 = _tabs p) as Htq1 by (by rewrite (core_tabs _ _ Hc1)).
  assert (TabItems (_tabView q1) = delete (Z.to_nat from) (_tabs p)) as Hiq1.
  { rewrite Hi1. subst q0. cbn. by rewrite Hitems. }
  assert (_removing q1 = false ∧ _dispatcher q1 = [] ∧
          _mruTabs q1 = _mruTabs p) as (Hrmq1 & Hdq1 & Hmq1).
  { rewrite Hrm1, (core_dispatcher _ _ Hc1), Hm1. subst q0. by cbn. }
  assert (selected_ok q1) as Hsel1.
  { unfold selected_ok. rewrite Hs1, Htq1. subst q0. cbn.
    destruct (decide _); [done|]. exact Hselok. }
  destruct (decide (to ≠ from)) as [Hne|He].
  - rewrite ?bind_assoc.
    erewrite bind_Ret by
      (by rewrite tabs_GetAt_eq; cbn [_tabs with_rearrangeTo with_tabView];
          rewrite Htq1, Hget).
    rewrite ?bind_assoc.
    erewrite bind_Ret by
      (apply tabs_RemoveAt_Ret; cbn [_tabs with_rearrangeTo with_tabView];
       rewrite Htq1; lia).
    erewrite bind_Ret; last first.
    { apply tabs_InsertAt_Ret. cbn [_tabs with_tabs with_rearrangeTo with_tabView].
      rewrite Htq1, Hsd. lia. }
    erewrite bind_Ret by reflexivity. erewrite bind_Ret by reflexivity.
    eexists. split; [reflexivity|].
    cbn [_tabs _mruTabs _tabView _rearrangeFrom _rearrangeTo TabItems
         with_tabs with_rearranging with_rearrangeFrom with_rearrangeTo
         with_tabView with_TabItems].
    rewrite Htq1, Hiq1. fold tabs'.
    split_and!; try done.
    + eapply (page_idle_moved p); cbn; try done.
      * by rewrite Hmq1.
      * unfold selected_ok in *. cbn.
        destruct (SelectedItem (_tabView q1)); [|done].
        rewrite Hperm'. by rewrite <-Htq1.
    + by apply delete_insert_at.
  - apply dec_stable in He. subst to.
    erewrite bind_Ret by reflexivity.
    erewrite bind_Ret by reflexivity. erewrite bind_Ret by reflexivity.
    eexists. split; [reflexivity|].
    cbn [_tabs _mruTabs _tabView _rearrangeFrom _rearrangeTo TabItems
         with_tabs with_rearranging with_rearrangeFrom with_rearrangeTo
         with_tabView with_TabItems].
    rewrite Htq1, Hiq1. fold tabs'.
    assert (tabs' = _tabs p) as Hsame.
    { unfold tabs'. rewrite delete_take_drop.
      rewrite take_app_le by (rewrite length_take; unfold Size in *; lia).
      rewrite take_take, Nat.min_id.
      rewrite drop_app_ge by (rewrite length_take; unfold Size in *; lia).
      rewrite length_take.
      replace (Z.to_nat from - Z.to_nat from `min` length (_tabs p))%nat with O
        by (unfold Size in *; lia).
      rewrite drop_0. by apply take_drop_middle. }
    rewrite Hsame. split_and!; try done.
    eapply (page_idle_moved p); cbn; try done.
    + by rewrite Htq1.
    + by rewrite Hmq1.
Qed.

(** X13. A tab dragged over the tab row of an idle page, the [TabView]
    reporting its changes: when the drag completes the display order is the
    [TabView]'s order again, with the dragged tab at its new index and the
    other tabs in their order; the MRU list has not changed, the drag state
    is cleared and the page is idle. *)
Theorem dragTab_reorders_display_order_only
    (from to : Z) (tab : TabBase) (p : TerminalPage) :
  page_idle p → RaisesTabItemsChanged (_tabView p) = true →
  GetAt (_tabs p) from = Some tab → 0 ≤ to < Size (_tabs p) →
  ∃ p', dragTab from to p = Ret tt p' ∧ page_idle p' ∧
    TabItems (_tabView p') = _tabs p' ∧
    GetAt (_tabs p') to = Some tab ∧
    delete (Z.to_nat to) (_tabs p') = delete (Z.to_nat from) (_tabs p) ∧
    _mruTabs p' = _mruTabs p ∧
    _rearrangeFrom p' = None ∧ _rearrangeTo p' = None.
Proof. apply dragTab_spec. Qed.


Lemma dragTab_reorders_display_order_only_witness :
  ∃ p', dragTab 0 2 (fourTabs id) = Ret tt p' ∧ page_idle p' ∧
    TabItems (_tabView p') = _tabs p' ∧
    GetAt (_tabs p') 2 = Some 0%nat ∧
    delete (Z.to_nat 2) (_tabs p') = delete (Z.to_nat 0) (_tabs (fourTabs id)) ∧
    _mruTabs p' = _mruTabs (fourTabs id) ∧
    _rearrangeFrom p' = None ∧ _rearrangeTo p' = None.
Proof.
  apply (dragTab_reorders_display_order_only 0 2 0%nat (fourTabs id)).
  - apply (bool_decide_unpack _). vm_compute. exact I.
  - vm_compute. reflexivity.
  - vm_compute. reflexivity.
  - apply (bool_decide_unpack _). vm_compute. exact I.
Defined.

(** ** The focused tab *)

Lemma GetFocusedTab_wf p :
  TabItems (_tabView p) = _tabs p → selected_ok p →
  _GetFocusedTab p = Ret (SelectedItem (_tabView p)) p ∧
  _GetFocusedTabImpl p =
    Ret (match SelectedItem (_tabView p) with
         | Some tab => if decide (tab ∈ terminalTabs (_objects p)) then Some tab else None
         | None => None
         end) p.
Proof.
  intros Hitems Hsel. unfold selected_ok in Hsel.
  assert (_GetFocusedTab p = Ret (SelectedItem (_tabView p)) p) as Hf.
  { unfold _GetFocusedTab, noexcept. erewrite bind_Ret by reflexivity.
    rewrite Hitems. destruct (SelectedItem (_tabView p)) as [tab|]; [|done].
    apply index_of_elem in Hsel as [k Hk]. unfold IndexOf. rewrite Hk.
    cbn [fmap option_fmap option_map].
    erewrite bind_Ret; [reflexivity|].
    rewrite tabs_GetAt_eq, GetAt_lookup. by rewrite (index_of_lookup _ _ _ Hk). }
  split; [done|]. unfold _GetFocusedTabImpl, noexcept.
  erewrite bind_Ret by exact Hf. by destruct (SelectedItem (_tabView p)).
Qed.

(** X14. On a page whose [TabView] mirrors the display order and whose
    selected item is a tab, the [noexcept] accessors of the focused tab
    return: [_GetFocusedTabIndex] gives the index of the selected tab in the
    display order, [_GetFocusedTab] the selected tab, and [_GetFocusedTabImpl]
    that tab exactly when it is a terminal tab.  None of them changes the
    page. *)
Theorem focused_tab_accessors (p : TerminalPage) :
  TabItems (_tabView p) = _tabs p → selected_ok p →
  (∃ index, _GetFocusedTabIndex p = Ret index p ∧
     match index, SelectedItem (_tabView p) with
     | Some i, Some tab => GetAt (_tabs p) i = Some tab
     | None, None => True
     | _, _ => False
     end) ∧
  _GetFocusedTab p = Ret (SelectedItem (_tabView p)) p ∧
  ∃ impl, _GetFocusedTabImpl p = Ret impl p ∧
    ∀ tab, impl = Some tab ↔
      SelectedItem (_tabView p) = Some tab ∧ tab ∈ terminalTabs (_objects p).
Proof.
  intros Hitems Hsel. destruct (GetFocusedTab_wf p Hitems Hsel) as [Hf Himpl].
  split_and!; [|done|].
  - eexists. split; [reflexivity|]. rewrite Hitems. unfold selected_ok in Hsel.
    destruct (SelectedItem (_tabView p)) as [tab|]; [|done].
    apply index_of_elem in Hsel as [k Hk]. unfold IndexOf. rewrite Hk.
    cbn [fmap option_fmap option_map]. rewrite GetAt_lookup.
    by apply index_of_lookup.
  - eexists. split; [exact Himpl|]. intros tab.
    destruct (SelectedItem (_tabView p)) as [s|]; [|naive_solver].
    destruct (decide (s ∈ terminalTabs (_objects p))); naive_solver.
Qed.

Lemma focused_tab_accessors_witness :
  (∃ index, _GetFocusedTabIndex (fourTabs id) = Ret index (fourTabs id) ∧
     match index, SelectedItem (_tabView (fourTabs id)) with
     | Some i, Some tab => GetAt (_tabs (fourTabs id)) i = Some tab
     | None, None => True
     | _, _ => False
     end) ∧
  _GetFocusedTab (fourTabs id) = Ret (SelectedItem (_tabView (fourTabs id))) (fourTabs id) ∧
  ∃ impl, _GetFocusedTabImpl (fourTabs id) = Ret impl (fourTabs id) ∧
    ∀ tab, impl = Some tab ↔
      SelectedItem (_tabView (fourTabs id)) = Some tab ∧
      tab ∈ terminalTabs (_objects (fourTabs id)).
Proof.
  apply (focused_tab_accessors (fourTabs id)).
  - vm_compute. reflexivity.
  - apply (bool_decide_unpack _). vm_compute. exact I.
Defined.

(** ** Duplicating the focused tab *)

(** X15. [_DuplicateFocusedTab] on an idle page whose focused tab is a
    terminal tab with a profile that the settings still hold: a new terminal
    tab is appended with the same profile and is selected, and the page is
    idle again. *)
Theorem DuplicateFocusedTab_copies_profile
    (tab : TabBase) (guid : GUID) (p : TerminalPage) :
  page_idle p → Size (_tabs p) + 1 < 2 ^ 31 →
  SelectedItem (_tabView p) = Some tab → tab ∈ terminalTabs (_objects p) →
  focusedProfiles (_objects p) !! tab = Some guid → guid ∈ Profiles (_settings p) →
  ∃ p', _DuplicateFocusedTab p = Ret tt p' ∧ page_idle p' ∧
    let newTab := nextTab (_objects p) in
    _tabs p' = _tabs p ++ [newTab] ∧
    SelectedItem (_tabView p') = Some newTab ∧
    newTab ∈ terminalTabs (_objects p') ∧
    focusedProfiles (_objects p') !! newTab = Some guid ∧
    focusedProfiles (_objects p') !! tab = Some guid.
Proof.
  intros Hidle Hb Hsel Hterm Hprof Hin.
  pose proof Hidle as (Hwf & Hr & Hrm & Hcp & Hd).
  pose proof Hwf as (_ & Hitems & Hselok & _).
  destruct (GetFocusedTab_wf p Hitems Hselok) as [_ Himpl].
  rewrite Hsel, decide_True in Himpl by done.
  destruct (CreateNewTab_spec guid p Hwf Hr Hrm Hcp)
    as (p' & Hret & Hc & Hm & Hi & Hs & Hp).
  destruct (core_flags _ _ Hc) as (Hr' & Hrm' & _).
  destruct (core_statics _ _ Hc) as (_ & _ & Hn & Hterm' & _ & _ & _ & Hprof' & _).
  pose proof (core_tabs _ _ Hc) as Ht. pose proof (core_dispatcher _ _ Hc) as Hd'.
  exists p'. split.
  { unfold _DuplicateFocusedTab. erewrite bind_Ret by exact Himpl.
    unfold _DuplicateTab, CATCH_LOG.
    erewrite bind_Ret by (unfold GetFocusedProfile, get; by rewrite Hprof).
    cbv beta iota.
    erewrite bind_Ret; last first.
    { unfold CreateWithProfileByID. erewrite bind_Ret by reflexivity.
      by rewrite decide_True. }
    by rewrite Hret. }
  split; [by eapply (page_idle_appended p p' (nextTab (_objects p)))|].
  split_and!; try done.
  - rewrite Hterm'. cbn. apply elem_of_union. left. by apply elem_of_singleton.
  - rewrite Hprof'. cbn. by rewrite lookup_insert_eq.
  - rewrite Hprof'. cbn. rewrite lookup_insert_ne; [done|].
    destruct (fresh_not_in p Hwf) as (Hnt & _). intros Heq. apply Hnt.
    unfold selected_ok in Hselok. rewrite Hsel in Hselok. by rewrite Heq.
Qed.

Lemma DuplicateFocusedTab_copies_profile_witness :
  ∃ p', _DuplicateFocusedTab (fourTabs id) = Ret tt p' ∧ page_idle p' ∧
    let newTab := nextTab (_objects (fourTabs id)) in
    _tabs p' = _tabs (fourTabs id) ++ [newTab] ∧
    SelectedItem (_tabView p') = Some newTab ∧
    newTab ∈ terminalTabs (_objects p') ∧
    focusedProfiles (_objects p') !! newTab = Some 1%nat ∧
    focusedProfiles (_objects p') !! 3%nat = Some 1%nat.
Proof.
  apply (DuplicateFocusedTab_copies_profile 3%nat 1%nat (fourTabs id)).
  - apply (bool_decide_unpack _). vm_compute. exact I.
  - vm_compute. reflexivity.
  - vm_compute. reflexivity.
  - apply (bool_decide_unpack _). vm_compute. exact I.
  - vm_compute. reflexivity.
  - apply (bool_decide_unpack _). vm_compute. exact I.
Defined.

(** ** Panes *)

(** X16. When [_SplitPane] splits nothing: for the split type [None], when
    no terminal tab is focused, and when the focused tab answers that the
    pane cannot be split.  The page is then left exactly as it was: no
    request is made of the tab and a zoomed pane stays zoomed. *)
Theorem SplitPane_without_split
    (splitType : SplitState) (splitMode : SplitType) (profileForArgs : GUID)
    (autoSplit : SplitState) (canSplit : bool) (p : TerminalPage) :
  splitType = SplitNone ∨ _GetFocusedTabImpl p = Ret None p ∨
  (canSplit = false ∧ ∃ tab, _GetFocusedTabImpl p = Ret (Some tab) p) →
  _SplitPane splitType splitMode profileForArgs autoSplit canSplit p = Ret tt p.
Proof.
  intros Hcase. unfold _SplitPane.
  destruct (decide (splitType = SplitNone)) as [|Hns]; [done|].
  destruct Hcase as [?|[Hnone|[-> [tab Hf]]]]; [done| |].
  - by erewrite bind_Ret by exact Hnone.
  - erewrite bind_Ret by exact Hf. unfold CATCH_LOG.
    destruct (decide (splitMode = Duplicate)) as [Hm|Hm].
    + unfold GetFocusedProfile.
      destruct (focusedProfiles (_objects p) !! tab) as [guid|] eqn:Hprof.
      * destruct (decide (guid ∈ Profiles (_settings p))) as [Hin|Hnin].
        -- erewrite bind_Ret; [reflexivity|].
           erewrite bind_Ret by (unfold get; by rewrite Hprof).
           cbv beta iota. erewrite bind_Ret; [reflexivity|].
           unfold CreateWithProfileByID. erewrite bind_Ret by reflexivity.
           by rewrite decide_True.
        -- erewrite bind_Throw; [reflexivity|].
           erewrite bind_Ret by (unfold get; by rewrite Hprof).
           cbv beta iota. erewrite bind_Throw; [reflexivity|].
           by apply CreateWithProfileByID_missing.
      * erewrite bind_Ret; [reflexivity|].
        erewrite bind_Ret by (unfold get; by rewrite Hprof). done.
    + by erewrite bind_Ret by reflexivity.
Qed.

Lemma SplitPane_without_split_witness :
  _SplitPane SplitAutomatic Manual 2%nat SplitAutomatic false zoomedPage
  = Ret tt zoomedPage.
Proof.
  apply (SplitPane_without_split SplitAutomatic Manual 2%nat SplitAutomatic false zoomedPage).
  right. right. split; [reflexivity|]. exists 0%nat. vm_compute. reflexivity.
Defined.

(** X17. [_CloseFocusedPane] with the settings tab focused closes that
    tab: on an idle page it is [_RemoveTab] on the settings tab, and it
    returns.  With a terminal tab focused it returns and leaves the display
    order, the MRU list and the [TabView] as they are: the tab goes only when
    it reports that it has closed. *)
Theorem CloseFocusedPane_closes_settings_tab
    (warningResult : ContentDialogResult) (tab : TabBase) (p : TerminalPage) :
  page_idle p → SelectedItem (_tabView p) = Some tab →
  ∃ p', _CloseFocusedPane warningResult p = Ret tt p' ∧
    if decide (tab ∈ terminalTabs (_objects p))
    then _tabs p' = _tabs p ∧ _mruTabs p' = _mruTabs p ∧ _tabView p' = _tabView p
    else _RemoveTab tab warningResult p = Ret tt p'.
Proof.
  intros Hidle Hsel. pose proof Hidle as (Hwf & _).
  pose proof Hwf as (Hok & Hitems & Hselok & _).
  destruct (GetFocusedTab_wf p Hitems Hselok) as [_ Himpl]. rewrite Hsel in Himpl.
  unfold _CloseFocusedPane, fire_and_forget, noexcept.
  erewrite bind_Ret by exact Himpl.
  destruct (decide (tab ∈ terminalTabs (_objects p))) as [Hterm|Hterm].
  - destruct (UnZoomIfNeeded_focused p tab) as (p1 & Hr1 & _); [done|].
    assert (_tabs p1 = _tabs p ∧ _mruTabs p1 = _mruTabs p ∧ _tabView p1 = _tabView p)
      as (Ht1 & Hm1 & Hv1).
    { revert Hr1. unfold _UnZoomIfNeeded.
      erewrite bind_Ret by exact Himpl.
      cbv beta iota. erewrite bind_Ret by reflexivity.
      destruct (bool_decide _); intros [= <-]; done. }
    erewrite bind_Ret by exact Hr1. erewrite bind_Ret by reflexivity.
    destruct (bool_decide (tab ∈ readOnlyControls (_objects p1))).
    + destruct (decide (warningResult ≠ Primary)); [by exists p1|].
      erewrite bind_Ret by reflexivity. eexists. split; [reflexivity|]. by cbn.
    + eexists. split; [reflexivity|]. by cbn.
  - erewrite bind_Ret by reflexivity. rewrite Hsel, Hitems.
    unfold selected_ok in Hselok. rewrite Hsel in Hselok.
    apply index_of_elem in Hselok as [k Hk]. unfold IndexOf. rewrite Hk.
    cbn [fmap option_fmap option_map].
    pose proof (index_of_lookup _ _ _ Hk) as Hl.
    erewrite bind_Ret by (by rewrite tabs_GetAt_eq, GetAt_lookup, Hl).
    erewrite bind_Ret by reflexivity. rewrite decide_False by done.
    destruct (decide (tab ∈ readOnlyTabs (_objects p) ∧ warningResult ≠ Primary))
      as [Hdecl|Hgo].
    + rewrite RemoveTab_noop by (by left). by exists p.
    + destruct (RemoveTab_spec tab warningResult (Z.of_nat k) p Hidle)
        as (j & p' & Hr & _).
      { by rewrite GetAt_lookup. }
      { destruct (decide (tab ∈ readOnlyTabs (_objects p))); [|by left].
        destruct (decide (warningResult = Primary)); [by right|tauto]. }
      rewrite Hr. by exists p'.
Qed.

Lemma CloseFocusedPane_closes_settings_tab_witness :
  ∃ p', _CloseFocusedPane DialogNone (exec _OpenSettingsUI oneTabPage) = Ret tt p' ∧
    if decide (1%nat ∈ terminalTabs (_objects (exec _OpenSettingsUI oneTabPage)))
    then _tabs p' = _tabs (exec _OpenSettingsUI oneTabPage) ∧
         _mruTabs p' = _mruTabs (exec _OpenSettingsUI oneTabPage) ∧
         _tabView p' = _tabView (exec _OpenSettingsUI oneTabPage)
    else _RemoveTab 1%nat DialogNone (exec _OpenSettingsUI oneTabPage) = Ret tt p'.
Proof.
  apply (CloseFocusedPane_closes_settings_tab DialogNone 1%nat
           (exec _OpenSettingsUI oneTabPage)).
  - apply (bool_decide_unpack _). vm_compute. exact I.
  - vm_compute. reflexivity.
Defined.

(** The settings tab really goes: one terminal tab is left. *)
Example CloseFocusedPane_on_settings_tab :
  _tabs (exec _OpenSettingsUI oneTabPage) = [0; 1]%nat ∧
  _tabs (exec (_CloseFocusedPane DialogNone) (exec _OpenSettingsUI oneTabPage)) = [0%nat].
Proof. vm_compute. done. Qed.

(** ** Scrolling *)

Lemma int32_wrap z : 2 ^ 31 ≤ z < 2 ^ 32 → to_int32 z = z - 2 ^ 32.
Proof.
  intros ?. unfold to_int32.
  replace (z + 2 ^ 31) with ((z - 2 ^ 31) + 1 * 2 ^ 32) by lia.
  rewrite Z_mod_plus_full, Z.mod_small by lia. lia.
Qed.

Lemma uint32_neg z : 0 < z < 2 ^ 32 → to_uint32 (to_uint32 (-1) * z) = 2 ^ 32 - z.
Proof.
  intros ?. rewrite uint32_minus_one. unfold to_uint32.
  replace ((2 ^ 32 - 1) * z) with ((2 ^ 32 - z) + (z - 1) * 2 ^ 32) by lia.
  rewrite Z_mod_plus_full, Z.mod_small by lia. done.
Qed.

(** X18. The scroll delta, for a [uint32_t] count of rows.  Below [2^31]
    rows the delta is the count, negated for [ScrollUp].  From [2^31] rows on
    the conversion to [int] wraps: a request to scroll down yields a
    negative delta and a request to scroll up a positive one (at exactly
    [2^31] both yield [INT_MIN]). *)
Theorem ComputeScrollDelta_sign (rowsToScroll : Z) :
  0 ≤ rowsToScroll < 2 ^ 32 →
  (rowsToScroll < 2 ^ 31 →
   _ComputeScrollDelta ScrollDown rowsToScroll = rowsToScroll ∧
   _ComputeScrollDelta ScrollUp rowsToScroll = - rowsToScroll) ∧
  (2 ^ 31 ≤ rowsToScroll →
   _ComputeScrollDelta ScrollDown rowsToScroll = rowsToScroll - 2 ^ 32 ∧
   _ComputeScrollDelta ScrollDown rowsToScroll < 0 ∧
   (2 ^ 31 < rowsToScroll →
    _ComputeScrollDelta ScrollUp rowsToScroll = 2 ^ 32 - rowsToScroll ∧
    0 < _ComputeScrollDelta ScrollUp rowsToScroll) ∧
   (rowsToScroll = 2 ^ 31 →
    _ComputeScrollDelta ScrollUp rowsToScroll = - 2 ^ 31)).
Proof.
  intros Hr. unfold _ComputeScrollDelta.
  rewrite (decide_False (P := ScrollDown = ScrollUp)) by done.
  rewrite (decide_True (P := ScrollUp = ScrollUp)) by done.
  split.
  - intros Hlt. split; [apply int32_id; lia|].
    destruct (decide (rowsToScroll = 0)) as [->|Hnz]; [done|].
    rewrite uint32_neg by lia. rewrite int32_wrap by lia. lia.
  - intros Hge. rewrite int32_wrap by lia. split_and!; [done|lia| |].
    + intros Hgt. rewrite uint32_neg by lia. rewrite int32_id by lia. lia.
    + intros ->. done.
Qed.

Lemma ComputeScrollDelta_sign_witness :
  _ComputeScrollDelta ScrollDown (2 ^ 32 - 1) = 2 ^ 32 - 1 - 2 ^ 32 ∧
  _ComputeScrollDelta ScrollDown (2 ^ 32 - 1) < 0 ∧
  (2 ^ 31 < 2 ^ 32 - 1 →
   _ComputeScrollDelta ScrollUp (2 ^ 32 - 1) = 2 ^ 32 - (2 ^ 32 - 1) ∧
   0 < _ComputeScrollDelta ScrollUp (2 ^ 32 - 1)) ∧
  (2 ^ 32 - 1 = 2 ^ 31 →
   _ComputeScrollDelta ScrollUp (2 ^ 32 - 1) = - 2 ^ 31).
Proof.
  destruct (ComputeScrollDelta_sign (2 ^ 32 - 1)) as [_ H]; [lia|].
  apply H. lia.
Defined.

(** X19. The scroll actions.  Without a focused terminal tab none of them
    scrolls, and none changes the page.  With one, [_Scroll] by a given
    count uses that count whatever the system setting; by the system default
    it uses the system's count, or the height of the view when that count is
    [WHEEL_PAGESCROLL], in which case it is [_ScrollPage]; and
    [_ScrollToBufferEdge] scrolls by [INT_MAX] rows, up or down. *)
Theorem scroll_actions
    (wheelPageScroll systemRowsToScroll : Z) (viewHeight : TabBase → Z)
    (scrollDirection : ScrollDirection) (p : TerminalPage) :
  (_GetFocusedTabImpl p = Ret None p →
   (∀ rows, _Scroll wheelPageScroll systemRowsToScroll viewHeight scrollDirection rows p
            = Ret None p) ∧
   _ScrollPage viewHeight scrollDirection p = Ret None p ∧
   _ScrollToBufferEdge scrollDirection p = Ret None p) ∧
  (∀ tab, _GetFocusedTabImpl p = Ret (Some tab) p →
   (∀ rows, _Scroll wheelPageScroll systemRowsToScroll viewHeight scrollDirection
              (Some rows) p
            = Ret (Some (tab, _ComputeScrollDelta scrollDirection rows)) p) ∧
   _Scroll wheelPageScroll systemRowsToScroll viewHeight scrollDirection None p
   = (if decide (systemRowsToScroll = wheelPageScroll)
      then _ScrollPage viewHeight scrollDirection p
      else Ret (Some (tab, _ComputeScrollDelta scrollDirection systemRowsToScroll)) p) ∧
   _ScrollPage viewHeight scrollDirection p
   = Ret (Some (tab, _ComputeScrollDelta scrollDirection (to_uint32 (viewHeight tab)))) p ∧
   _ScrollToBufferEdge scrollDirection p
   = Ret (Some (tab, if decide (scrollDirection = ScrollUp)
                     then - INT_MAX else INT_MAX)) p).
Proof.
  split.
  - intros Hnone. split_and!.
    + intros rows. unfold _Scroll. by erewrite bind_Ret by exact Hnone.
    + unfold _ScrollPage. by erewrite bind_Ret by exact Hnone.
    + unfold _ScrollToBufferEdge. by erewrite bind_Ret by exact Hnone.
  - intros tab Hf.
    assert (_ScrollPage viewHeight scrollDirection p
            = Ret (Some (tab, _ComputeScrollDelta scrollDirection
                                (to_uint32 (viewHeight tab)))) p) as Hpage.
    { unfold _ScrollPage, _GetActiveControl. erewrite bind_Ret by exact Hf.
      cbv beta iota. by erewrite bind_Ret by exact Hf. }
    split_and!.
    + intros rows. unfold _Scroll. by erewrite bind_Ret by exact Hf.
    + unfold _Scroll. erewrite bind_Ret by exact Hf. cbv beta iota zeta.
      destruct (decide (systemRowsToScroll = wheelPageScroll)); [|done].
      by rewrite Hpage.
    + done.
    + unfold _ScrollToBufferEdge. erewrite bind_Ret by exact Hf.
      cbv beta iota zeta. by destruct scrollDirection.
Qed.

Lemma scroll_actions_witness :
   (∀ rows, _Scroll (2 ^ 32 - 1) 3 (λ _, 30) ScrollUp (Some rows) (fourTabs id)
            = Ret (Some (3%nat, _ComputeScrollDelta ScrollUp rows)) (fourTabs id)) ∧
   _Scroll (2 ^ 32 - 1) 3 (λ _, 30) ScrollUp None (fourTabs id)
   = (if decide (3 = 2 ^ 32 - 1)
      then _ScrollPage (λ _, 30) ScrollUp (fourTabs id)
      else Ret (Some (3%nat, _ComputeScrollDelta ScrollUp 3)) (fourTabs id)) ∧
   _ScrollPage (λ _, 30) ScrollUp (fourTabs id)
   = Ret (Some (3%nat, _ComputeScrollDelta ScrollUp (to_uint32 ((λ _, 30) 3%nat))))
       (fourTabs id) ∧
   _ScrollToBufferEdge ScrollUp (fourTabs id)
   = Ret (Some (3%nat, if decide (ScrollUp = ScrollUp)
                       then - INT_MAX else INT_MAX)) (fourTabs id).
Proof.
  destruct (scroll_actions (2 ^ 32 - 1) 3 (λ _, 30) ScrollUp (fourTabs id)) as [_ H].
  apply (H 3%nat). vm_compute. reflexivity.
Defined.

(** ** A tab asked for by the switcher *)

Lemma with_dispatcher_idle l p :
  _dispatcher p = [] → with_dispatcher [] (with_dispatcher l p) = p.
Proof. destruct p; cbn; by intros ->. Qed.

Lemma SelectTab_idle tabIndex tab p (k : bool → M unit) :
  (∀ b, k b = ret tt) →
  page_idle p → GetAt (_tabs p) tabIndex = Some tab →
  ∃ p', ((b <- _SelectTab tabIndex;; k b);;; run_dispatcher) p = Ret tt p' ∧
    page_idle p' ∧ SelectedItem (_tabView p') = Some tab ∧
    _tabs p' = _tabs p ∧
    (SelectedItem (_tabView p) ≠ Some tab → _mruTabs p' = bumpMRU tab (_mruTabs p)) ∧
    (_startupState p ≠ InStartup → SelectedItem (_tabView p) = Some tab → p' = p).
Proof.
  intros Hk Hidle Hget.
  pose proof Hidle as ((Hok & Hitems & Hselok & Hb) & Hrearr & Hrem & Hcp & Hd).
  pose proof Hok as (Hnd & Hperm & Hf)%collection_ok_alt.
  pose proof (GetAt_lt _ _ _ Hget) as Hlt.
  destruct (TabView_SelectedItem_commit tab tabIndex p)
    as (p1 & Hsel & Hc1 & Hcp1 & Hi1 & Hs1 & Hm1 & Hsame); try done.
  assert (_mruTabs p1 ≡ₚ _mruTabs p) as Hperm1.
  { destruct (decide (SelectedItem (_tabView p) = Some tab)) as [He|Hne].
    - by rewrite (Hsame He).
    - rewrite (Hm1 Hne). apply bumpMRU_perm. }
  destruct (core_flags _ _ Hc1) as (Hre1 & Hrm1 & _).
  destruct (core_statics _ _ Hc1) as (_ & _ & Hn1 & _).
  pose proof (core_tabs _ _ Hc1) as Ht1.
  pose proof (core_dispatcher _ _ Hc1) as Hd1.
  rewrite bind_assoc. unfold _SelectTab.
  rewrite bind_assoc. erewrite bind_Ret by reflexivity.
  unfold tabs_Size, get at 1. cbv beta.
  rewrite decide_True by lia. rewrite !bind_assoc.
  erewrite bind_Ret by reflexivity.
  destruct (decide (_startupState p = InStartup)) as [Hs|Hs].
  - rewrite !bind_assoc.
    erewrite bind_Ret by (by rewrite tabs_GetAt_eq, Hget).
    rewrite !bind_assoc.
    erewrite bind_Ret by exact Hsel.
    destruct (UpdatedSelectedTab_full (to_int32 tabIndex) p1) as (p2 & Hupd & Hm2 & Hv2 & Hc2).
    destruct (UpdatedSelectedTab_spec (to_int32 tabIndex) p1) as (p2' & Hupd' & _ & _ & Hcp2).
    rewrite Hupd in Hupd'. injection Hupd' as <-.
    erewrite bind_Ret by exact Hupd.
    repeat first [rewrite Hk | erewrite bind_Ret by reflexivity].
    rewrite run_dispatcher_idle by (rewrite (core_dispatcher _ _ Hc2); congruence).
    destruct (core_flags _ _ Hc2) as (Hre2 & Hrm2 & _).
    destruct (core_statics _ _ Hc2) as (_ & _ & Hn2 & _).
    pose proof (core_tabs _ _ Hc2) as Ht2.
    assert (_mruTabs p2 = bumpMRU tab (_mruTabs p1)) as Hm2'.
    { rewrite Hm2. unfold mruAfterSelected. rewrite int32_id by lia.
      rewrite decide_True by lia. rewrite uint32_id by lia.
      rewrite Ht1, Hget, Hcp1, Hcp. by rewrite decide_True. }
    eexists. split; [reflexivity|]. split_and!.
    + apply (page_idle_moved p); cbn; try done; try congruence.
      * by rewrite Ht2, Ht1.
      * by rewrite Hm2', bumpMRU_perm.
      * unfold selected_ok. cbn. rewrite Hv2, Hs1, Ht2, Ht1.
        by eapply list_elem_of_lookup_2, GetAt_Some.
    + cbn. by rewrite Hv2.
    + cbn. congruence.
    + intros Hne. cbn. by rewrite Hm2', (Hm1 Hne), bumpMRU_idem.
    + done.
  - repeat first [rewrite Hk | erewrite bind_Ret by reflexivity].
    unfold run_dispatcher. erewrite bind_Ret by reflexivity.
    cbn [_dispatcher with_dispatcher]. rewrite Hd. cbn [app].
    erewrite bind_Ret by reflexivity.
    cbn [resume_all resume]. unfold fire_and_forget, noexcept.
    rewrite with_dispatcher_idle by done.
    unfold bind at 1. unfold bind at 1.
    rewrite tabs_GetAt_eq, Hget, Hsel. cbn [ret].
    exists p1. split; [reflexivity|]. split_and!; try done.
    + apply (page_idle_moved p); try done; try congruence.
      * by rewrite Ht1.
      * unfold selected_ok. rewrite Hs1, Ht1.
        by eapply list_elem_of_lookup_2, GetAt_Some.
Qed.

(** X20. Selecting a tab of an idle page, by index with [_SelectTab] or by
    identity with [_OnSwitchToTabRequested], commits: once the dispatcher has
    run the page is idle again, the tab is the selected one, the display
    order is as before and, unless the tab was selected already, the tab has
    moved to the head of the MRU order.  A tab that is not in the display
    order is ignored by [_OnSwitchToTabRequested]. *)
Theorem select_tab_commits (tab : TabBase) (p : TerminalPage) :
  (tab ∉ _tabs p → _OnSwitchToTabRequested tab p = Ret tt p) ∧
  (page_idle p → tab ∈ _tabs p →
   ∃ index p',
     GetAt (_tabs p) index = Some tab ∧
     tick (_OnSwitchToTabRequested tab) p = Ret tt p' ∧
     tick (_ <- _SelectTab index;; ret tt) p = Ret tt p' ∧
     page_idle p' ∧
     SelectedItem (_tabView p') = Some tab ∧
     _tabs p' = _tabs p ∧
     (SelectedItem (_tabView p) ≠ Some tab →
      _mruTabs p' = bumpMRU tab (_mruTabs p))).
Proof.
  split.
  - intros Hn. unfold _OnSwitchToTabRequested.
    erewrite bind_Ret by reflexivity.
    unfold IndexOf. apply index_of_None in Hn. by rewrite Hn.
  - intros Hidle Hin.
    destruct (index_of_elem _ _ Hin) as [j Hj].
    assert (IndexOf (_tabs p) tab = Some (Z.of_nat j)) as Hidx
      by (unfold IndexOf; by rewrite Hj).
    destruct (IndexOf_Some _ _ _ Hidx) as [Hget _].
    destruct (SelectTab_idle (Z.of_nat j) tab p (λ _, ret tt))
      as (p' & Hr & Hidle' & Hs & Ht & Hm & _); try done.
    exists (Z.of_nat j), p'. split_and!; try done.
    unfold tick, _OnSwitchToTabRequested. rewrite bind_assoc.
    erewrite bind_Ret by reflexivity. rewrite Hidx. exact Hr.
Qed.

Lemma select_tab_commits_witness :
  ∃ index p',
    GetAt (_tabs (fourTabs id)) index = Some 3%nat ∧
    tick (_OnSwitchToTabRequested 3%nat) (fourTabs id) = Ret tt p' ∧
    tick (_ <- _SelectTab index;; ret tt) (fourTabs id) = Ret tt p' ∧
    page_idle p' ∧
    SelectedItem (_tabView p') = Some 3%nat ∧
    _tabs p' = _tabs (fourTabs id) ∧
    (SelectedItem (_tabView (fourTabs id)) ≠ Some 3%nat →
     _mruTabs p' = bumpMRU 3%nat (_mruTabs (fourTabs id))).
Proof.
  destruct (select_tab_commits 3%nat (fourTabs id)) as [_ H].
  apply H.
  - apply (bool_decide_unpack _). vm_compute. exact I.
  - apply (bool_decide_unpack _). vm_compute. exact I.
Defined.

(** ** Giving the focus back to the selected tab *)

(** X21. On a page whose [TabView] mirrors the display order and whose
    selected item is a tab, the [Opening] handler of the new-tab flyout
    returns: it focuses the selected tab and moves it to the head of the MRU
    order, and without a selected tab it does nothing.
    [_CommandPaletteClosed] does the same, except that it does nothing at
    all while the new-tab flyout is open.  Neither changes the display order
    or the selection. *)
Theorem focus_returns_to_selected_tab (p : TerminalPage) :
  TabItems (_tabView p) = _tabs p → selected_ok p →
  ∃ p',
    newTabFlyout_Opening p = Ret tt p' ∧
    _CommandPaletteClosed p = Ret tt (if _newTabFlyoutIsOpen p then p else p') ∧
    _tabs p' = _tabs p ∧ _tabView p' = _tabView p ∧
    match SelectedItem (_tabView p) with
    | Some tab =>
        focusedTabs (_objects p') = {[tab]} ∪ focusedTabs (_objects p) ∧
        _mruTabs p' = bumpMRU tab (_mruTabs p)
    | None => p' = p
    end.
Proof.
  intros Hitems Hsel. unfold selected_ok in Hsel.
  assert (∃ p', newTabFlyout_Opening p = Ret tt p' ∧
    _tabs p' = _tabs p ∧ _tabView p' = _tabView p ∧
    match SelectedItem (_tabView p) with
    | Some tab =>
        focusedTabs (_objects p') = {[tab]} ∪ focusedTabs (_objects p) ∧
        _mruTabs p' = bumpMRU tab (_mruTabs p)
    | None => p' = p
    end) as (p' & Hr & Ht & Hv & Hcase).
  { unfold newTabFlyout_Opening. erewrite bind_Ret by reflexivity.
    rewrite Hitems. destruct (SelectedItem (_tabView p)) as [tab|]; [|by eexists].
    apply index_of_elem in Hsel as [k Hk]. unfold IndexOf. rewrite Hk.
    cbn [fmap option_fmap option_map].
    pose proof (index_of_lookup _ _ _ Hk) as Hl.
    erewrite bind_Ret by (by rewrite tabs_GetAt_eq, GetAt_lookup, Hl).
    erewrite bind_Ret by reflexivity.
    rewrite _UpdateMRUTab_eq. cbn [_tabs with_objects]. rewrite GetAt_lookup, Hl.
    eexists. split; [reflexivity|]. by cbn. }
  exists p'. split_and!; try done.
  unfold _CommandPaletteClosed. erewrite bind_Ret by reflexivity.
  destruct (_newTabFlyoutIsOpen p); [done|]. exact Hr.
Qed.

Lemma focus_returns_to_selected_tab_witness :
  ∃ p',
    newTabFlyout_Opening (fourTabs id) = Ret tt p' ∧
    _CommandPaletteClosed (fourTabs id)
      = Ret tt (if _newTabFlyoutIsOpen (fourTabs id) then fourTabs id else p') ∧
    _tabs p' = _tabs (fourTabs id) ∧ _tabView p' = _tabView (fourTabs id) ∧
    match SelectedItem (_tabView (fourTabs id)) with
    | Some tab =>
        focusedTabs (_objects p') = {[tab]} ∪ focusedTabs (_objects (fourTabs id)) ∧
        _mruTabs p' = bumpMRU tab (_mruTabs (fourTabs id))
    | None => p' = fourTabs id
    end.
Proof.
  apply (focus_returns_to_selected_tab (fourTabs id)).
  - vm_compute. reflexivity.
  - apply (bool_decide_unpack _). vm_compute. exact I.
Defined.

(** ** Pasting from the clipboard *)

Lemma existsb_isNewLine text :
  existsb isNewLineLambda text = true ↔ ∃ c, c ∈ text ∧ (c = 10 ∨ c = 13).
Proof.
  rewrite existsb_exists. split.
  - intros (c & Hin%list_elem_of_In & Hc). exists c. split; [done|].
    unfold isNewLineLambda in Hc. apply orb_true_iff in Hc as [Hc|Hc];
      apply bool_decide_eq_true in Hc; auto.
  - intros (c & Hin & Hc). exists c. split; [by apply list_elem_of_In|].
    unfold isNewLineLambda. destruct Hc as [->| ->]; done.
Qed.

(** X22. [_PasteFromClipboardHandler] hands the control the text of the
    clipboard unchanged, or nothing.  With [WarnAboutMultiLinePaste] on, a
    text that holds a line feed or a carriage return reaches the control only
    after the multi-line warning was shown and answered with the primary
    button; with [WarnAboutLargePaste] on, so does a text of more than 5120
    code units, after one of the two warnings.  A text of at most 5120 code
    units without either character is handed over with no dialog, whatever
    the settings. *)
Theorem paste_needs_consent (warnAboutMultiLinePaste warnAboutLargePaste : bool)
    (answer : PasteWarning → ContentDialogResult) (data : DataPackageView) :
  let text := pastedText data in
  let r := _PasteFromClipboardHandler warnAboutMultiLinePaste warnAboutLargePaste
             answer data in
  (po_handled r = None ∨ po_handled r = Some text) ∧
  (warnAboutMultiLinePaste = true → (∃ c, c ∈ text ∧ (c = 10 ∨ c = 13)) →
   po_dialog r = Some MultiLinePasteWarning ∧
   (po_handled r ≠ None → answer MultiLinePasteWarning = Primary)) ∧
  (warnAboutLargePaste = true → Size text > 5120 →
   ∃ w, po_dialog r = Some w ∧ (po_handled r ≠ None → answer w = Primary)) ∧
  ((∀ c, c ∈ text → c ≠ 10 ∧ c ≠ 13) → Size text ≤ 5120 →
   r = {| po_dialog := None; po_handled := Some text |}).
Proof.
  intros text r. subst r. unfold _PasteFromClipboardHandler. fold text.
  destruct (existsb isNewLineLambda text) eqn:Hnl.
  - apply existsb_isNewLine in Hnl as Hex.
    split_and!.
    + repeat case_match; auto.
    + intros -> _. cbn. case_decide as Ha; cbn; [done|].
      split; [done|]. intros _. by destruct (decide (answer MultiLinePasteWarning = Primary)).
    + intros -> Hsz. unfold minimumSizeForWarning.
      rewrite bool_decide_eq_true_2 by lia.
      rewrite andb_true_r, orb_true_r.
      destruct warnAboutMultiLinePaste; cbn; case_decide as Ha; cbn;
        eexists; (split; [reflexivity|]); try done; intros _;
        match goal with |- answer ?w = _ => by destruct (decide (answer w = Primary)) end.
    + intros Hno. destruct Hex as (c & Hin & Hc). destruct (Hno c Hin). lia.
  - assert (¬ ∃ c, c ∈ text ∧ (c = 10 ∨ c = 13)) as Hno
      by (rewrite <-existsb_isNewLine; congruence).
    cbn [andb orb]. split_and!.
    + repeat case_match; auto.
    + intros _ Hex. by destruct Hno.
    + intros -> Hsz. unfold minimumSizeForWarning.
      rewrite bool_decide_eq_true_2 by lia. cbn.
      case_decide as Ha; cbn; eexists; (split; [reflexivity|]); try done.
    + intros _ Hsz. unfold minimumSizeForWarning.
      rewrite bool_decide_eq_false_2 by lia. done.
Qed.

Lemma paste_needs_consent_witness :
  let data := {| dp_Text := Some [108; 115; 10; 112; 119; 100];
                 dp_StorageItems := None |} in
  let r := _PasteFromClipboardHandler true false (λ _, Secondary) data in
  po_dialog r = Some MultiLinePasteWarning ∧
  (po_handled r ≠ None → (λ _ : PasteWarning, Secondary) MultiLinePasteWarning = Primary).
Proof.
  intros data r.
  destruct (paste_needs_consent true false (λ _, Secondary) data) as (_ & H & _).
  apply H.
  - reflexivity.
  - exists 10. split; [|by left]. apply (bool_decide_unpack _). vm_compute. exact I.
Defined.

(** * Focus and content *)

(** [_UpdatedSelectedTab] on the index of a tab. *)
Lemma UpdatedSelectedTab_tab index tab p :
  0 ≤ index < 2 ^ 31 → GetAt (_tabs p) index = Some tab →
  ∃ p', _UpdatedSelectedTab index p = Ret tt p' ∧
    core p' = core p ∧ _tabView p' = _tabView p ∧
    _commandPalette p' = _commandPalette p ∧
    _tabContent p' = Some tab ∧
    if decide (cp_Visibility (_commandPalette p) = Visible)
    then _mruTabs p' = _mruTabs p ∧
         focusedTabs (_objects p') = focusedTabs (_objects p) ∖ list_to_set (_tabs p)
    else _mruTabs p' = bumpMRU tab (_mruTabs p) ∧
         focusedTabs (_objects p')
         = {[tab]} ∪ (focusedTabs (_objects p) ∖ list_to_set (_tabs p)).
Proof.
  intros Hrange Hget. unfold _UpdatedSelectedTab.
  erewrite bind_Ret by reflexivity.
  rewrite decide_True by lia. rewrite uint32_id by lia. unfold CATCH_LOG.
  set (q := with_objects _ p).
  erewrite bind_Ret by (by rewrite tabs_GetAt_eq; cbn [q _tabs with_objects]; rewrite Hget).
  erewrite bind_Ret by reflexivity. erewrite bind_Ret by reflexivity.
  cbn [q _commandPalette with_tabContent with_objects].
  destruct (decide (cp_Visibility (_commandPalette p) = Visible)) as [Hv|Hv].
  - rewrite decide_False by (intros H; by apply H).
    eexists. split; [reflexivity|]. by cbn.
  - rewrite decide_True by done.
    erewrite bind_Ret by reflexivity. rewrite _UpdateMRUTab_eq.
    subst q. cbn. rewrite Hget.
    eexists. split; [reflexivity|]. by cbn.
Qed.

(** Setting the selected item: the three cases. *)
Lemma TabView_SelectedItem_same item p :
  SelectedItem (_tabView p) = Some item → TabView_SelectedItem item p = Ret tt p.
Proof.
  intros He. unfold TabView_SelectedItem. erewrite bind_Ret by reflexivity.
  by rewrite decide_True.
Qed.

Lemma TabView_SelectedItem_quiet item p :
  SelectedItem (_tabView p) ≠ Some item →
  _rearranging p = true ∨ _removing p = true →
  TabView_SelectedItem item p
  = Ret tt (with_tabView (with_SelectedItem (Some item) (_tabView p)) p).
Proof.
  intros Hne Hq. unfold TabView_SelectedItem. erewrite bind_Ret by reflexivity.
  rewrite decide_False by done. erewrite bind_Ret by reflexivity.
  by apply OnTabSelectionChanged_suppressed.
Qed.

Lemma TabView_SelectedItem_fires item i p :
  SelectedItem (_tabView p) ≠ Some item →
  _rearranging p = false → _removing p = false →
  IndexOf (TabItems (_tabView p)) item = Some i →
  TabView_SelectedItem item p
  = _UpdatedSelectedTab i (with_tabView (with_SelectedItem (Some item) (_tabView p)) p).
Proof.
  intros Hne Hr Hrm Hi. unfold TabView_SelectedItem. erewrite bind_Ret by reflexivity.
  rewrite decide_False by done. erewrite bind_Ret by reflexivity.
  unfold _OnTabSelectionChanged.
  erewrite bind_Ret by reflexivity. erewrite bind_Ret by reflexivity.
  cbn [_rearranging _removing with_tabView]. rewrite Hr, Hrm. cbn [negb andb].
  unfold SelectedIndex, _GetFocusedTabIndex. rewrite bind_assoc.
  erewrite bind_Ret by reflexivity. erewrite bind_Ret by reflexivity.
  cbn [_tabView with_tabView SelectedItem TabItems with_SelectedItem].
  by rewrite Hi.
Qed.

(** Selecting a tab of a page at rest focuses it. *)
Lemma TabView_SelectedItem_focus item i p :
  _rearranging p = false → _removing p = false →
  TabItems (_tabView p) = _tabs p → NoDup (_tabs p) → Size (_tabs p) < 2 ^ 31 →
  GetAt (_tabs p) i = Some item →
  SelectedItem (_tabView p) ≠ Some item →
  ∃ p', TabView_SelectedItem item p = Ret tt p' ∧
    core p' = core p ∧ _commandPalette p' = _commandPalette p ∧
    TabItems (_tabView p') = TabItems (_tabView p) ∧
    SelectedItem (_tabView p') = Some item ∧
    _tabContent p' = Some item ∧
    if decide (cp_Visibility (_commandPalette p) = Visible)
    then _mruTabs p' = _mruTabs p ∧
         focusedTabs (_objects p') = focusedTabs (_objects p) ∖ list_to_set (_tabs p)
    else _mruTabs p' = bumpMRU item (_mruTabs p) ∧
         focusedTabs (_objects p')
         = {[item]} ∪ (focusedTabs (_objects p) ∖ list_to_set (_tabs p)).
Proof.
  intros Hr Hrm Hitems Hnd Hb Hget Hne.
  pose proof (GetAt_lt _ _ _ Hget) as Hlt.
  rewrite (TabView_SelectedItem_fires item i) by
    (try done; rewrite Hitems; by apply IndexOf_NoDup).
  set (q := with_tabView _ p).
  destruct (UpdatedSelectedTab_tab i item q) as (p' & Hret & Hc & Hv & Hp & Hct & Hcase);
    [lia|done|].
  exists p'. split; [done|]. rewrite Hv. by split_and!.
Qed.

(** ** The tab that takes over when the focused tab is closed *)

Lemma raise_TabItemsChanged_unselected_view change index p :
  SelectedItem (_tabView p) = None →
  ∃ p', raise_TabItemsChanged change index p = Ret tt p' ∧
    _mruTabs p' = _mruTabs p ∧ _tabView p' = _tabView p ∧ core p' = core p ∧
    _objects p' = _objects p ∧ _tabContent p' = _tabContent p ∧
    cp_Visibility (_commandPalette p') =
      (if RaisesTabItemsChanged (_tabView p) then Collapsed
       else cp_Visibility (_commandPalette p)).
Proof.
  intros Hn. unfold raise_TabItemsChanged.
  erewrite bind_Ret by reflexivity.
  destruct (RaisesTabItemsChanged (_tabView p)); [|by eexists].
  unfold _OnTabItemsChanged. erewrite bind_Ret by reflexivity.
  assert (∀ q, SelectedItem (_tabView q) = None →
    ∃ p', CommandPalette_Visibility Collapsed q = Ret tt p' ∧
      _mruTabs p' = _mruTabs q ∧ _tabView p' = _tabView q ∧ core p' = core q ∧
      _objects p' = _objects q ∧ _tabContent p' = _tabContent q ∧
      cp_Visibility (_commandPalette p') = Collapsed) as Hcp.
  { intros q Hq. unfold CommandPalette_Visibility.
    erewrite bind_Ret by reflexivity.
    destruct (decide (cp_Visibility (_commandPalette q) = Collapsed)); [by eexists|].
    erewrite bind_Ret by reflexivity. rewrite decide_True by done.
    rewrite CommandPaletteClosed_unselected by done. by eexists. }
  destruct (_rearranging p), change.
  - erewrite bind_Ret by reflexivity.
    edestruct Hcp as (p' & -> & ? & ? & ? & ? & ? & ?); [|by exists p']. done.
  - erewrite bind_Ret by reflexivity.
    edestruct Hcp as (p' & -> & ? & ? & ? & ? & ? & ?); [|by exists p']. done.
  - erewrite bind_Ret by reflexivity. by apply Hcp.
  - erewrite bind_Ret by reflexivity. by apply Hcp.
Qed.

(** Removing the selected item while a removal is under way: no handler of
    the selection runs. *)
Lemma TabItems_RemoveAt_removing index tab p :
  GetAt (TabItems (_tabView p)) index = Some tab →
  SelectedItem (_tabView p) = Some tab → _removing p = true →
  ∃ p', TabItems_RemoveAt index p = Ret tt p' ∧
    _mruTabs p' = _mruTabs p ∧ core p' = core p ∧
    TabItems (_tabView p') = delete (Z.to_nat index) (TabItems (_tabView p)) ∧
    SelectedItem (_tabView p') = None ∧
    _objects p' = _objects p ∧ _tabContent p' = _tabContent p ∧
    cp_Visibility (_commandPalette p') =
      (if RaisesTabItemsChanged (_tabView p) then Collapsed
       else cp_Visibility (_commandPalette p)).
Proof.
  intros Hget Hsel Hrm. pose proof (GetAt_lt _ _ _ Hget) as Hlt.
  unfold TabItems_RemoveAt.
  erewrite bind_Ret by reflexivity. rewrite Hget.
  erewrite bind_Ret by reflexivity.
  unfold RemoveAt. rewrite decide_True by done.
  erewrite bind_Ret by reflexivity. erewrite bind_Ret by reflexivity.
  erewrite bind_Ret by reflexivity.
  cbn [_tabView with_tabView SelectedItem with_TabItems].
  rewrite Hsel, decide_True by done. rewrite bind_assoc.
  erewrite bind_Ret by reflexivity.
  erewrite bind_Ret by (apply OnTabSelectionChanged_suppressed; by right).
  match goal with |- context [raise_TabItemsChanged _ _ ?q] =>
    destruct (raise_TabItemsChanged_unselected_view ItemRemoved index q)
      as (q2 & Hr2 & Hm2 & Hv2 & Hc2 & Ho2 & Hct2 & Hp2)
  end; [done|].
  exists q2. split; [done|]. rewrite Hm2, Hc2, Hv2, Ho2, Hct2, Hp2. done.
Qed.

Lemma remove_tail_view q :
  ∃ q', (rearranging <- get _rearranging;;
         if rearranging then
           modify (with_rearranging false);;;
           modify (with_rearrangeFrom None);;;
           modify (with_rearrangeTo None)
         else ret tt) q = Ret tt q' ∧
    _tabs q' = _tabs q ∧ _mruTabs q' = _mruTabs q ∧ _tabView q' = _tabView q ∧
    _objects q' = _objects q ∧ _tabContent q' = _tabContent q.
Proof.
  erewrite bind_Ret by reflexivity. destruct (_rearranging q); by eexists.
Qed.

(** C3 (amended). When the selected tab, at display index i, is removed and
    tabs remain, the replacement is the tab that heads the MRU list after the
    removal in MostRecentlyUsed mode, and the tab at index
    clamp(i - 1, 0, count - 1) of the display order in the other modes, count
    being the number of tabs after the removal.  The replacement becomes the
    selected item and its content is shown.  It is also focused, as the only
    focused tab of the page, and heads the MRU list, unless the command
    palette is showing when [_UpdatedSelectedTab] runs, which is the case
    when the palette is visible and the [TabView] does not raise
    [TabItemsChanged]: then no tab of the page is focused, and the MRU list
    has only lost the removed tab. *)
Theorem C3_focus_replacement_on_remove
    (p : TerminalPage) (tab : TabBase) (i : Z) (warningResult : ContentDialogResult) :
  page_wf p →
  GetAt (_tabs p) i = Some tab →
  SelectedItem (_tabView p) = Some tab →
  2 ≤ Size (_tabs p) →
  tab ∉ readOnlyTabs (_objects p) ∨ warningResult = Primary →
  ∃ p' newTab j,
    _RemoveTab tab warningResult p = Ret tt p' ∧
    _tabs p' = delete (Z.to_nat i) (_tabs p) ∧
    _mruTabs p !! j = Some tab ∧
    (if decide (GlobalTabSwitcherMode (_settings p) = MostRecentlyUsed)
     then GetAt (delete j (_mruTabs p)) 0 = Some newTab
     else GetAt (_tabs p') (clamp (i - 1) 0 (Size (_tabs p') - 1)) = Some newTab) ∧
    SelectedItem (_tabView p') = Some newTab ∧
    _tabContent p' = Some newTab ∧
    if decide (cp_Visibility (_commandPalette p) = Visible ∧
               RaisesTabItemsChanged (_tabView p) = false)
    then _mruTabs p' = delete j (_mruTabs p) ∧
         ∀ t, t ∈ _tabs p' → t ∉ focusedTabs (_objects p')
    else _mruTabs p' = bumpMRU newTab (delete j (_mruTabs p)) ∧
         GetAt (_mruTabs p') 0 = Some newTab ∧
         ∀ t, t ∈ _tabs p' → t ∈ focusedTabs (_objects p') ↔ t = newTab.
Proof.
  intros (Hok & Hitems & _ & Hb) Hget Hsel Hsize Hro.
  pose proof (GetAt_lt _ _ _ Hget) as Hrange.
  pose proof Hok as (Hnd & Hperm & Hf)%collection_ok_alt.
  pose proof (IndexOf_NoDup _ _ _ Hnd Hget) as Hi.
  apply GetAt_Some in Hget as [_ Hget].
  assert (tab ∈ _mruTabs p) as [j Hj]%index_of_elem.
  { rewrite Hperm. by eapply list_elem_of_lookup_2. }
  pose proof (index_of_lt _ _ _ Hj) as Hjlt.
  pose proof (index_of_lookup _ _ _ Hj) as Hjl.
  set (tabs' := delete (Z.to_nat i) (_tabs p)).
  set (mru' := delete j (_mruTabs p)).
  assert (mru' ≡ₚ tabs') as Hperm' by (by eapply delete_both_perm).
  assert (Size tabs' = Size (_tabs p) - 1) as Hsize'.
  { apply Size_delete. unfold Size in Hrange. lia. }
  (* what the focus is, once [_UpdatedSelectedTab] has run on [q1] *)
  assert (∀ q1 q2 newTab,
    _tabs q1 = tabs' → _mruTabs q1 = mru' → newTab ∈ tabs' →
    cp_Visibility (_commandPalette q1) =
      (if RaisesTabItemsChanged (_tabView p) then Collapsed
       else cp_Visibility (_commandPalette p)) →
    (if decide (cp_Visibility (_commandPalette q1) = Visible)
     then _mruTabs q2 = _mruTabs q1 ∧
          focusedTabs (_objects q2) = focusedTabs (_objects q1) ∖ list_to_set (_tabs q1)
     else _mruTabs q2 = bumpMRU newTab (_mruTabs q1) ∧
          focusedTabs (_objects q2)
          = {[newTab]} ∪ (focusedTabs (_objects q1) ∖ list_to_set (_tabs q1))) →
    if decide (cp_Visibility (_commandPalette p) = Visible ∧
               RaisesTabItemsChanged (_tabView p) = false)
    then _mruTabs q2 = mru' ∧ ∀ t, t ∈ tabs' → t ∉ focusedTabs (_objects q2)
    else _mruTabs q2 = bumpMRU newTab mru' ∧
         GetAt (_mruTabs q2) 0 = Some newTab ∧
         ∀ t, t ∈ tabs' → t ∈ focusedTabs (_objects q2) ↔ t = newTab) as Hfocus.
  { intros q1 q2 newTab Ht1 Hm1 Hin Hvis Hcase.
    rewrite Ht1, Hm1 in Hcase.
    destruct (decide (cp_Visibility (_commandPalette p) = Visible ∧
                      RaisesTabItemsChanged (_tabView p) = false)) as [[Hv Hra]|Hnot].
    - rewrite Hra, Hv in Hvis. rewrite decide_True in Hcase by done.
      destruct Hcase as [-> ->]. split; [done|].
      intros t Ht. rewrite elem_of_difference, elem_of_list_to_set. tauto.
    - rewrite decide_False in Hcase; last first.
      { rewrite Hvis. destruct (RaisesTabItemsChanged (_tabView p)); [done|].
        intros Hv. by apply Hnot. }
      destruct Hcase as [-> ->]. split; [done|]. split.
      + destruct (bumpMRU_cons newTab mru') as [rest ->]; [by rewrite Hperm'|done].
      + intros t Ht. rewrite elem_of_union, elem_of_singleton,
          elem_of_difference, elem_of_list_to_set. split; [tauto|]. intros ->. by left. }
  unfold _RemoveTab. erewrite bind_Ret by reflexivity.
  assert (bool_decide (tab ∈ readOnlyTabs (_objects p))
          && negb (bool_decide (warningResult = Primary)) = false) as ->.
  { destruct Hro as [Hn| ->].
    - by rewrite bool_decide_eq_false_2.
    - rewrite (bool_decide_eq_true_2 (Primary = Primary)) by done.
      by rewrite andb_false_r. }
  erewrite bind_Ret by reflexivity. cbn [_tabs]. rewrite Hi.
  erewrite bind_Ret by reflexivity. unfold scope_exit.
  erewrite bind_Ret by reflexivity.
  cbn [_tabView with_removing]. rewrite Hsel, Hitems, Hi.
  erewrite bind_Ret by reflexivity. erewrite bind_Ret by reflexivity.
  cbn [_mruTabs with_objects with_removing]. unfold IndexOf at 1. rewrite Hj.
  cbn [fmap option_fmap option_map].
  erewrite bind_Ret; last first.
  { apply mruTabs_RemoveAt_Ret. cbn [_mruTabs with_objects with_removing].
    unfold Size. lia. }
  erewrite bind_Ret; last first.
  { apply tabs_RemoveAt_Ret. cbn [_tabs with_mruTabs with_objects with_removing]. lia. }
  cbn [_tabs _mruTabs with_mruTabs with_objects with_removing].
  rewrite Nat2Z.id. fold tabs' mru'.
  match goal with |- context [bind (TabItems_RemoveAt _) _ ?q] => set (q0 := q) end.
  destruct (TabItems_RemoveAt_removing i tab q0)
    as (q1 & Hr1 & Hm1 & Hc1 & Hi1 & Hs1 & Ho1 & Hct1 & Hp1).
  { subst q0. cbn. rewrite Hitems. apply GetAt_Some. split; [lia|done]. }
  { done. }
  { done. }
  erewrite bind_Ret by exact Hr1.
  assert (_tabs q1 = tabs') as Ht1 by (by rewrite (core_tabs _ _ Hc1)).
  assert (_mruTabs q1 = mru') as Hmq1 by (by rewrite Hm1).
  assert (cp_Visibility (_commandPalette q1) =
            (if RaisesTabItemsChanged (_tabView p) then Collapsed
             else cp_Visibility (_commandPalette p))) as Hvis1 by (by rewrite Hp1).
  destruct (core_flags _ _ Hc1) as (_ & Hrm1 & _ & _ & Hset1 & _).
  erewrite bind_Ret by reflexivity. unfold tabs_Size, get at 1. cbv beta.
  rewrite Ht1. rewrite decide_False by lia. rewrite decide_True by done.
  rewrite !bind_assoc. erewrite bind_Ret by reflexivity.
  rewrite Hset1. cbn [_settings q0 with_tabs with_mruTabs with_objects with_removing].
  destruct (decide (GlobalTabSwitcherMode (_settings p) = MostRecentlyUsed)) as [Hmode|Hmode].
  - (* MostRecentlyUsed: the head of the MRU list *)
    assert (1 ≤ Size mru') as Hsm.
    { unfold Size in *. rewrite Hperm'. lia. }
    destruct (GetAt_is_Some mru' 0) as [t0 Ht0]; [lia|].
    rewrite !bind_assoc.
    erewrite bind_Ret by (by rewrite mruTabs_GetAt_eq, Hmq1, Ht0).
    rewrite !bind_assoc. erewrite bind_Ret by reflexivity.
    assert (t0 ∈ tabs') as Hin0.
    { rewrite <-Hperm'. apply GetAt_Some in Ht0 as [_ Hl].
      by eapply list_elem_of_lookup_2. }
    pose proof Hin0 as [k Hk]%index_of_elem.
    unfold IndexOf. rewrite Ht1, Hk. cbn [fmap option_fmap option_map].
    pose proof (index_of_lt _ _ _ Hk) as Hklt.
    pose proof (index_of_lookup _ _ _ Hk) as Hkl.
    rewrite !bind_assoc. unfold Size in Hsize', Hb.
    rewrite int32_id by lia.
    destruct (UpdatedSelectedTab_tab (Z.of_nat k) t0 q1)
      as (q2 & Hr2 & Hc2 & Hv2 & Hp2 & Hct2 & Hcase2).
    { lia. }
    { by rewrite Ht1, GetAt_lookup. }
    erewrite bind_Ret by exact Hr2.
    destruct (core_flags _ _ Hc2) as (_ & Hrm2 & _).
    erewrite bind_Ret; last first.
    { apply TabView_SelectedItem_quiet;
        [by rewrite Hv2, Hs1 | right; by rewrite Hrm2, Hrm1]. }
    match goal with |- context [bind (get _rearranging) _ ?q] =>
      destruct (remove_tail_view q) as (q4 & Hr4 & Ht4 & Hm4 & Hv4 & Ho4 & Hct4)
    end.
    rewrite Hr4.
    eexists _, t0, j. split; [reflexivity|]. fold tabs' mru'.
    cbn [_tabs _tabView _mruTabs _tabContent _objects with_removing].
    rewrite Ht4, Hv4, Hct4, Hm4, Ho4.
    cbn [_tabs _tabView _tabContent _mruTabs _objects with_tabView SelectedItem
         with_SelectedItem].
    rewrite (core_tabs _ _ Hc2), Ht1, Hct2.
    split_and!; try done.
    by apply (Hfocus q1 q2).
  - (* the other modes: the tab to the left *)
    rewrite !bind_assoc.
    erewrite bind_Ret; last first.
    { apply std_clamp_Ret. rewrite int32_id; lia. }
    rewrite (left_index_clamp i (Size tabs')) by lia.
    pose proof (clamp_range (i - 1) 0 (Size tabs' - 1)) as Hcl.
    set (n := clamp (i - 1) 0 (Size tabs' - 1)) in *.
    rewrite !bind_assoc.
    destruct (GetAt_is_Some tabs' n) as [t1 Ht1']; [lia|].
    assert (t1 ∈ tabs') as Hin1.
    { apply GetAt_Some in Ht1' as [_ Hl]. by eapply list_elem_of_lookup_2. }
    destruct (UpdatedSelectedTab_tab n t1 q1)
      as (q2 & Hr2 & Hc2 & Hv2 & Hp2 & Hct2 & Hcase2).
    { lia. }
    { by rewrite Ht1. }
    erewrite bind_Ret by exact Hr2.
    assert (_tabs q2 = tabs') as Ht2 by (by rewrite (core_tabs _ _ Hc2)).
    rewrite !bind_assoc.
    erewrite bind_Ret by (by rewrite tabs_GetAt_eq, Ht2, uint32_id, Ht1' by lia).
    destruct (core_flags _ _ Hc2) as (_ & Hrm2 & _).
    erewrite bind_Ret; last first.
    { apply TabView_SelectedItem_quiet;
        [by rewrite Hv2, Hs1 | right; by rewrite Hrm2, Hrm1]. }
    match goal with |- context [bind (get _rearranging) _ ?q] =>
      destruct (remove_tail_view q) as (q4 & Hr4 & Ht4 & Hm4 & Hv4 & Ho4 & Hct4)
    end.
    rewrite Hr4.
    eexists _, t1, j. split; [reflexivity|]. fold tabs' mru'.
    cbn [_tabs _tabView _mruTabs _tabContent _objects with_removing].
    rewrite Ht4, Hv4, Hct4, Hm4, Ho4.
    cbn [_tabs _tabView _tabContent _mruTabs _objects with_tabView SelectedItem
         with_SelectedItem].
    rewrite Ht2, Hct2.
    split_and!; try done.
    by apply (Hfocus q1 q2).
Qed.

Lemma C3_witness :
  ∃ p' newTab j,
    _RemoveTab 3%nat DialogNone (fourTabs id) = Ret tt p' ∧
    _tabs p' = delete (Z.to_nat 3) (_tabs (fourTabs id)) ∧
    _mruTabs (fourTabs id) !! j = Some 3%nat ∧
    (if decide (GlobalTabSwitcherMode (_settings (fourTabs id)) = MostRecentlyUsed)
     then GetAt (delete j (_mruTabs (fourTabs id))) 0 = Some newTab
     else GetAt (_tabs p') (clamp (3 - 1) 0 (Size (_tabs p') - 1)) = Some newTab) ∧
    SelectedItem (_tabView p') = Some newTab ∧
    _tabContent p' = Some newTab ∧
    if decide (cp_Visibility (_commandPalette (fourTabs id)) = Visible ∧
               RaisesTabItemsChanged (_tabView (fourTabs id)) = false)
    then _mruTabs p' = delete j (_mruTabs (fourTabs id)) ∧
         ∀ t, t ∈ _tabs p' → t ∉ focusedTabs (_objects p')
    else _mruTabs p' = bumpMRU newTab (delete j (_mruTabs (fourTabs id))) ∧
         GetAt (_mruTabs p') 0 = Some newTab ∧
         ∀ t, t ∈ _tabs p' → t ∈ focusedTabs (_objects p') ↔ t = newTab.
Proof.
  apply (C3_focus_replacement_on_remove (fourTabs id) 3%nat 3 DialogNone).
  - apply (bool_decide_unpack _). vm_compute. exact I.
  - vm_compute. reflexivity.
  - vm_compute. reflexivity.
  - vm_compute. discriminate.
  - left. apply (bool_decide_unpack _). vm_compute. exact I.
Defined.

(** C3, as stated, fails when the command palette is showing and the
    [TabView] does not raise [TabItemsChanged]: with the tabs 0 1 2 3 and tab
    3 selected, closing tab 3 makes tab 2 the selected item and shows its
    content, but tab 2 is not focused and the MRU list is 2 1 0 only because
    tab 3 left it. *)
Lemma C3_counterexample :
  _tabs paletteShownPage = [0; 1; 2; 3]%nat ∧
  SelectedItem (_tabView paletteShownPage) = Some 3%nat ∧
  cp_Visibility (_commandPalette paletteShownPage) = Visible ∧
  _tabs (exec (_RemoveTab 3%nat DialogNone) paletteShownPage) = [0; 1; 2]%nat ∧
  SelectedItem (_tabView (exec (_RemoveTab 3%nat DialogNone) paletteShownPage))
    = Some 2%nat ∧
  2%nat ∉ focusedTabs (_objects (exec (_RemoveTab 3%nat DialogNone) paletteShownPage)) ∧
  2%nat ∈ focusedTabs (_objects (exec (_RemoveTab 3%nat DialogNone) (fourTabs id))).
Proof.
  split_and!; try (vm_compute; reflexivity);
    apply (bool_decide_unpack _); vm_compute; exact I.
Qed.

(** ** A selection that commits the focus *)

Lemma SelectTab_commits_focus tabIndex tab p (k : bool → M unit) :
  (∀ b, k b = ret tt) →
  page_idle p → GetAt (_tabs p) tabIndex = Some tab →
  SelectedItem (_tabView p) ≠ Some tab ∨ _startupState p = InStartup →
  ∃ p', ((b <- _SelectTab tabIndex;; k b);;; run_dispatcher) p = Ret tt p' ∧
    _commandPalette p' = _commandPalette p ∧
    _tabContent p' = Some tab ∧
    _mruTabs p' = bumpMRU tab (_mruTabs p) ∧
    focusedTabs (_objects p')
    = {[tab]} ∪ (focusedTabs (_objects p) ∖ list_to_set (_tabs p)).
Proof.
  intros Hk Hidle Hget Hcommit.
  pose proof Hidle as ((Hok & Hitems & Hselok & Hb) & Hrearr & Hrem & Hcp & Hd).
  pose proof Hok as (Hnd & Hperm & Hf)%collection_ok_alt.
  pose proof (GetAt_lt _ _ _ Hget) as Hlt.
  assert (tab ∈ _tabs p) as Hin.
  { apply GetAt_Some in Hget as [_ Hl]. by eapply list_elem_of_lookup_2. }
  assert (cp_Visibility (_commandPalette p) ≠ Visible) as Hnv by (by rewrite Hcp).
  rewrite bind_assoc. unfold _SelectTab.
  rewrite bind_assoc. erewrite bind_Ret by reflexivity.
  unfold tabs_Size, get at 1. cbv beta.
  rewrite decide_True by lia. rewrite !bind_assoc.
  erewrite bind_Ret by reflexivity.
  destruct (decide (_startupState p = InStartup)) as [Hs|Hs].
  - rewrite !bind_assoc.
    erewrite bind_Ret by (by rewrite tabs_GetAt_eq, Hget).
    rewrite !bind_assoc. rewrite int32_id by lia.
    assert (∃ p1, TabView_SelectedItem tab p = Ret tt p1 ∧
              core p1 = core p ∧ _commandPalette p1 = _commandPalette p ∧
              (_mruTabs p1 = _mruTabs p ∨ _mruTabs p1 = bumpMRU tab (_mruTabs p)) ∧
              (focusedTabs (_objects p1) = focusedTabs (_objects p) ∨
               focusedTabs (_objects p1)
               = {[tab]} ∪ (focusedTabs (_objects p) ∖ list_to_set (_tabs p))))
      as (p1 & Hr1 & Hc1 & Hp1 & Hm1 & Hf1).
    { destruct (decide (SelectedItem (_tabView p) = Some tab)) as [He|Hne].
      - exists p. rewrite TabView_SelectedItem_same by done. split_and!; auto.
      - destruct (TabView_SelectedItem_focus tab tabIndex p)
          as (p1 & Hr1 & Hc1 & Hp1 & _ & _ & _ & Hcase); try done.
        rewrite decide_False in Hcase by done. destruct Hcase as [Hm1 Hf1].
        exists p1. split_and!; auto. }
    erewrite bind_Ret by exact Hr1.
    destruct (UpdatedSelectedTab_tab tabIndex tab p1)
      as (p2 & Hr2 & Hc2 & Hv2 & Hp2 & Hct2 & Hcase2).
    { lia. }
    { by rewrite (core_tabs _ _ Hc1). }
    erewrite bind_Ret by exact Hr2.
    repeat first [rewrite Hk | erewrite bind_Ret by reflexivity].
    rewrite run_dispatcher_idle
      by (rewrite (core_dispatcher _ _ Hc2), (core_dispatcher _ _ Hc1); done).
    rewrite decide_False in Hcase2 by (by rewrite Hp1).
    destruct Hcase2 as [Hm2 Hf2]. rewrite (core_tabs _ _ Hc1) in Hf2.
    eexists. split; [reflexivity|]. cbn. split_and!.
    + congruence.
    + done.
    + rewrite Hm2. destruct Hm1 as [-> | ->]; [done|apply bumpMRU_idem].
    + rewrite Hf2. destruct Hf1 as [-> | ->]; [done|].
      apply set_eq. intros t.
      rewrite !elem_of_union, !elem_of_difference, !elem_of_union,
        !elem_of_difference, elem_of_singleton, elem_of_list_to_set.
      split; [tauto|]. intros [->|[? ?]]; tauto.
  - destruct Hcommit as [Hne|?]; [|done].
    repeat first [rewrite Hk | erewrite bind_Ret by reflexivity].
    unfold run_dispatcher. erewrite bind_Ret by reflexivity.
    cbn [_dispatcher with_dispatcher]. rewrite Hd. cbn [app].
    erewrite bind_Ret by reflexivity.
    cbn [resume_all resume]. unfold fire_and_forget, noexcept.
    rewrite with_dispatcher_idle by done.
    destruct (TabView_SelectedItem_focus tab tabIndex p)
      as (p1 & Hr1 & Hc1 & Hp1 & _ & _ & Hct1 & Hcase); try done.
    rewrite decide_False in Hcase by done. destruct Hcase as [Hm1 Hf1].
    unfold bind at 1. unfold bind at 1.
    rewrite tabs_GetAt_eq, Hget, Hr1. cbn [ret].
    exists p1. by split_and!.
Qed.

Lemma next_index_moves (bMoveRight : bool) N i :
  2 ≤ N → 0 ≤ i < N → (i + (if bMoveRight then 1 else -1) + N) `mod` N ≠ i.
Proof.
  intros HN Hi Heq.
  pose proof (Z.div_mod (i + (if bMoveRight then 1 else -1) + N) N ltac:(lia)) as Hdm.
  rewrite Heq in Hdm.
  set (q := (i + (if bMoveRight then 1 else -1) + N) `div` N) in *.
  assert (q - 1 = 0 ∨ 1 ≤ q - 1 ∨ q - 1 ≤ -1) as [?|[?|?]] by lia;
    destruct bMoveRight; nia.
Qed.

(** C6 (amended). With the tab switcher disabled, on a page at rest (no
    tab drag and no removal under way, command palette collapsed) with N >= 1
    tabs and the focus on index i, a next or previous tab request commits the
    focus to the tab at display index (i + 1 + N) mod N or (i - 1 + N) mod N:
    once the dispatcher has run (at once during startup) that tab is the
    selected item and, with two tabs or more, its content is shown, it is the
    only focused tab of the page and it has moved to the head of the MRU
    list.  The display order and the command palette are as before: no
    switcher session is opened.  With one tab the tab is the current one and,
    outside startup, the request leaves the page as it is. *)
Theorem C6_disabled_next_tab_commits
    (bMoveRight : bool) (customTabSwitcherMode : option TabSwitcherMode)
    (p : TerminalPage) (i : Z) (current : TabBase) :
  page_idle p →
  default (GlobalTabSwitcherMode (_settings p)) customTabSwitcherMode = Disabled →
  GetAt (_tabs p) i = Some current →
  SelectedItem (_tabView p) = Some current →
  let N := Size (_tabs p) in
  let newIndex := (i + (if bMoveRight then 1 else -1) + N) `mod` N in
  ∃ p' tab,
    tick (_SelectNextTab bMoveRight customTabSwitcherMode) p = Ret tt p' ∧
    GetAt (_tabs p) newIndex = Some tab ∧
    page_idle p' ∧
    SelectedItem (_tabView p') = Some tab ∧
    _tabs p' = _tabs p ∧
    _commandPalette p' = _commandPalette p ∧
    (2 ≤ N →
     tab ≠ current ∧
     _tabContent p' = Some tab ∧
     _mruTabs p' = bumpMRU tab (_mruTabs p) ∧
     ∀ t, t ∈ _tabs p → t ∈ focusedTabs (_objects p') ↔ t = tab) ∧
    (N = 1 → tab = current ∧ (_startupState p ≠ InStartup → p' = p)).
Proof.
  intros Hidle Hmode Hcur Hsel N newIndex.
  pose proof Hidle as ((Hok & Hitems & Hselok & Hb) & Hrearr & Hrem & Hcp & Hd).
  pose proof Hok as (Hnd & Hperm & Hf)%collection_ok_alt.
  pose proof (GetAt_lt _ _ _ Hcur) as Hi. fold N in Hi.
  assert (1 ≤ N < 2 ^ 31) as HS by (subst N; lia).
  assert (0 ≤ newIndex < N) as Hnew by (apply Z.mod_pos_bound; lia).
  destruct (GetAt_is_Some (_tabs p) newIndex Hnew) as [tab Htab].
  assert (_GetFocusedTabIndex p = Ret (Some i) p) as Hfocus.
  { unfold _GetFocusedTabIndex, get. rewrite Hsel, Hitems.
    by rewrite (IndexOf_NoDup _ _ _ Hnd Hcur). }
  assert (tick (_SelectNextTab bMoveRight customTabSwitcherMode) p
          = ((b <- _SelectTab newIndex;; (λ _, ret tt) b);;; run_dispatcher) p) as Hrun.
  { unfold tick, _SelectNextTab.
    rewrite !bind_assoc. erewrite bind_Ret by exact Hfocus.
    rewrite !bind_assoc. erewrite bind_Ret by reflexivity.
    rewrite Hmode. rewrite decide_True by done.
    rewrite !bind_assoc. erewrite bind_Ret by reflexivity.
    fold N. rewrite decide_False by lia.
    change (default 0 (Some i)) with i.
    rewrite next_index_arith by lia.
    by rewrite !bind_assoc. }
  destruct (SelectTab_idle newIndex tab p (λ _, ret tt))
    as (p' & Hr & Hidle' & Hs' & Ht' & _ & Hsame); try done.
  assert (_commandPalette p' = _commandPalette p) as Hpal.
  { destruct Hidle' as (_ & _ & _ & Hcp' & _).
    destruct (decide (_startupState p = InStartup)) as [Hst|Hst].
    - destruct (SelectTab_commits_focus newIndex tab p (λ _, ret tt))
        as (p'' & Hr'' & Hp'' & _); try done; [by right|].
      rewrite Hr in Hr''. by injection Hr'' as <-.
    - destruct (decide (SelectedItem (_tabView p) = Some tab)) as [He|Hne].
      + by rewrite (Hsame Hst He).
      + destruct (SelectTab_commits_focus newIndex tab p (λ _, ret tt))
          as (p'' & Hr'' & Hp'' & _); try done; [by left|].
        rewrite Hr in Hr''. by injection Hr'' as <-. }
  exists p', tab. rewrite Hrun. split_and!; try done.
  - intros HN.
    assert (tab ≠ current) as Hne.
    { intros ->. apply GetAt_Some in Htab as [_ Hl1]. apply GetAt_Some in Hcur as [_ Hl2].
      pose proof (NoDup_lookup _ _ _ _ Hnd Hl1 Hl2) as Heq.
      apply (next_index_moves bMoveRight N i); [done|lia|]. fold newIndex. lia. }
    destruct (SelectTab_commits_focus newIndex tab p (λ _, ret tt))
      as (p'' & Hr'' & _ & Hct & Hm & Hfoc); try done.
    { left. rewrite Hsel. congruence. }
    rewrite Hr in Hr''. injection Hr'' as <-.
    split_and!; try done.
    intros t Ht. rewrite Hfoc, elem_of_union, elem_of_singleton,
      elem_of_difference, elem_of_list_to_set. split; [tauto|]. intros ->. by left.
  - intros HN1.
    assert (newIndex = i ∧ i = 0) as [Hni Hi0].
    { clear -HN1 Hi Hnew. lia. }
    assert (tab = current) as -> by (rewrite Hni in Htab; congruence).
    split; [done|]. intros Hst. by apply Hsame.
Qed.

Lemma C6_witness :
  let N := Size (_tabs disabledPage) in
  let newIndex := (3 + (if true then 1 else -1) + N) `mod` N in
  ∃ p' tab,
    tick (_SelectNextTab true None) disabledPage = Ret tt p' ∧
    GetAt (_tabs disabledPage) newIndex = Some tab ∧
    page_idle p' ∧
    SelectedItem (_tabView p') = Some tab ∧
    _tabs p' = _tabs disabledPage ∧
    _commandPalette p' = _commandPalette disabledPage ∧
    (2 ≤ N →
     tab ≠ 3%nat ∧
     _tabContent p' = Some tab ∧
     _mruTabs p' = bumpMRU tab (_mruTabs disabledPage) ∧
     ∀ t, t ∈ _tabs disabledPage → t ∈ focusedTabs (_objects p') ↔ t = tab) ∧
    (N = 1 → tab = 3%nat ∧ (_startupState disabledPage ≠ InStartup → p' = disabledPage)).
Proof.
  apply (C6_disabled_next_tab_commits true None disabledPage 3 3%nat).
  - apply (bool_decide_unpack _). vm_compute. exact I.
  - vm_compute. reflexivity.
  - vm_compute. reflexivity.
  - vm_compute. reflexivity.
Defined.

(** C6, as stated, fails while a tab is dragged: with the switcher
    disabled, the tabs 0 1 2 3 and tab 3 focused, a next-tab request makes tab
    0 the selected item, but the focus stays on tab 3, whose content is still
    shown, and the MRU list is still 3 2 1 0.  On the page at rest the same
    request focuses tab 0 and makes the MRU list 0 3 2 1. *)
Lemma C6_counterexample :
  _rearranging dragDisabledPage = true ∧
  SelectedItem (_tabView dragDisabledPage) = Some 3%nat ∧
  SelectedItem (_tabView (exec (tick (_SelectNextTab true None)) dragDisabledPage))
    = Some 0%nat ∧
  _tabContent (exec (tick (_SelectNextTab true None)) dragDisabledPage) = Some 3%nat ∧
  _mruTabs (exec (tick (_SelectNextTab true None)) dragDisabledPage) = [3; 2; 1; 0]%nat ∧
  0%nat ∉ focusedTabs (_objects (exec (tick (_SelectNextTab true None)) dragDisabledPage)) ∧
  3%nat ∈ focusedTabs (_objects (exec (tick (_SelectNextTab true None)) dragDisabledPage)) ∧
  _mruTabs (exec (tick (_SelectNextTab true None)) disabledPage) = [0; 3; 2; 1]%nat ∧
  0%nat ∈ focusedTabs (_objects (exec (tick (_SelectNextTab true None)) disabledPage)).
Proof.
  split_and!; try (vm_compute; reflexivity);
    apply (bool_decide_unpack _); vm_compute; exact I.
Qed.

(** ** Moving a tab *)

Lemma bumpMRU_fixed tab mru :
  tab ∈ mru → bumpMRU tab mru = mru ↔ GetAt mru 0 = Some tab.
Proof.
  intros Hin. split.
  - intros He. destruct (bumpMRU_cons _ _ Hin) as [rest Hr].
    rewrite He in Hr. by rewrite Hr.
  - intros [_ Hl]%GetAt_Some. destruct mru as [|t rest]; [done|].
    injection Hl as ->. apply bumpMRU_head.
Qed.

(** C9 (amended). On a page at rest (no removal under way, command palette
    collapsed, nothing parked on the dispatcher): a drag of a tab, the
    [TabView] reporting its item changes, puts the tab at its new index in
    the display order, keeps the order of the other tabs and leaves the MRU
    list as it was.  The move-tab action, [_TryMoveTab], puts the tab at the
    suggested index clamped to the display order and keeps the order of the
    other tabs; when that index is the current one nothing changes at all,
    and otherwise the moved tab becomes the selected item and is bumped to the
    head of the MRU list.  So [_TryMoveTab] leaves the MRU list unchanged
    exactly when the index does not change or the moved tab already heads the
    MRU list. *)
Theorem C9_move_reorders_and_bumps_moved_tab
    (p : TerminalPage) (from to : Z) (tab : TabBase) :
  page_idle p → GetAt (_tabs p) from = Some tab →
  (RaisesTabItemsChanged (_tabView p) = true → 0 ≤ to < Size (_tabs p) →
   ∃ p', dragTab from to p = Ret tt p' ∧
     GetAt (_tabs p') to = Some tab ∧
     delete (Z.to_nat to) (_tabs p') = delete (Z.to_nat from) (_tabs p) ∧
     _mruTabs p' = _mruTabs p) ∧
  (- 2 ^ 31 ≤ to < 2 ^ 31 →
   let newTabIndex := clamp to 0 (Size (_tabs p) - 1) in
   ∃ p', _TryMoveTab from to p = Ret tt p' ∧
     GetAt (_tabs p') newTabIndex = Some tab ∧
     delete (Z.to_nat newTabIndex) (_tabs p') = delete (Z.to_nat from) (_tabs p) ∧
     (from = newTabIndex → p' = p) ∧
     (from ≠ newTabIndex →
      SelectedItem (_tabView p') = Some tab ∧
      _mruTabs p' = bumpMRU tab (_mruTabs p)) ∧
     (_mruTabs p' = _mruTabs p ↔
      from = newTabIndex ∨ GetAt (_mruTabs p) 0 = Some tab)).
Proof.
  intros Hidle Hget. split.
  - intros Hraise Hto.
    destruct (dragTab_spec from to tab p Hidle Hraise Hget Hto)
      as (p' & Hr & _ & _ & Hat & Hdel & Hm & _).
    exists p'. by split_and!.
  - intros Hs n.
    pose proof Hidle as ((Hok & _) & _).
    pose proof Hok as (Hnd & Hperm & Hf)%collection_ok_alt.
    assert (tab ∈ _mruTabs p) as Hin.
    { rewrite Hperm. apply GetAt_Some in Hget as [_ Hl].
      by eapply list_elem_of_lookup_2. }
    destruct (TryMoveTab_spec from to tab p Hidle Hget Hs)
      as (p' & Hr & Hidle' & Hsame & Hmove).
    fold n in Hsame, Hmove.
    pose proof (GetAt_lt _ _ _ Hget) as Hc.
    pose proof (clamp_range to 0 (Size (_tabs p) - 1)) as Hcl.
    fold n in Hcl.
    exists p'. split; [done|].
    destruct (decide (from = n)) as [He|Hne].
    + rewrite (Hsame He). subst n. rewrite <-He. split_and!; try done.
      split; [by left|done].
    + destruct (Hmove Hne) as (Ht & Hsel & Hm). rewrite Ht.
      assert (Z.to_nat n ≤ length (delete (Z.to_nat from) (_tabs p)))%nat as Hlen.
      { rewrite length_delete by (apply GetAt_Some in Hget as [_ Hl]; by eexists).
        unfold Size in *. lia. }
      split_and!; try done.
      * apply GetAt_Some. split; [lia|]. by apply lookup_insert_at.
      * by apply delete_insert_at.
      * rewrite Hm, (bumpMRU_fixed _ _ Hin). split; [by right|].
        by intros [?|?].
Qed.

Lemma C9_witness :
  (∃ p', dragTab 1 0 (fourTabs id) = Ret tt p' ∧
     GetAt (_tabs p') 0 = Some 1%nat ∧
     delete (Z.to_nat 0) (_tabs p') = delete (Z.to_nat 1) (_tabs (fourTabs id)) ∧
     _mruTabs p' = _mruTabs (fourTabs id)) ∧
  (let newTabIndex := clamp 0 0 (Size (_tabs (fourTabs id)) - 1) in
   ∃ p', _TryMoveTab 1 0 (fourTabs id) = Ret tt p' ∧
     GetAt (_tabs p') newTabIndex = Some 1%nat ∧
     delete (Z.to_nat newTabIndex) (_tabs p') = delete (Z.to_nat 1) (_tabs (fourTabs id)) ∧
     (1 = newTabIndex → p' = fourTabs id) ∧
     (1 ≠ newTabIndex →
      SelectedItem (_tabView p') = Some 1%nat ∧
      _mruTabs p' = bumpMRU 1%nat (_mruTabs (fourTabs id))) ∧
     (_mruTabs p' = _mruTabs (fourTabs id) ↔
      1 = newTabIndex ∨ GetAt (_mruTabs (fourTabs id)) 0 = Some 1%nat)).
Proof.
  destruct (C9_move_reorders_and_bumps_moved_tab (fourTabs id) 1 0 1%nat)
    as [Hdrag Hmove].
  - apply (bool_decide_unpack _). vm_compute. exact I.
  - vm_compute. reflexivity.
  - split.
    + apply Hdrag.
      * vm_compute. reflexivity.
      * apply (bool_decide_unpack _). vm_compute. exact I.
    + apply Hmove. apply (bool_decide_unpack _). vm_compute. exact I.
Defined.

(** C9, as stated, fails: with tabs 0 1 2 3 opened in that order (MRU
    3 2 1 0, tab 3 selected), moving the tab at index 1 to index 0 leaves the
    MRU list 1 3 2 0. *)
Lemma C9_counterexample :
  _mruTabs (fourTabs id) = [3; 2; 1; 0]%nat ∧
  _tabs (exec (_TryMoveTab 1 0) (fourTabs id)) = [1; 0; 2; 3]%nat ∧
  _mruTabs (exec (_TryMoveTab 1 0) (fourTabs id)) = [1; 3; 2; 0]%nat.
Proof. vm_compute. done. Qed.

(** ** The tab switcher: what a step previews *)








(** The test [NextMRUTab]: with the tabs opened in the order 0, 1, 2, 3 the
    MRU list is 3, 2, 1, 0; one next-tab request previews tab 2 and leaves
    the list as it is; dismissing the switcher makes it 2, 3, 1, 0. *)
Example NextMRUTab_scenario :
  _mruTabs mruPage = [3; 2; 1; 0]%nat ∧
  _mruTabs (exec (switcherSteps [true]) mruPage) = [3; 2; 1; 0]%nat ∧
  SelectedItem (_tabView (exec (switcherSteps [true]) mruPage)) = Some 2%nat ∧
  _mruTabs (exec (switcherSteps [true];;; dismissSwitcher) mruPage) = [2; 3; 1; 0]%nat.
Proof. vm_compute. done. Qed.
